(** * Spritegen: the sprite pipeline of [tooling/spritegen/main.py]

    A shallow embedding of the command functions of the sprite generation
    tool, and the properties its specification states about them.

    - Python values read from or written to JSON files are trees ([json]);
      a Python [dict] is a finite map with string keys.
    - The sprite directory is a tree of directories and files ([node]),
      rooted at [SPRITES_ROOT]; a path is the list of its segments below
      that root.  Category, subcategory, name and staging id are used by
      the program as single path segments, and that is how the model reads
      them.
    - A command is a function from the state of the world (file tree,
      printed lines, calls made so far) to an outcome: a returned value, an
      exception that propagates, or [sys.exit]. *)

From Stdlib Require Import ZArith String Ascii List DecimalString Lia.
From Stdlib Require DecimalPos DecimalZ.
From stdpp Require Import gmap strings list fin_maps sorting.

#[local] Set Warnings "-register-all".
#[local] Open Scope string_scope.
#[local] Open Scope list_scope.
#[local] Open Scope Z_scope.

(** ** Python values *)

(** A value as [json.load] yields it.  Numbers are integers: the program
    neither writes nor computes with floats. *)
Inductive json : Type :=
| JNull
| JBool (b : bool)
| JInt (z : Z)
| JStr (s : string)
| JList (l : list json)
| JDict (d : gmap string json).

(** Truth value of a Python object, as [if x], [not x] and [x or y] use it. *)
Definition truthy (j : json) : bool :=
  match j with
  | JNull => false
  | JBool b => b
  | JInt z => negb (z =? 0)
  | JStr s => negb (String.eqb s "")
  | JList l => match l with [] => false | _ :: _ => true end
  | JDict d => match map_to_list d with [] => false | _ :: _ => true end
  end.

(** [x or y] *)
Definition py_or (x y : json) : json := if truthy x then x else y.

(** An optional string argument ([None] or a [str]) as a value. *)
Definition of_opt (o : option string) : json :=
  match o with Some s => JStr s | None => JNull end.

(** [str(n)] for an [int]. *)
Definition str_of_Z (z : Z) : string := NilZero.string_of_int (Z.to_int z).

(** [", ".join(parts)] on strings. *)
Definition join (sep : string) (parts : list string) : string :=
  String.concat sep parts.

(** [s[:n]] *)
Definition str_take (n : nat) (s : string) : string := substring 0 n s.

(** ** The sprite tree *)

Definition path := list string.

(** What a file holds: raw bytes (an image, or any text that is not a JSON
    document), or the JSON document [json.dump] wrote. *)
Inductive file_content : Type :=
| Bytes (b : list Byte.byte)
| Json (j : json).

Inductive node : Type :=
| File (c : file_content)
| Dir (ch : gmap string node).

Module FS.

(** The node at path [p] below [t], if any. *)
Fixpoint get (t : node) (p : path) : option node :=
  match p with
  | [] => Some t
  | s :: p' =>
      match t with
      | Dir ch => match ch !! s with Some n => get n p' | None => None end
      | File _ => None
      end
  end.

(** [Path.exists()] *)
Definition exists_ (t : node) (p : path) : bool :=
  match get t p with Some _ => true | None => false end.

(** [os.path.isdir] *)
Definition is_dir (t : node) (p : path) : bool :=
  match get t p with Some (Dir _) => true | _ => false end.

Definition is_file (t : node) (p : path) : bool :=
  match get t p with Some (File _) => true | _ => false end.

(** Bind [x] at path [p]; the parent of [p] has to be a directory. *)
Fixpoint put (t : node) (p : path) (x : node) : option node :=
  match p with
  | [] => Some x
  | s :: p' =>
      match t with
      | Dir ch =>
          match p' with
          | [] => Some (Dir (<[s := x]> ch))
          | _ :: _ =>
              match ch !! s with
              | Some n =>
                  match put n p' x with
                  | Some n' => Some (Dir (<[s := n']> ch))
                  | None => None
                  end
              | None => None
              end
          end
      | File _ => None
      end
  end.

(** Unbind path [p] (a file, or a directory with all below it). *)
Fixpoint remove (t : node) (p : path) : option node :=
  match p with
  | [] => None
  | s :: p' =>
      match t with
      | Dir ch =>
          match ch !! s with
          | Some n =>
              match p' with
              | [] => Some (Dir (delete s ch))
              | _ :: _ =>
                  match remove n p' with
                  | Some n' => Some (Dir (<[s := n']> ch))
                  | None => None
                  end
              end
          | None => None
          end
      | File _ => None
      end
  end.

(** [Path.mkdir(parents=True, exist_ok=True)]: every missing directory
    on the way is created; [None] when a regular file is in the way. *)
Fixpoint mkdirs (t : node) (p : path) : option node :=
  match p with
  | [] => match t with Dir _ => Some t | File _ => None end
  | s :: p' =>
      match t with
      | Dir ch =>
          match mkdirs (default (Dir ∅) (ch !! s)) p' with
          | Some n' => Some (Dir (<[s := n']> ch))
          | None => None
          end
      | File _ => None
      end
  end.

(** Some proper ancestor of [p] is a regular file. *)
Fixpoint blocked (t : node) (p : path) : bool :=
  match p with
  | [] => false
  | s :: p' =>
      match t with
      | Dir ch => match ch !! s with Some n => blocked n p' | None => false end
      | File _ => true
      end
  end.

End FS.

(** ** Outcomes and the command monad *)

Inductive exn : Type :=
| FileNotFoundError (p : path)
| FileExistsError (p : path)
| NotADirectoryError (p : path)
| IsADirectoryError (p : path)
| SameFileError (p : path)
| ShutilError (p : path)
| JSONDecodeError (p : path)
| TypeError
| AttributeError
| KeyError (k : string)
| IndexError
| ValueError
| ApiError (msg : string).

(** Everything a command can change or consume. *)
Record World : Type := mkWorld {
  fs : node;                (* the tree below SPRITES_ROOT *)
  out : list string;        (* one entry per print call, oldest first *)
  uuid_calls : nat;         (* calls of uuid.uuid4() so far *)
  clock : nat;              (* calls of datetime.now() so far *)
  api_calls : nat;          (* generation requests issued so far *)
}.

Inductive Res (A : Type) : Type :=
| Done (a : A) (w : World)          (* normal completion *)
| Raised (e : exn) (w : World)      (* an exception propagates *)
| Exited (code : Z) (w : World).    (* sys.exit(code) *)
Arguments Done {A} a w.
Arguments Raised {A} e w.
Arguments Exited {A} code w.

Definition M (A : Type) : Type := World → Res A.

Definition ret {A} (a : A) : M A := λ w, Done a w.

Definition bind {A B} (m : M A) (k : A → M B) : M B :=
  λ w, match m w with
       | Done a w' => k a w'
       | Raised e w' => Raised e w'
       | Exited c w' => Exited c w'
       end.

Declare Scope cmd_scope.
Delimit Scope cmd_scope with cmd.
Bind Scope cmd_scope with M.
Notation "x <- m ;; k" := (bind m (λ x, k))
  (at level 100, m at next level, right associativity) : cmd_scope.
Notation "m ;; k" := (bind m (λ _, k))
  (at level 100, right associativity) : cmd_scope.
#[local] Open Scope cmd_scope.

Definition raise {A} (e : exn) : M A := λ w, Raised e w.
Definition sys_exit {A} (c : Z) : M A := λ w, Exited c w.

(** [try: body except Exception as e: handler(e)]; [SystemExit] is not an
    [Exception] and passes through. *)
Definition try_except {A} (body : M A) (handler : exn → M A) : M A :=
  λ w, match body w with
       | Raised e w' => handler e w'
       | r => r
       end.

Definition set_fs (t : node) (w : World) : World :=
  mkWorld t (out w) (uuid_calls w) (clock w) (api_calls w).

Definition add_out (line : string) (w : World) : World :=
  mkWorld (fs w) (out w ++ [line]) (uuid_calls w) (clock w) (api_calls w).

Definition print (line : string) : M unit := λ w, Done tt (add_out line w).

Definition read_fs : M node := λ w, Done (fs w) w.
Definition write_fs (t : node) : M unit := λ w, Done tt (set_fs t w).

(** Lift a partial value. *)
Definition of_option {A} (o : option A) (e : exn) : M A :=
  match o with Some a => ret a | None => raise e end.

(** *** File operations of the standard library *)

Definition path_exists (p : path) : M bool :=
  t <- read_fs;; ret (FS.exists_ t p).

(** The error [open] reports when the place of [p] cannot be reached. *)
Definition unreachable (t : node) (p : path) : exn :=
  if FS.blocked t p then NotADirectoryError p else FileNotFoundError p.

Definition mkdir_parents (p : path) : M unit :=
  t <- read_fs;;
  match FS.mkdirs t p with
  | Some t' => write_fs t'
  | None => raise (if FS.is_file t p then FileExistsError p else NotADirectoryError p)
  end.

(** [open(p).read()] *)
Definition read_file (p : path) : M file_content :=
  t <- read_fs;;
  match FS.get t p with
  | Some (File c) => ret c
  | Some (Dir _) => raise (IsADirectoryError p)
  | None => raise (unreachable t p)
  end.

(** [open(p, "w")] and a write of the whole content. *)
Definition write_file (p : path) (c : file_content) : M unit :=
  t <- read_fs;;
  match FS.get t p with
  | Some (Dir _) => raise (IsADirectoryError p)
  | _ =>
      match FS.put t p (File c) with
      | Some t' => write_fs t'
      | None => raise (unreachable t p)
      end
  end.

(** [json.load(open(p))] *)
Definition load_json (p : path) : M json :=
  c <- read_file p;;
  match c with
  | Json j => ret j
  | Bytes _ => raise (JSONDecodeError p)
  end.

(** [json.dump(j, open(p, "w"), indent=2)] *)
Definition dump_json (p : path) (j : json) : M unit := write_file p (Json j).

(** The last segment of a path. *)
Definition basename (p : path) : string := List.last p "".

(** [shutil.copy2(src, dst)] *)
Definition copy2 (src dst : path) : M unit :=
  t <- read_fs;;
  let dst' := if FS.is_dir t dst then dst ++ [basename src] else dst in
  if bool_decide (src = dst') && FS.exists_ t src then raise (SameFileError src) else
  c <- read_file src;;
  write_file dst' c.

(** [shutil.rmtree(p)] *)
Definition rmtree (p : path) : M unit :=
  t <- read_fs;;
  match FS.get t p with
  | Some (Dir _) =>
      match FS.remove t p with
      | Some t' => write_fs t'
      | None => raise (FileNotFoundError p)
      end
  | Some (File _) => raise (NotADirectoryError p)
  | None => raise (unreachable t p)
  end.

(** [shutil.move(src, dst)]: into [dst] when that is a directory, else a
    rename to [dst]; a directory is never renamed onto an existing file. *)
Definition move (src dst : path) : M unit :=
  t <- read_fs;;
  match FS.get t src with
  | None => raise (unreachable t src)
  | Some x =>
      let into := FS.is_dir t dst in
      if into && bool_decide (src = dst) then ret tt else
      let real := if into then dst ++ [basename src] else dst in
      if into && FS.exists_ t real then raise (ShutilError real) else
      match x, FS.get t real with
      | Dir _, Some _ => raise (FileExistsError real)
      | _, _ =>
          match FS.remove t src with
          | None => raise (FileNotFoundError src)
          | Some t1 =>
              match FS.put t1 real x with
              | Some t2 => write_fs t2
              | None => raise (unreachable t1 real)
              end
          end
      end
  end.

(** A value that is pure but may raise. *)
Inductive Result (A : Type) : Type :=
| Ok (a : A)
| Error (e : exn).
Arguments Ok {A} a.
Arguments Error {A} e.

Definition lift {A} (r : Result A) : M A :=
  match r with Ok a => ret a | Error e => raise e end.

Fixpoint for_each {A} (l : list A) (f : A → M unit) : M unit :=
  match l with
  | [] => ret tt
  | x :: l' => f x;; for_each l' f
  end.

(** ** Configuration *)

Definition STYLE_GUIDE_PATH : path := ["style_guide.json"].
Definition MANIFEST_PATH : path := ["manifest.json"].

Definition DEFAULT_STYLE_PROMPT : string :=
  "Retro video game pixel art sprite (NOT digital illustration), black 1px outlines, light source from upper-left (highlights on upper-left edges, shadows on lower-right), medium saturation colors (vibrant but earthy, not neon), crisp pixelated edges, no anti-aliasing, no smooth gradients".

Definition DEFAULT_AESTHETIC : string :=
  "Mythic Greek world with weathered, lived-in feel, mix of human, divine, and monstrous".

Definition SIZE_DEFAULTS : gmap string Z :=
  list_to_map
    [ ("player", 64); ("enemy.minor", 64); ("enemy.major", 128);
      ("enemy.boss", 256); ("weapon", 64); ("effect", 64);
      ("terrain.platform", 64); ("terrain.wall", 64);
      ("terrain.background", 512); ("terrain.tileset", 256);
      ("ui.icon", 32); ("ui.bar", 128); ("ui", 64) ].

Record palette : Type := mkPalette {
  primary : string;
  secondary : string;
  accent : string;
  dark : string;
  description : string;
}.

Definition GOD_PALETTES : gmap string palette :=
  list_to_map
    [ ("zeus", mkPalette "#FFD700" "#00BFFF" "#FFFFFF" "#1a1a2e"
                 "gold, electric blue, white, dark storm colors");
      ("poseidon", mkPalette "#1a3a5c" "#000000" "#FFFFFF" "#0a1520"
                 "dark blue, black, white foam colors");
      ("ares", mkPalette "#8B4513" "#DC143C" "#708090" "#2a1a0a"
                 "brown, crimson, steel gray colors");
      ("demeter", mkPalette "#90EE90" "#87CEEB" "#F0E68C" "#1a2a1a"
                 "gentle green, frost blue, gentle yellow colors") ].

(** The constants as the JSON values [json.dump] writes. *)
Definition palette_json (p : palette) : json :=
  JDict (list_to_map
    [ ("primary", JStr (primary p)); ("secondary", JStr (secondary p));
      ("accent", JStr (accent p)); ("dark", JStr (dark p));
      ("description", JStr (description p)) ]).

Definition GOD_PALETTES_json : json := JDict (palette_json <$> GOD_PALETTES).

(** ** The generation service and the rest of the environment *)

(** A chunk of the streamed response, with the attributes the program
    reads: [chunk.candidates[0].content.parts[0]], and on a part
    [inline_data.data] and [text]. *)
Record Blob : Type := mkBlob { data : option (list Byte.byte) }.
Record Part : Type := mkPart { inline_data : option Blob; text : option string }.
Record Content : Type := mkContent { parts : option (list Part) }.
Record Candidate : Type := mkCandidate { content : option Content }.
Record Chunk : Type := mkChunk { candidates : option (list Candidate) }.

(** One streamed response: the chunks it yields and, after them, the
    message of the exception it raises, if it raises one. *)
Record response : Type := mkResponse {
  chunks : list Chunk;
  failure : option string;
}.

(** An item of a batch manifest: each key may be missing. *)
Record batch_item : Type := mkItem {
  item_category : option string;
  item_subcategory : option string;
  item_name : option string;
  item_prompt : option string;
  item_god : option string;
  item_frames : option Z;
  item_size : option Z;
}.

(** A batch manifest document; [items] may be missing. *)
Record batch_manifest : Type := mkBatch { items : option (list batch_item) }.

(** What a run takes from outside the sprite tree. *)
Record Env : Type := mkEnv {
  sprites_root : string;                 (* str(SPRITES_ROOT) *)
  exception_text : exn → string;         (* str(e) of a library exception *)
  environ : gmap string string;          (* os.environ *)
  dotenv_key : option string;            (* the key a scan of .env yields *)
  uuid4 : nat → string;                  (* str(uuid.uuid4()), call by call *)
  now_iso : nat → string;                (* datetime.now().isoformat(), call by call *)
  generate_content_stream : nat → response;   (* the service, request by request *)
  batch_files : string → option batch_manifest;  (* the batch manifests that exist *)
}.

(** The arguments argparse gives each command.  [generate] is modelled
    without its [--reference] option, which adds a part to the request and
    changes nothing in how the response is handled. *)
Module GenArgs.
Record t : Type := mk {
  category : string;
  subcategory : option string;
  name : string;
  prompt : string;
  god : option string;
  frames : Z;
  size : option Z;
  output : string;
  auto_apply : bool;
}.
End GenArgs.

(** [manifest] is the path of the batch manifest, as [Path] prints it. *)
Module BatchArgs.
Record t : Type := mk { manifest : string; auto_apply : bool }.
End BatchArgs.

Module ApproveArgs.
Record t : Type := mk {
  uuid : string;
  category : option string;
  subcategory : option string;
  name : option string;
}.
End ApproveArgs.

Module RejectArgs.
Record t : Type := mk { uuid : string; reason : option string }.
End RejectArgs.

(** Where a sprite goes, and what else [cmd_generate] fixes before its
    request: the local variables the rest of the function reads. *)
Module Target.
Record t : Type := mk {
  size : Z;
  full_prompt : string;
  asset_id : string;
  output_path : path;
  metadata_path : path;
  status : string;
}.
End Target.

(** [apply] takes the path of a file of the sprite tree. *)
Module ApplyArgs.
Record t : Type := mk { path : list string }.
End ApplyArgs.

(** ** The program *)

Section Program.

(** [repr] of a list or a dict, as an f-string prints one. *)
Variable repr_container : json → string.
Variable E : Env.

(** [f"{x}"] *)
Definition py_str (j : json) : string :=
  match j with
  | JStr s => s
  | JInt z => str_of_Z z
  | JBool true => "True"
  | JBool false => "False"
  | JNull => "None"
  | _ => repr_container j
  end.

(** [str(SPRITES_ROOT / ...)] *)
Definition abs_str (p : path) : string := join "/" (sprites_root E :: p).

(** [str(p.relative_to(SPRITES_ROOT.parent.parent))] *)
Definition project_rel (p : path) : string := join "/" ("assets" :: "sprites" :: p).

(** [d.get(key)] on a loaded document *)
Definition dict_get (j : json) (key : string) : Result json :=
  match j with
  | JDict d => Ok (default JNull (d !! key))
  | _ => Error AttributeError
  end.

(** [d.get(key, dflt)] *)
Definition dict_get_default (j : json) (key : string) (dflt : json) : Result json :=
  match j with
  | JDict d => Ok (default dflt (d !! key))
  | _ => Error AttributeError
  end.

(** [d[key] = v] *)
Definition dict_set (j : json) (key : string) (v : json) : Result json :=
  match j with
  | JDict d => Ok (JDict (<[key := v]> d))
  | _ => Error TypeError
  end.

(** [SPRITES_ROOT / ... / x]: only a [str] joins a path. *)
Definition segment (j : json) : Result string :=
  match j with
  | JStr s => Ok s
  | _ => Error TypeError
  end.

(** *** Utility functions *)

Definition get_api_client : M unit :=
  let api_key :=
    py_or (of_opt (environ E !! "GEMINI_API_KEY"))
          (of_opt (environ E !! "SPRITEGEN_API_KEY")) in
  let api_key :=
    if truthy api_key then api_key
    else match dotenv_key E with Some k => JStr k | None => api_key end in
  if truthy api_key then ret tt
  else
    print "Error: GEMINI_API_KEY or SPRITEGEN_API_KEY not found in environment or .env file";;
    sys_exit 1.

Definition standard_dirs : list path :=
  [ ["staging"];
    ["used"; "player"; "base"];
    ["used"; "player"; "hair"];
    ["used"; "player"; "face"];
    ["used"; "player"; "clothing"];
    ["used"; "enemies"; "minor"];
    ["used"; "enemies"; "major"];
    ["used"; "enemies"; "boss"];
    ["used"; "terrain"; "platforms"];
    ["used"; "terrain"; "walls"];
    ["used"; "terrain"; "backgrounds"];
    ["used"; "terrain"; "tilesets"];
    ["used"; "weapons"; "sword"];
    ["used"; "weapons"; "spear"];
    ["used"; "effects"; "hit"];
    ["used"; "effects"; "dash"];
    ["used"; "ui"; "health"];
    ["used"; "ui"; "icons"];
    ["alternatives"] ].

Definition ensure_directories : M unit :=
  for_each standard_dirs mkdir_parents.

Definition default_style_guide : gmap string json :=
  list_to_map
    [ ("base_style", JStr DEFAULT_STYLE_PROMPT);
      ("aesthetic", JStr DEFAULT_AESTHETIC);
      ("palettes", GOD_PALETTES_json) ].

Definition load_style_guide : M json :=
  b <- path_exists STYLE_GUIDE_PATH;;
  if b then load_json STYLE_GUIDE_PATH
  else ret (JDict default_style_guide).

Definition save_style_guide (guide : json) : M unit :=
  dump_json STYLE_GUIDE_PATH guide.

Definition empty_manifest : json :=
  JDict (list_to_map [ ("version", JInt 1); ("assets", JDict ∅) ]).

Definition load_manifest : M json :=
  b <- path_exists MANIFEST_PATH;;
  if b then load_json MANIFEST_PATH
  else ret empty_manifest.

Definition save_manifest (manifest : json) : M unit :=
  dump_json MANIFEST_PATH manifest.

Definition get_size_for_category (category : string) (subcategory : option string) : Z :=
  let by_category := default 64 (SIZE_DEFAULTS !! category) in
  if truthy (of_opt subcategory) then
    let key := category +:+ "." +:+ py_str (of_opt subcategory) in
    match SIZE_DEFAULTS !! key with
    | Some n => n
    | None => by_category
    end
  else by_category.

(** [style_guide.get(key, dflt) if style_guide else dflt] *)
Definition guide_text (style_guide : json) (key dflt : string) : Result json :=
  if truthy style_guide then dict_get_default style_guide key (JStr dflt)
  else Ok (JStr dflt).

(** The size clause of a prompt. *)
Definition size_clause (size frames : Z) : string :=
  if 1 <? frames then
    let total_width := size * frames in
    "sprite sheet with " +:+ str_of_Z frames
      +:+ " frames arranged horizontally, total image size "
      +:+ str_of_Z total_width +:+ "x" +:+ str_of_Z size
      +:+ " pixels, each frame " +:+ str_of_Z size +:+ "x" +:+ str_of_Z size
      +:+ " pixels"
  else
    "single sprite, " +:+ str_of_Z size +:+ "x" +:+ str_of_Z size +:+ " pixels".

(** The palette clause: [if god and god in GOD_PALETTES]. *)
Definition palette_clause (god : option string) : list json :=
  match god with
  | Some g =>
      if truthy (JStr g) then
        match GOD_PALETTES !! g with
        | Some palette =>
            [JStr ("using " +:+ description palette +:+ " color palette")]
        | None => []
        end
      else []
  | None => []
  end.

(** [sep.join(parts)]: every part has to be a [str]. *)
Fixpoint strings_of (l : list json) : option (list string) :=
  match l with
  | [] => Some []
  | JStr s :: l' =>
      match strings_of l' with Some r => Some (s :: r) | None => None end
  | _ :: _ => None
  end.

Definition py_join (sep : string) (l : list json) : Result string :=
  match strings_of l with
  | Some r => Ok (join sep r)
  | None => Error TypeError
  end.

Definition build_prompt (base_prompt category : string) (size frames : Z)
    (god : option string) (style_guide : json) : Result string :=
  match guide_text style_guide "base_style" DEFAULT_STYLE_PROMPT with
  | Error e => Error e
  | Ok style =>
      match guide_text style_guide "aesthetic" DEFAULT_AESTHETIC with
      | Error e => Error e
      | Ok aesthetic =>
          py_join ", "
            ([style; JStr (size_clause size frames); aesthetic]
               ++ palette_clause god ++ [JStr base_prompt])
      end
  end.

(** The manifest key of an asset, as all three commands write it:
    [f"{category}.{subcategory}.{name}" if subcategory else f"{category}.{name}"]. *)
Definition asset_key (category subcategory name : json) : string :=
  if truthy subcategory
  then py_str category +:+ "." +:+ py_str subcategory +:+ "." +:+ py_str name
  else py_str category +:+ "." +:+ py_str name.

(** [manifest["assets"][asset_key] = entry] *)
Definition record_asset (manifest : json) (key : string) (entry : json) : Result json :=
  match manifest with
  | JDict m =>
      match m !! "assets" with
      | Some (JDict a) => Ok (JDict (<["assets" := JDict (<[key := entry]> a)]> m))
      | Some _ => Error TypeError
      | None => Error (KeyError "assets")
      end
  | _ => Error TypeError
  end.

Definition manifest_entry (p : path) (frames size : json) : json :=
  JDict (list_to_map
    [ ("path", JStr (project_rel p)); ("frames", frames); ("size", size) ]).

(** *** generate *)

(** [chunk.candidates[0].content.parts[0]], or nothing when one of the
    three attributes is [None] (the loop then goes on to the next chunk);
    an empty list raises [IndexError]. *)
Definition first_part (chunk : Chunk) : Result (option Part) :=
  match candidates chunk with
  | None => Ok None
  | Some [] => Error IndexError
  | Some (c :: _) =>
      match content c with
      | None => Ok None
      | Some ct =>
          match parts ct with
          | None => Ok None
          | Some [] => Error IndexError
          | Some (p :: _) => Ok (Some p)
          end
      end
  end.

(** [part.inline_data and part.inline_data.data] *)
Definition image_of (p : Part) : option (list Byte.byte) :=
  match inline_data p with
  | Some b =>
      match data b with
      | Some (x :: d) => Some (x :: d)
      | _ => None
      end
  | None => None
  end.

(** [hasattr(part, 'text') and part.text] *)
Definition note_of (p : Part) : option string :=
  match text p with
  | Some s => if truthy (JStr s) then Some s else None
  | None => None
  end.

(** The body of the [for chunk in ...] loop, over the chunks the stream
    yields. *)
Fixpoint consume (output_path : path) (cs : list Chunk) (image_saved : bool) : M bool :=
  match cs with
  | [] => ret image_saved
  | chunk :: rest =>
      p <- lift (first_part chunk);;
      match p with
      | None => consume output_path rest image_saved
      | Some part =>
          match image_of part with
          | Some d =>
              write_file output_path (Bytes d);;
              print ("Saved sprite to: " +:+ abs_str output_path);;
              consume output_path rest true
          | None =>
              match note_of part with
              | Some s =>
                  print ("API note: " +:+ s);;
                  consume output_path rest image_saved
              | None => consume output_path rest image_saved
              end
          end
      end
  end.

(** One request to the service. *)
Definition count_request (w : World) : World :=
  mkWorld (fs w) (out w) (uuid_calls w) (clock w) (S (api_calls w)).

Definition next_response : M response :=
  λ w, Done (generate_content_stream E (api_calls w)) (count_request w).

Definition count_uuid (w : World) : World :=
  mkWorld (fs w) (out w) (S (uuid_calls w)) (clock w) (api_calls w).

(** [str(uuid.uuid4())] *)
Definition next_uuid : M string :=
  λ w, Done (uuid4 E (uuid_calls w)) (count_uuid w).

Definition tick (w : World) : World :=
  mkWorld (fs w) (out w) (uuid_calls w) (S (clock w)) (api_calls w).

(** [datetime.now().isoformat()] *)
Definition datetime_now : M string :=
  λ w, Done (now_iso E (clock w)) (tick w).

(** [str(e)] in the handler of [cmd_generate]. *)
Definition exn_text (e : exn) : string :=
  match e with
  | ApiError msg => msg
  | IndexError => "list index out of range"
  | _ => exception_text E e
  end.

(** The [try] block of [cmd_generate]: [Some 1] stands for its two
    [return 1], [None] for falling through to the code after it. *)
Definition call_api (output_path : path) : M (option Z) :=
  try_except
    (r <- next_response;;
     image_saved <- consume output_path (chunks r) false;;
     match failure r with
     | Some msg => raise (ApiError msg)
     | None =>
         if negb image_saved then
           print "Error: No image was generated";; ret (Some 1)
         else ret None
     end)
    (λ e, print ("Error generating image: " +:+ exn_text e);; ret (Some 1)).

Definition when (b : bool) (m : M unit) : M unit := if b then m else ret tt.

Definition nl : string := String "010"%char "".

(** The key [cmd_generate] records a direct sprite under. *)
Definition generate_key (args : GenArgs.t) : string :=
  asset_key (JStr (GenArgs.category args)) (of_opt (GenArgs.subcategory args))
            (JStr (GenArgs.name args)).

(** [cmd_generate] up to the [try] block: prompt, credentials, asset id
    and output location. *)
Definition generate_target (args : GenArgs.t) : M Target.t :=
  let category := GenArgs.category args in
  let subcategory := GenArgs.subcategory args in
  let name := GenArgs.name args in
  ensure_directories;;
  style_guide <- load_style_guide;;
  let size :=
    match GenArgs.size args with
    | Some n => n
    | None => get_size_for_category category subcategory
    end in
  full_prompt <-
    lift (build_prompt (GenArgs.prompt args) category size (GenArgs.frames args)
            (GenArgs.god args) style_guide);;
  print "Generating sprite...";;
  print ("  Category: " +:+ category);;
  when (truthy (of_opt subcategory))
    (print ("  Subcategory: " +:+ py_str (of_opt subcategory)));;
  print ("  Name: " +:+ name);;
  print ("  Size: " +:+ str_of_Z size +:+ "x" +:+ str_of_Z size);;
  print ("  Frames: " +:+ str_of_Z (GenArgs.frames args));;
  when (truthy (of_opt (GenArgs.god args)))
    (print ("  God palette: " +:+ py_str (of_opt (GenArgs.god args))));;
  print ("  Prompt: " +:+ str_take 100 full_prompt +:+ "...");;
  print "";;
  get_api_client;;
  u <- next_uuid;;
  let asset_id := str_take 8 u in
  let direct := String.eqb (GenArgs.output args) "direct" || GenArgs.auto_apply args in
  let output_dir :=
    if direct then
      if truthy (of_opt subcategory)
      then ["used"; category; py_str (of_opt subcategory)]
      else ["used"; category]
    else ["staging"; asset_id] in
  mkdir_parents output_dir;;
  ret (Target.mk size full_prompt asset_id
         (output_dir ++ [if direct then name +:+ ".png" else "sprite.png"])
         (output_dir ++ [if direct then name +:+ ".meta.json" else "metadata.json"])
         (if direct then "used" else "staging")).

(** [cmd_generate] after the [try] block: the metadata record and, for a
    direct sprite, the manifest entry. *)
Definition generate_record (args : GenArgs.t) (tg : Target.t) : M Z :=
  created_at <- datetime_now;;
  let metadata :=
    JDict (list_to_map
      [ ("id", JStr (Target.asset_id tg));
        ("created_at", JStr created_at);
        ("prompt", JStr (GenArgs.prompt args));
        ("full_prompt", JStr (Target.full_prompt tg));
        ("god_palette", of_opt (GenArgs.god args));
        ("category", JStr (GenArgs.category args));
        ("subcategory", of_opt (GenArgs.subcategory args));
        ("name", JStr (GenArgs.name args));
        ("size", JInt (Target.size tg));
        ("frames", JInt (GenArgs.frames args));
        ("status", JStr (Target.status tg)) ]) in
  dump_json (Target.metadata_path tg) metadata;;
  (if String.eqb (Target.status tg) "used" then
     manifest <- load_manifest;;
     let key := generate_key args in
     manifest <-
       lift (record_asset manifest key
               (manifest_entry (Target.output_path tg) (JInt (GenArgs.frames args))
                  (JInt (Target.size tg))));;
     save_manifest manifest;;
     print ("Updated manifest with key: " +:+ key)
   else
     print (nl +:+ "Asset staged with ID: " +:+ Target.asset_id tg);;
     print ("To approve: spritegen approve " +:+ Target.asset_id tg +:+ " --category "
              +:+ GenArgs.category args +:+ " --name " +:+ GenArgs.name args));;
  ret 0.

Definition cmd_generate (args : GenArgs.t) : M Z :=
  tg <- generate_target args;;
  r <- call_api (Target.output_path tg);;
  match r with
  | Some code => ret code
  | None => generate_record args tg
  end.

(** *** batch *)

Definition item_args (auto_apply : bool) (i : nat) (item : batch_item) : GenArgs.t :=
  GenArgs.mk
    (default "player" (item_category item))
    (item_subcategory item)
    (default ("sprite_" +:+ str_of_Z (Z.of_nat i)) (item_name item))
    (default "" (item_prompt item))
    (item_god item)
    (default 1 (item_frames item))
    (item_size item)
    (if auto_apply then "direct" else "staging")
    auto_apply.

(** The loop [for i, item in enumerate(items, 1)], from index [i] on;
    [total] is [len(items)]. *)
Fixpoint batch_loop (auto_apply : bool) (total : nat) (i : nat)
    (l : list batch_item) : M unit :=
  match l with
  | [] => ret tt
  | item :: rest =>
      print (nl +:+ "[" +:+ str_of_Z (Z.of_nat i) +:+ "/" +:+ str_of_Z (Z.of_nat total)
               +:+ "] Generating " +:+ default "unnamed" (item_name item) +:+ "...");;
      result <- cmd_generate (item_args auto_apply i item);;
      when (negb (result =? 0))
        (print ("Warning: Failed to generate " +:+ py_str (of_opt (item_name item))));;
      batch_loop auto_apply total (S i) rest
  end.

Definition cmd_batch (args : BatchArgs.t) : M Z :=
  match batch_files E (BatchArgs.manifest args) with
  | None =>
      print ("Error: Manifest file not found: " +:+ BatchArgs.manifest args);;
      ret 1
  | Some batch_manifest =>
      let l := default [] (items batch_manifest) in
      print ("Processing " +:+ str_of_Z (Z.of_nat (length l)) +:+ " items...");;
      batch_loop (BatchArgs.auto_apply args) (length l) 1 l;;
      print (nl +:+ "Batch complete. Generated " +:+ str_of_Z (Z.of_nat (length l))
               +:+ " sprites.");;
      ret 0
  end.

(** *** approve *)

Definition cmd_approve (args : ApproveArgs.t) : M Z :=
  let uuid := ApproveArgs.uuid args in
  ensure_directories;;
  let staging_dir := ["staging"; uuid] in
  found <- path_exists staging_dir;;
  if negb found then
    print ("Error: Staging asset not found: " +:+ uuid);; ret 1
  else
  let meta_path := staging_dir ++ ["metadata.json"] in
  found <- path_exists meta_path;;
  if negb found then
    print ("Error: Metadata not found for " +:+ uuid);; ret 1
  else
  meta <- load_json meta_path;;
  category <-
    (if truthy (of_opt (ApproveArgs.category args))
     then ret (of_opt (ApproveArgs.category args))
     else lift (dict_get meta "category"));;
  subcategory <-
    (if truthy (of_opt (ApproveArgs.subcategory args))
     then ret (of_opt (ApproveArgs.subcategory args))
     else lift (dict_get meta "subcategory"));;
  name <-
    (if truthy (of_opt (ApproveArgs.name args))
     then ret (of_opt (ApproveArgs.name args))
     else lift (dict_get meta "name"));;
  if negb (truthy category) || negb (truthy name) then
    print "Error: Must specify --category and --name, or they must be in metadata";;
    ret 1
  else
  c <- lift (segment category);;
  dest_dir <-
    (if truthy subcategory
     then (s <- lift (segment subcategory);; ret ["used"; c; s])
     else ret ["used"; c]);;
  mkdir_parents dest_dir;;
  let src_sprite := staging_dir ++ ["sprite.png"] in
  let dest_sprite := dest_dir ++ [py_str name +:+ ".png"] in
  let dest_meta := dest_dir ++ [py_str name +:+ ".meta.json"] in
  copy2 src_sprite dest_sprite;;
  meta <- lift (dict_set meta "status" (JStr "used"));;
  approved_at <- datetime_now;;
  meta <- lift (dict_set meta "approved_at" (JStr approved_at));;
  dump_json dest_meta meta;;
  manifest <- load_manifest;;
  let key := asset_key category subcategory name in
  frames <- lift (dict_get_default meta "frames" (JInt 1));;
  size <- lift (dict_get_default meta "size" (JInt 64));;
  manifest <- lift (record_asset manifest key (manifest_entry dest_sprite frames size));;
  save_manifest manifest;;
  rmtree staging_dir;;
  print ("Approved " +:+ uuid +:+ " -> " +:+ key);;
  print ("Saved to: " +:+ abs_str dest_sprite);;
  ret 0.

(** *** reject *)

Definition cmd_reject (args : RejectArgs.t) : M Z :=
  let uuid := RejectArgs.uuid args in
  ensure_directories;;
  let staging_dir := ["staging"; uuid] in
  found <- path_exists staging_dir;;
  if negb found then
    print ("Error: Staging asset not found: " +:+ uuid);; ret 1
  else
  let alt_dir := ["alternatives"; uuid] in
  move staging_dir alt_dir;;
  let meta_path := alt_dir ++ ["metadata.json"] in
  found <- path_exists meta_path;;
  when found
    (meta <- load_json meta_path;;
     meta <- lift (dict_set meta "status" (JStr "rejected"));;
     meta <- lift (dict_set meta "rejection_reason" (of_opt (RejectArgs.reason args)));;
     rejected_at <- datetime_now;;
     meta <- lift (dict_set meta "rejected_at" (JStr rejected_at));;
     dump_json meta_path meta);;
  print ("Rejected " +:+ uuid);;
  when (truthy (of_opt (RejectArgs.reason args)))
    (print ("Reason: " +:+ py_str (of_opt (RejectArgs.reason args))));;
  ret 0.

(** *** apply *)

(** The index of the last ["."] of a file name. *)
Fixpoint rfind_dot (s : string) : option nat :=
  match s with
  | EmptyString => None
  | String c s' =>
      match rfind_dot s' with
      | Some i => Some (S i)
      | None => if Ascii.eqb c "."%char then Some 0%nat else None
      end
  end.

(** [PurePath.stem] and [PurePath.suffix] of a file name: the suffix starts
    at the last dot, unless that dot is the first or the last character. *)
Definition split_suffix (name : string) : string * string :=
  match rfind_dot name with
  | Some i =>
      if (0 <? i)%nat && (i <? String.length name - 1)%nat
      then (substring 0 i name, substring i (String.length name - i) name)
      else (name, "")
  | None => (name, "")
  end.

Definition stem (p : path) : string := fst (split_suffix (basename p)).

(** [PurePath.with_suffix] *)
Definition with_suffix (p : path) (suffix : string) : path :=
  removelast p ++ [stem p +:+ suffix].

(** The key [cmd_apply] builds from a sidecar record ([if meta:]). *)
Definition apply_key (meta : json) (asset_path : path) : Result string :=
  match dict_get_default meta "category" (JStr "unknown") with
  | Error e => Error e
  | Ok category =>
      match dict_get meta "subcategory" with
      | Error e => Error e
      | Ok subcategory =>
          match dict_get_default meta "name" (JStr (stem asset_path)) with
          | Error e => Error e
          | Ok name => Ok (asset_key category subcategory name)
          end
      end
  end.

(** The key [cmd_apply] infers from the place of the file below the used
    tree when there is no sidecar record; [relative_to] raises for a path
    that is not below it. *)
Definition inferred_key (asset_path : path) : Result string :=
  match asset_path with
  | "used" :: rel => Ok (join "." (removelast rel) +:+ "." +:+ stem asset_path)
  | _ => Error ValueError
  end.

Definition cmd_apply (args : ApplyArgs.t) : M Z :=
  let asset_path := ApplyArgs.path args in
  found <- path_exists asset_path;;
  if negb found then
    print ("Error: Asset not found: " +:+ abs_str asset_path);; ret 1
  else
  let meta_path := with_suffix asset_path ".meta.json" in
  found <- path_exists meta_path;;
  meta <- (if found then load_json meta_path else ret (JDict ∅));;
  key <-
    (if truthy meta then lift (apply_key meta asset_path)
     else
       lift (inferred_key asset_path));;
  manifest <- load_manifest;;
  frames <- lift (dict_get_default meta "frames" (JInt 1));;
  size <- lift (dict_get_default meta "size" (JInt 64));;
  manifest <- lift (record_asset manifest key (manifest_entry asset_path frames size));;
  save_manifest manifest;;
  print ("Applied " +:+ key +:+ " to manifest");;
  ret 0.

(** *** init *)

Definition cmd_init : M Z :=
  ensure_directories;;
  found <- path_exists STYLE_GUIDE_PATH;;
  when (negb found)
    (let style_guide :=
       JDict (list_to_map
         [ ("base_style", JStr DEFAULT_STYLE_PROMPT);
           ("palettes", GOD_PALETTES_json) ]) in
     save_style_guide style_guide;;
     print ("Created style guide: " +:+ abs_str STYLE_GUIDE_PATH));;
  found <- path_exists MANIFEST_PATH;;
  when (negb found)
    (save_manifest empty_manifest;;
     print ("Created manifest: " +:+ abs_str MANIFEST_PATH));;
  print "Sprite directories initialized.";;
  ret 0.

End Program.

(** *** The scan of the [.env] file in [get_api_client] *)

(** [c.isspace()], for the characters a [string] holds. *)
Definition is_space (c : ascii) : bool :=
  let n := nat_of_ascii c in
  ((9 <=? n) && (n <=? 13) || (28 <=? n) && (n <=? 32) || (n =? 133) || (n =? 160))%nat.

(** The characters of ['"\''] in [.strip('"\'')]. *)
Definition is_quote (c : ascii) : bool :=
  Ascii.eqb c (ascii_of_nat 34) || Ascii.eqb c (ascii_of_nat 39).

Fixpoint lstrip (f : ascii → bool) (s : string) : string :=
  match s with
  | EmptyString => EmptyString
  | String c s' => if f c then lstrip f s' else s
  end.

Fixpoint rstrip (f : ascii → bool) (s : string) : string :=
  match s with
  | EmptyString => EmptyString
  | String c s' =>
      match rstrip f s' with
      | EmptyString => if f c then EmptyString else String c EmptyString
      | r => String c r
      end
  end.

(** [s.strip()] with [is_space], [s.strip(chars)] with the test of [chars]. *)
Definition strip (f : ascii → bool) (s : string) : string := rstrip f (lstrip f s).

(** [s.split("=", 1)[1]]: what follows the first ["="]; an [IndexError]
    when there is none. *)
Fixpoint after_eq (s : string) : Result string :=
  match s with
  | EmptyString => Error IndexError
  | String c s' => if Ascii.eqb c "=" then Ok s' else after_eq s'
  end.

(** The loop over the lines of the file: the value of the first line that
    names one of the two keys. *)
Fixpoint scan_env (lines : list string) : Result (option string) :=
  match lines with
  | [] => Ok None
  | line :: rest =>
      let line := strip is_space line in
      if String.prefix "GEMINI_API_KEY=" line || String.prefix "SPRITEGEN_API_KEY=" line then
        match after_eq line with
        | Ok v => Ok (Some (strip is_quote v))
        | Error e => Error e
        end
      else scan_env rest
  end.

(** *** list *)

Module ListArgs.
Record t : Type := mk { status : string; category : option string }.
End ListArgs.

(** [list(p.iterdir())]: the names of the entries of a directory, in the
    order the file system gives them. *)
Definition iterdir (p : path) : M (list string) :=
  t <- read_fs;;
  match FS.get t p with
  | Some (Dir ch) => ret (map_to_list ch).*1
  | Some (File _) => raise (NotADirectoryError p)
  | None => raise (unreachable t p)
  end.

(** The order of [sorted] on the entries of one directory, and on the
    items of a dict: by name, respectively by key. *)
Definition name_le (a b : string) : Prop := Is_true (String.leb a b).
Definition key_le (a b : string * json) : Prop := Is_true (String.leb a.1 b.1).

#[global] Instance name_le_dec : RelDecision name_le := λ a b, Is_true_dec (String.leb a b).
#[global] Instance key_le_dec : RelDecision key_le := λ a b, Is_true_dec (String.leb a.1 b.1).

Definition sorted_names (l : list string) : list string := merge_sort name_le l.

Definition sorted_items (l : list (string * json)) : list (string * json) :=
  merge_sort key_le l.

(** [len(x)] *)
Definition py_len (j : json) : Result nat :=
  match j with
  | JStr s => Ok (String.length s)
  | JList l => Ok (length l)
  | JDict d => Ok (size d)
  | _ => Error TypeError
  end.

(** [x.items()] *)
Definition dict_items (j : json) : Result (gmap string json) :=
  match j with
  | JDict d => Ok d
  | _ => Error AttributeError
  end.

Section Listing.

Variable repr_container : json → string.

(** The exception [d[:50]] raises on a dict: [TypeError] (unhashable
    slice) before Python 3.12, [KeyError] from then on. *)
Variable dict_slice_error : exn.

(** [x[:n]] *)
Definition py_slice (n : nat) (j : json) : Result json :=
  match j with
  | JStr s => Ok (JStr (str_take n s))
  | JList l => Ok (JList (take n l))
  | JDict _ => Error dict_slice_error
  | _ => Error TypeError
  end.

(** The body of the loop over the staging directory. *)
Definition list_staging_item (name : string) : M unit :=
  let item := ["staging"; name] in
  t <- read_fs;;
  when (FS.is_dir t item)
    (let meta_path := item ++ ["metadata.json"] in
     found <- path_exists meta_path;;
     when found
       (meta <- load_json meta_path;;
        print ("  " +:+ name);;
        category <- lift (dict_get meta "category");;
        print ("    Category: " +:+ py_str repr_container category);;
        name' <- lift (dict_get meta "name");;
        print ("    Name: " +:+ py_str repr_container name');;
        prompt <- lift (dict_get_default meta "prompt" (JStr ""));;
        prompt <- lift (py_slice 50 prompt);;
        print ("    Prompt: " +:+ py_str repr_container prompt +:+ "...");;
        print "")).

(** The body of the loop over the alternatives directory. *)
Definition list_alternatives_item (name : string) : M unit :=
  let item := ["alternatives"; name] in
  t <- read_fs;;
  when (FS.is_dir t item)
    (let meta_path := item ++ ["metadata.json"] in
     found <- path_exists meta_path;;
     when found
       (meta <- load_json meta_path;;
        print ("  " +:+ name);;
        category <- lift (dict_get meta "category");;
        name' <- lift (dict_get meta "name");;
        print ("    Original: " +:+ py_str repr_container category +:+ "/"
                 +:+ py_str repr_container name');;
        reason <- lift (dict_get_default meta "rejection_reason" (JStr "N/A"));;
        print ("    Reason: " +:+ py_str repr_container reason);;
        print "")).

(** The body of the loop over the manifest entries. *)
Definition list_used_item (entry : string * json) : M unit :=
  let '(key, info) := entry in
  print ("  " +:+ key);;
  path <- lift (dict_get info "path");;
  print ("    Path: " +:+ py_str repr_container path);;
  size <- lift (dict_get info "size");;
  size' <- lift (dict_get info "size");;
  print ("    Size: " +:+ py_str repr_container size +:+ "x" +:+ py_str repr_container size');;
  frames <- lift (dict_get info "frames");;
  print ("    Frames: " +:+ py_str repr_container frames);;
  print "".

Definition cmd_list (args : ListArgs.t) : M Z :=
  let status := ListArgs.status args in
  let category := of_opt (ListArgs.category args) in
  ensure_directories;;
  if String.eqb status "staging" then
    let staging_dir := ["staging"] in
    found <- path_exists staging_dir;;
    if negb found then print "No staging assets.";; ret 0 else
    items <- iterdir staging_dir;;
    if bool_decide (items = []) then print "No staging assets.";; ret 0 else
    print ("Staging assets (" +:+ str_of_Z (Z.of_nat (length items)) +:+ "):" +:+ nl);;
    for_each (sorted_names items) list_staging_item;;
    ret 0
  else if String.eqb status "used" then
    manifest <- load_manifest;;
    assets <- lift (dict_get_default manifest "assets" (JDict ∅));;
    assets <-
      (if truthy category then
         items <- lift (dict_items assets);;
         ret (JDict (filter (λ kv, Is_true (String.prefix (py_str repr_container category) kv.1)) items))
       else ret assets);;
    if negb (truthy assets) then
      print ("No used assets"
               +:+ (if truthy category
                    then " in category '" +:+ py_str repr_container category +:+ "'" else "")
               +:+ ".");;
      ret 0
    else
    n <- lift (py_len assets);;
    print ("Used assets (" +:+ str_of_Z (Z.of_nat n) +:+ "):" +:+ nl);;
    items <- lift (dict_items assets);;
    for_each (sorted_items (map_to_list items)) list_used_item;;
    ret 0
  else if String.eqb status "alternatives" then
    let alt_dir := ["alternatives"] in
    found <- path_exists alt_dir;;
    if negb found then print "No alternative assets.";; ret 0 else
    items <- iterdir alt_dir;;
    if bool_decide (items = []) then print "No alternative assets.";; ret 0 else
    print ("Alternative assets (" +:+ str_of_Z (Z.of_nat (length items)) +:+ "):" +:+ nl);;
    for_each (sorted_names items) list_alternatives_item;;
    ret 0
  else ret 0.

End Listing.

(** ** The vocabulary of the specification *)

(** Key derivation in the words of the specification: category, then the
    subcategory when one is present, then the name, joined by dots. *)
Definition derive (category : string) (subcategory : option string) (name : string) : string :=
  match subcategory with
  | Some s => category +:+ "." +:+ s +:+ "." +:+ name
  | None => category +:+ "." +:+ name
  end.

(** The palette description of a known god, as a prompt part. *)
Definition palette_text (god : option string) : list string :=
  match god with
  | Some g =>
      match GOD_PALETTES !! g with
      | Some p => ["using " +:+ description p +:+ " color palette"]
      | None => []
      end
  | None => []
  end.

(** [needle in hay] *)
Definition contains (needle hay : string) : bool :=
  match index 0 needle hay with Some _ => true | None => false end.

Fixpoint has_slash (s : string) : bool :=
  match s with
  | EmptyString => false
  | String c s' => Ascii.eqb c "/" || has_slash s'
  end.

(** A string that names one entry of a directory: the strings for which a
    path segment of the model is a path segment of the file system. *)
Definition is_file_name (s : string) : bool :=
  negb (String.eqb s "") && negb (String.eqb s ".") && negb (String.eqb s "..")
  && negb (has_slash s).

(** [s[n:]] *)
Fixpoint str_drop (n : nat) (s : string) : string :=
  match n, s with
  | O, _ => s
  | S n', String _ s' => str_drop n' s'
  | S _, EmptyString => EmptyString
  end.

(** The directory of the used tree an asset goes to. *)
Definition dest_dir (category : string) (subcategory : option string) : path :=
  "used" :: category :: match subcategory with Some s => [s] | None => [] end.

(** What [arg or meta.get(key)] evaluates to on a metadata record. *)
Definition resolved (arg : option string) (meta : gmap string json) (key : string) : json :=
  py_or (of_opt arg) (default JNull (meta !! key)).

(** The manifest document of a tree: the default one when there is no
    manifest file. *)
Definition manifest_doc (t : node) : option json :=
  match FS.get t MANIFEST_PATH with
  | None => Some empty_manifest
  | Some (File (Json j)) => Some j
  | _ => None
  end.

(** From [t] to [t'] no regular file was created, changed or removed, and
    no directory was removed. *)
Definition files_kept (t t' : node) : Prop :=
  (∀ q c, FS.get t' q = Some (File c) ↔ FS.get t q = Some (File c))
  ∧ (∀ q, FS.is_dir t q = true → FS.is_dir t' q = true).

(** The document [cmd_init] writes for a style guide. *)
Definition seeded_style_guide : gmap string json :=
  list_to_map [ ("base_style", JStr DEFAULT_STYLE_PROMPT); ("palettes", GOD_PALETTES_json) ].

(** The image payload a chunk carries, as the loop reads it. *)
Definition chunk_image (c : Chunk) : option (list Byte.byte) :=
  match first_part c with
  | Ok (Some p) => image_of p
  | _ => None
  end.

(** The text note of a chunk that carries no image. *)
Definition chunk_note (c : Chunk) : option string :=
  match first_part c with
  | Ok (Some p) =>
      match image_of p with
      | Some _ => None
      | None => note_of p
      end
  | _ => None
  end.

(** A chunk carries inline image data: some part of some candidate holds
    a non-empty payload. *)
Definition carries_image (c : Chunk) : bool :=
  existsb
    (λ cand,
       match content cand with
       | Some ct =>
           existsb (λ p, match image_of p with Some _ => true | None => false end)
                   (default [] (parts ct))
       | None => false
       end)
    (default [] (candidates c)).

(** A chunk the loop can index: no empty list of candidates or parts. *)
Definition well_formed (c : Chunk) : Prop := ∃ p, first_part c = Ok p.

Definition images (cs : list Chunk) : list (list Byte.byte) := omap chunk_image cs.

Definition has_image (cs : list Chunk) : bool :=
  match images cs with [] => false | _ :: _ => true end.

(** A file can be written at [p]: its directory is there and [p] is not
    itself a directory. *)
Definition writable (t : node) (p : path) : Prop :=
  FS.is_dir t p = false ∧ ∃ dir x, p = dir ++ [x] ∧ FS.is_dir t dir = true.

Definition same_counters (w w' : World) : Prop :=
  uuid_calls w' = uuid_calls w ∧ clock w' = clock w ∧ api_calls w' = api_calls w.

Definition world_of {A} (r : Res A) : World :=
  match r with Done _ w | Raised _ w | Exited _ w => w end.

(** The two ways [generate] reports a failed request. *)
Definition no_image_failure (r : Res Z) : Prop :=
  ∃ w', r = Done 1 w' ∧ last (out w') = Some "Error: No image was generated".

Definition generation_failed (msg : string) (r : Res Z) : Prop :=
  ∃ w', r = Done 1 w' ∧ last (out w') = Some ("Error generating image: " +:+ msg).

Section Vocabulary.

Variable repr_container : json → string.
Variable E : Env.

(** The line the loop prints for a chunk. *)
Definition chunk_line (p : path) (c : Chunk) : option string :=
  match chunk_image c with
  | Some _ => Some ("Saved sprite to: " +:+ abs_str E p)
  | None =>
      match chunk_note c with
      | Some s => Some ("API note: " +:+ s)
      | None => None
      end
  end.

Definition item_header (total i : nat) (item : batch_item) : string :=
  nl +:+ "[" +:+ str_of_Z (Z.of_nat i) +:+ "/" +:+ str_of_Z (Z.of_nat total)
     +:+ "] Generating " +:+ default "unnamed" (item_name item) +:+ "...".

Definition item_warning (item : batch_item) : string :=
  "Warning: Failed to generate " +:+ py_str repr_container (of_opt (item_name item)).

(** Every item's call of [cmd_generate] returns, with whatever code: the
    worlds are those the loop of [cmd_batch] passes from item to item. *)
Inductive items_return (auto_apply : bool) (total : nat)
  : nat → list batch_item → World → World → Prop :=
| items_return_nil i w : items_return auto_apply total i [] w w
| items_return_cons i item rest w code w1 w' :
    cmd_generate repr_container E (item_args auto_apply i item)
        (add_out (item_header total i item) w) = Done code w1 →
    items_return auto_apply total (S i) rest
        (if code =? 0 then w1 else add_out (item_warning item) w1) w' →
    items_return auto_apply total i (item :: rest) w w'.

End Vocabulary.

(** ** Further vocabulary *)

Definition is_dict (j : json) : bool := match j with JDict _ => true | _ => false end.
Definition is_str (j : json) : bool := match j with JStr _ => true | _ => false end.

(** Some source of the API key holds a non-empty key. *)
Definition api_key_found (E : Env) : bool :=
  truthy (of_opt (environ E !! "GEMINI_API_KEY"))
  || truthy (of_opt (environ E !! "SPRITEGEN_API_KEY"))
  || truthy (of_opt (dotenv_key E)).

(** The line [get_api_client] prints before it exits. *)
Definition key_error : string :=
  "Error: GEMINI_API_KEY or SPRITEGEN_API_KEY not found in environment or .env file".

(** The world after some more lines were printed. *)
Definition add_lines (ls : list string) (w : World) : World :=
  mkWorld (fs w) (out w ++ ls) (uuid_calls w) (clock w) (api_calls w).

(** The metadata record [cmd_generate] writes next to a sprite. *)
Definition metadata_record (args : GenArgs.t) (size : Z)
    (full_prompt asset_id created_at status : string) : json :=
  JDict (list_to_map
    [ ("id", JStr asset_id);
      ("created_at", JStr created_at);
      ("prompt", JStr (GenArgs.prompt args));
      ("full_prompt", JStr full_prompt);
      ("god_palette", of_opt (GenArgs.god args));
      ("category", JStr (GenArgs.category args));
      ("subcategory", of_opt (GenArgs.subcategory args));
      ("name", JStr (GenArgs.name args));
      ("size", JInt size);
      ("frames", JInt (GenArgs.frames args));
      ("status", JStr status) ]).

(** [cmd_generate] writes below the used tree: [--output direct] or
    [--auto-apply]. *)
Definition is_direct (args : GenArgs.t) : bool :=
  String.eqb (GenArgs.output args) "direct" || GenArgs.auto_apply args.

Section GenerateVocabulary.

Variable repr_container : json → string.

(** The size [cmd_generate] works with: the one given, else the default of
    the category. *)
Definition chosen_size (args : GenArgs.t) : Z :=
  match GenArgs.size args with
  | Some n => n
  | None => get_size_for_category repr_container (GenArgs.category args) (GenArgs.subcategory args)
  end.

(** The lines [cmd_generate] prints before it asks for the client. *)
Definition banner (args : GenArgs.t) (size : Z) (full_prompt : string) : list string :=
  let sub := of_opt (GenArgs.subcategory args) in
  let god := of_opt (GenArgs.god args) in
  ["Generating sprite..."; "  Category: " +:+ GenArgs.category args]
  ++ (if truthy sub then ["  Subcategory: " +:+ py_str repr_container sub] else [])
  ++ ["  Name: " +:+ GenArgs.name args;
      "  Size: " +:+ str_of_Z size +:+ "x" +:+ str_of_Z size;
      "  Frames: " +:+ str_of_Z (GenArgs.frames args)]
  ++ (if truthy god then ["  God palette: " +:+ py_str repr_container god] else [])
  ++ ["  Prompt: " +:+ str_take 100 full_prompt +:+ "..."; ""].

(** The directory [cmd_generate] writes to. *)
Definition output_dir (args : GenArgs.t) (asset_id : string) : path :=
  if is_direct args then
    if truthy (of_opt (GenArgs.subcategory args))
    then ["used"; GenArgs.category args; py_str repr_container (of_opt (GenArgs.subcategory args))]
    else ["used"; GenArgs.category args]
  else ["staging"; asset_id].

(** The key [cmd_apply] records an asset under: built from the sidecar
    record when that is truthy, else inferred from the place of the file. *)
Definition applied_key (meta : json) (p : path) : Result string :=
  if truthy meta then apply_key repr_container meta p else inferred_key p.

End GenerateVocabulary.

(** The sidecar record [cmd_apply] works with: the document of the file
    next to the asset, or [{}] when there is none. *)
Definition sidecar_of (p : path) : M json :=
  found <- path_exists (with_suffix p ".meta.json");;
  if found then load_json (with_suffix p ".meta.json") else ret (JDict ∅).

(** From [w] to [w'] nothing happened but printing. *)
Definition only_prints (w w' : World) : Prop :=
  fs w' = fs w ∧ same_counters w w' ∧ ∃ ls, out w' = out w ++ ls.

(** A command that reads and prints, and does nothing else, however it
    ends. *)
Definition quiet {A} (m : M A) : Prop :=
  ∀ w, only_prints w (world_of (m w)) ∧ ∀ c w', m w ≠ Exited c w'.

Definition returns_zero (m : M Z) : Prop := ∀ w c w', m w = Done c w' → c = 0.

Section ListVocabulary.

Variable repr_container : json → string.

(** The lines [cmd_list] prints for an entry of the manifest. *)
Definition used_block (entry : string * json) : list string :=
  match entry.2 with
  | JDict info =>
      let field k := py_str repr_container (default JNull (info !! k)) in
      [ "  " +:+ entry.1;
        "    Path: " +:+ field "path";
        "    Size: " +:+ field "size" +:+ "x" +:+ field "size";
        "    Frames: " +:+ field "frames";
        "" ]
  | _ => []
  end.

(** The text [cmd_list] shows for the prompt of a record: its first 50
    characters. *)
Definition prompt_shown (d : gmap string json) : string :=
  match default (JStr "") (d !! "prompt") with
  | JStr s => str_take 50 s
  | JList l => repr_container (JList (take 50 l))
  | _ => ""
  end.

(** An entry of the alternatives directory [cmd_list] can show or pass
    over: a file, a directory with no metadata record, or one whose record
    is a JSON object. *)
Definition recorded (n : node) : bool :=
  match n with
  | File _ => true
  | Dir e =>
      match e !! "metadata.json" with
      | None | Some (File (Json (JDict _))) => true
      | Some _ => false
      end
  end.

(** The same for an entry of the staging directory, where the prompt of
    the record has to be a string or a list as well. *)
Definition listable (n : node) : bool :=
  match n with
  | File _ => true
  | Dir e =>
      match e !! "metadata.json" with
      | None => true
      | Some (File (Json (JDict d))) =>
          match default (JStr "") (d !! "prompt") with
          | JStr _ | JList _ => true
          | _ => false
          end
      | Some _ => false
      end
  end.

(** The lines [cmd_list] prints for an entry of the staging directory:
    none for a file or a directory without metadata record. *)
Definition staging_block (ch : gmap string node) (name : string) : list string :=
  match ch !! name with
  | Some (Dir e) =>
      match e !! "metadata.json" with
      | Some (File (Json (JDict d))) =>
          [ "  " +:+ name;
            "    Category: " +:+ py_str repr_container (default JNull (d !! "category"));
            "    Name: " +:+ py_str repr_container (default JNull (d !! "name"));
            "    Prompt: " +:+ prompt_shown d +:+ "...";
            "" ]
      | _ => []
      end
  | _ => []
  end.

(** The same for an entry of the alternatives directory. *)
Definition alternatives_block (ch : gmap string node) (name : string) : list string :=
  match ch !! name with
  | Some (Dir e) =>
      match e !! "metadata.json" with
      | Some (File (Json (JDict d))) =>
          [ "  " +:+ name;
            "    Original: " +:+ py_str repr_container (default JNull (d !! "category"))
              +:+ "/" +:+ py_str repr_container (default JNull (d !! "name"));
            "    Reason: "
              +:+ py_str repr_container (default (JStr "N/A") (d !! "rejection_reason"));
            "" ]
      | _ => []
      end
  | _ => []
  end.

End ListVocabulary.

(** The manifest entries [cmd_list] shows for a category filter: those
    whose key starts with the category. *)
Definition shown_assets (category : option string) (a : gmap string json) : gmap string json :=
  match category with
  | Some c => if truthy (JStr c) then filter (λ kv, Is_true (String.prefix c kv.1)) a else a
  | None => a
  end.

Definition no_used_line (category : option string) : string :=
  "No used assets"
  +:+ match category with
      | Some c => if truthy (JStr c) then " in category '" +:+ c +:+ "'" else ""
      | None => ""
      end
  +:+ ".".

(** A line of the [.env] file that names one of the two keys. *)
Definition names_key (line : string) : bool :=
  String.prefix "GEMINI_API_KEY=" (strip is_space line)
  || String.prefix "SPRITEGEN_API_KEY=" (strip is_space line).

(** A string [strip] leaves as it is. *)
Definition unstripped (f : ascii → bool) (s : string) : Prop :=
  lstrip f s = s ∧ rstrip f s = s.

(** The two quote characters, as strings. *)
Definition double_quote : string := String (ascii_of_nat 34) "".
Definition single_quote : string := "'".

(** A line of a [.env] file that gives [key] the value [k] between the
    quotes [q]. *)
Definition env_line (key q k : string) : string :=
  (key +:+ "=") +:+ (q +:+ (k +:+ q)) +:+ nl.

(** ** Sample inputs

    Concrete worlds, environments and arguments on which the statements
    below are evaluated. *)

(** The sample runs format no list and no dict. *)
Definition no_containers (j : json) : string := "".

Definition image_chunk (d : list Byte.byte) : Chunk :=
  mkChunk (Some [mkCandidate (Some (mkContent (Some [mkPart (Some (mkBlob (Some d))) None])))]).

Definition text_chunk (s : string) : Chunk :=
  mkChunk (Some [mkCandidate (Some (mkContent (Some [mkPart None (Some s)])))]).

Definition image_A : list Byte.byte := [Byte.x41].
Definition image_B : list Byte.byte := [Byte.x42].

Definition sample_item : batch_item :=
  mkItem (Some "player") None (Some "idle") (Some "standing hero") None None None.

Definition sample_batch : batch_manifest := mkBatch (Some [sample_item; sample_item]).

(** A service that sends an image, a note, then a second image. *)
Definition sample_env : Env :=
  mkEnv "/game/assets/sprites" (λ _, "[Errno 21] Is a directory")
    (<["GEMINI_API_KEY" := "secret"]> ∅) None
    (λ _, "3f2a9c1e-5b7d-4e8f-9a0b-1c2d3e4f5a6b")
    (λ _, "2025-01-01T12:00:00")
    (λ _, mkResponse [image_chunk image_A; text_chunk "first draft"; image_chunk image_B] None)
    (λ _, Some sample_batch).

(** The same, with a service that fails after two notes. *)
Definition failing_env : Env :=
  mkEnv "/game/assets/sprites" (λ _, "[Errno 21] Is a directory")
    (<["GEMINI_API_KEY" := "secret"]> ∅) None
    (λ _, "3f2a9c1e-5b7d-4e8f-9a0b-1c2d3e4f5a6b")
    (λ _, "2025-01-01T12:00:00")
    (λ _, mkResponse [text_chunk "working"; text_chunk "still working"]
            (Some "503 Service Unavailable"))
    (λ _, Some sample_batch).

(** A service that sends one chunk, a note followed by an image. *)
Definition note_then_image : Chunk :=
  mkChunk (Some [mkCandidate (Some (mkContent (Some
    [mkPart None (Some "here is your sprite"); mkPart (Some (mkBlob (Some image_A))) None])))]).

Definition mixed_env : Env :=
  mkEnv "/game/assets/sprites" (λ _, "[Errno 21] Is a directory")
    (<["GEMINI_API_KEY" := "secret"]> ∅) None
    (λ _, "3f2a9c1e-5b7d-4e8f-9a0b-1c2d3e4f5a6b")
    (λ _, "2025-01-01T12:00:00")
    (λ _, mkResponse [note_then_image] None)
    (λ _, Some sample_batch).

(** The same as [sample_env], with no API key anywhere. *)
Definition no_key_env : Env :=
  mkEnv "/game/assets/sprites" (λ _, "[Errno 21] Is a directory")
    ∅ None
    (λ _, "3f2a9c1e-5b7d-4e8f-9a0b-1c2d3e4f5a6b")
    (λ _, "2025-01-01T12:00:00")
    (λ _, mkResponse [image_chunk image_A; text_chunk "first draft"; image_chunk image_B] None)
    (λ _, Some sample_batch).

(** A sprite directory that does not exist yet. *)
Definition empty_world : World := mkWorld (Dir ∅) [] 0 0 0.

Definition sample_gen_args : GenArgs.t :=
  GenArgs.mk "player" None "idle" "standing hero" (Some "zeus") 4 None "staging" false.

(** The world after one staged generation. *)
Definition staged_world : World :=
  world_of (cmd_generate no_containers sample_env sample_gen_args empty_world).

(** The metadata record of the staged sprite. *)
Definition staged_meta : gmap string json :=
  match FS.get (fs staged_world) ["staging"; "3f2a9c1e"; "metadata.json"] with
  | Some (File (Json (JDict d))) => d
  | _ => ∅
  end.

Definition sample_approve_args : ApproveArgs.t :=
  ApproveArgs.mk "3f2a9c1e" (Some "player") None (Some "idle").

Definition sample_reject_args : RejectArgs.t :=
  RejectArgs.mk "3f2a9c1e" (Some "bad proportions").

Definition sample_batch_args : BatchArgs.t := BatchArgs.mk "batch.json" false.

(** A direct generation on a sprite directory that does not exist yet. *)
Definition direct_gen_args : GenArgs.t :=
  GenArgs.mk "player" None "idle" "standing hero" (Some "zeus") 4 None "direct" false.

Definition direct_world : World :=
  world_of (cmd_generate no_containers sample_env direct_gen_args empty_world).

(** A sprite below the used tree with no sidecar record. *)
Definition bare_world : World :=
  mkWorld
    (Dir {[ "used" := Dir {[ "player" := Dir {[ "idle.png" := File (Bytes image_A) ]} ]} ]})
    [] 0 0 0.

(** A staging entry that has lost its image, and one that has lost its
    record. *)
Definition imageless_world : World :=
  mkWorld
    (Dir {[ "staging" :=
              Dir {[ "3f2a9c1e" := Dir {[ "metadata.json" := File (Json (JDict staged_meta)) ]} ]} ]})
    [] 0 0 0.

Definition recordless_entry : node := Dir {[ "sprite.png" := File (Bytes image_A) ]}.

Definition recordless_world : World :=
  mkWorld (Dir {[ "staging" := Dir {[ "3f2a9c1e" := recordless_entry ]} ]}) [] 0 0 0.

(** A style guide whose style text is a number. *)
Definition bad_guide : json := JDict {[ "base_style" := JInt 7 ]}.

Definition bad_guide_world : World :=
  mkWorld (Dir {[ "style_guide.json" := File (Json bad_guide) ]}) [] 0 0 0.

(** The entries of a directory of the sprite tree. *)
Definition entries (w : World) (dir : string) : gmap string node :=
  match FS.get (fs w) [dir] with
  | Some (Dir ch) => ch
  | _ => ∅
  end.

(** The assets of the manifest of a world. *)
Definition assets_of (w : World) : gmap string json :=
  match manifest_doc (fs w) with
  | Some (JDict m) => match m !! "assets" with Some (JDict a) => a | _ => ∅ end
  | _ => ∅
  end.

Definition manifest_of (w : World) : gmap string json :=
  match manifest_doc (fs w) with
  | Some (JDict m) => m
  | _ => ∅
  end.

(** The world after the staged sprite was rejected. *)
Definition rejected_world : World :=
  world_of (cmd_reject no_containers sample_env sample_reject_args staged_world).

(** The world after the staged sprite was approved. *)
Definition approved_world : World :=
  world_of (cmd_approve no_containers sample_env sample_approve_args staged_world).

(** A generation with the service that fails: the target it fixes, the
    world when the request is made, and the world it leaves. *)
Definition failed_target : Target.t :=
  match generate_target no_containers failing_env sample_gen_args empty_world with
  | Done tg _ => tg
  | _ => Target.mk 0 "" "" [] [] ""
  end.

Definition requesting_world : World :=
  world_of (generate_target no_containers failing_env sample_gen_args empty_world).

Definition failed_world : World :=
  world_of (cmd_generate no_containers failing_env sample_gen_args empty_world).


(** * Properties *)

(** ** The sprite tree

    What [get] finds after a tree was changed at one path: the node put
    there, nothing below a removed path, and everything off that path as
    before. *)

Lemma get_app t p q :
  FS.get t (p ++ q) = match FS.get t p with Some n => FS.get n q | None => None end.
Proof.
  revert t. induction p as [|s p IH]; intros t; simpl; [done|].
  destruct t as [c|ch]; [done|]. destruct (ch !! s); [apply IH|done].
Qed.

Lemma get_empty_dir q : q ≠ [] → FS.get (Dir ∅) q = None.
Proof. destruct q; [done|]. intros _. simpl. by rewrite lookup_empty. Qed.

Lemma mkdirs_get t p t' q :
  FS.mkdirs t p = Some t' →
  if decide (q `prefix_of` p)
  then ∃ ch, FS.get t' q = Some (Dir ch)
  else FS.get t' q = FS.get t q.
Proof.
  revert t t' q. induction p as [|s p IH]; intros t t' q H; simpl in H.
  - destruct t as [c|ch]; [done|]. injection H as <-.
    case_decide as Hq; [|done].
    apply prefix_nil_inv in Hq as ->. eauto.
  - destruct t as [c|ch]; [done|].
    destruct (FS.mkdirs (default (Dir ∅) (ch !! s)) p) as [n'|] eqn:Hm; [|done].
    injection H as <-.
    destruct q as [|s' q].
    + rewrite decide_True by apply prefix_nil. simpl. eauto.
    + specialize (IH _ _ q Hm). simpl.
      destruct (decide (s' = s)) as [->|Hne].
      * rewrite lookup_insert_eq.
        destruct (decide (q `prefix_of` p)) as [Hq|Hq].
        -- rewrite decide_True by (by apply prefix_cons). done.
        -- rewrite decide_False by (intros Hc; by apply prefix_cons_inv_2 in Hc).
           rewrite IH. destruct (ch !! s) as [n|]; [done|]. simpl.
           apply get_empty_dir. intros ->. apply Hq, prefix_nil.
      * rewrite decide_False by (intros Hc; by apply prefix_cons_inv_1 in Hc).
        by rewrite lookup_insert_ne.
Qed.

Lemma is_file_empty_dir q : FS.is_file (Dir ∅) q = false.
Proof. unfold FS.is_file. destruct q; [done|]. simpl. by rewrite lookup_empty. Qed.

Lemma mkdirs_Some t p :
  (∀ q, q `prefix_of` p → FS.is_file t q = false) → is_Some (FS.mkdirs t p).
Proof.
  revert t. induction p as [|s p IH]; intros t H; simpl.
  - specialize (H [] (prefix_nil _)). destruct t; [done|eauto].
  - pose proof (H [] (prefix_nil _)) as H0. destruct t as [c|ch]; [done|].
    destruct (IH (default (Dir ∅) (ch !! s))) as [n' ->]; [|eauto].
    intros q Hq. specialize (H (s :: q) (prefix_cons _ _ _ Hq)).
    unfold FS.is_file in *. simpl in H.
    destruct (ch !! s); [done|]. apply is_file_empty_dir.
Qed.

Lemma mkdirs_id t p : FS.is_dir t p = true → FS.mkdirs t p = Some t.
Proof.
  revert t. induction p as [|s p IH]; intros t H; unfold FS.is_dir in *; simpl in *.
  - by destruct t.
  - destruct t as [c|ch]; [done|]. destruct (ch !! s) as [n|] eqn:Hs; [|done].
    simpl. rewrite (IH n H). by rewrite insert_id.
Qed.

Lemma put_Some t p s x :
  FS.is_dir t p = true → is_Some (FS.put t (p ++ [s]) x).
Proof.
  revert t. induction p as [|s' p IH]; intros t H; unfold FS.is_dir in *; simpl in *.
  - destruct t; [done|eauto].
  - destruct t as [c|ch]; [done|]. destruct (ch !! s') as [n|] eqn:Hs; [|done].
    destruct (IH n H) as [n' Hn']. rewrite Hn'.
    destruct (p ++ [s]) eqn:Hp; [by destruct p|]. eauto.
Qed.

Lemma get_put_below t p x t' r :
  FS.put t p x = Some t' → FS.get t' (p ++ r) = FS.get x r.
Proof.
  revert t t'. induction p as [|s p IH]; intros t t' H; simpl in *.
  - by injection H as <-.
  - destruct t as [c|ch]; [done|]. destruct p as [|s2 p].
    + injection H as <-. simpl. by rewrite lookup_insert_eq.
    + destruct (ch !! s) as [n|]; [|done].
      destruct (FS.put n (s2 :: p) x) as [n'|] eqn:Hn; [|done].
      injection H as <-. rewrite lookup_insert_eq. apply (IH _ _ Hn).
Qed.

Lemma get_put_eq t p x t' : FS.put t p x = Some t' → FS.get t' p = Some x.
Proof. intros H. pose proof (get_put_below t p x t' [] H) as Hb. by rewrite app_nil_r in Hb. Qed.

Lemma get_put_frame t p x t' q :
  FS.put t p x = Some t' → ¬ p `prefix_of` q → ¬ q `prefix_of` p →
  FS.get t' q = FS.get t q.
Proof.
  revert t t' q. induction p as [|s p IH]; intros t t' q H Hpq Hqp.
  - destruct Hpq. apply prefix_nil.
  - destruct q as [|s' q]; [destruct Hqp; apply prefix_nil|].
    simpl in H. destruct t as [c|ch]; [done|].
    destruct (decide (s' = s)) as [->|Hne].
    + assert (¬ p `prefix_of` q) by (intros Hc; apply Hpq; by apply prefix_cons).
      assert (¬ q `prefix_of` p) by (intros Hc; apply Hqp; by apply prefix_cons).
      destruct p as [|s2 p]; [destruct H0; apply prefix_nil|].
      destruct (ch !! s) as [n|] eqn:Hs; [|done].
      destruct (FS.put n (s2 :: p) x) as [n'|] eqn:Hn; [|done].
      injection H as <-. simpl. rewrite lookup_insert_eq, Hs. by eapply IH.
    + destruct p as [|s2 p].
      * injection H as <-. simpl. by rewrite lookup_insert_ne.
      * destruct (ch !! s) as [n|] eqn:Hs; [|done].
        destruct (FS.put n (s2 :: p) x) as [n'|] eqn:Hn; [|done].
        injection H as <-. simpl. by rewrite lookup_insert_ne.
Qed.

Lemma get_put_above t p x t' q :
  FS.put t p x = Some t' → q `prefix_of` p → q ≠ p → FS.is_dir t' q = true.
Proof.
  revert t t' q. induction p as [|s p IH]; intros t t' q H Hq Hne.
  - apply prefix_nil_inv in Hq. done.
  - simpl in H. destruct t as [c|ch]; [done|].
    destruct q as [|s' q].
    + destruct p; [injection H as <-; done|].
      destruct (ch !! s); [|done]. destruct (FS.put _ _ _); [|done]. by injection H as <-.
    + pose proof (prefix_cons_inv_1 _ _ _ _ Hq) as ->.
      apply prefix_cons_inv_2 in Hq.
      destruct p as [|s2 p]; [apply prefix_nil_inv in Hq as ->; done|].
      destruct (ch !! s) as [n|] eqn:Hs; [|done].
      destruct (FS.put n (s2 :: p) x) as [n'|] eqn:Hn; [|done].
      injection H as <-. unfold FS.is_dir. simpl. rewrite lookup_insert_eq.
      apply (IH _ _ _ Hn Hq). congruence.
Qed.

Lemma remove_Some t p :
  p ≠ [] → is_Some (FS.get t p) → is_Some (FS.remove t p).
Proof.
  revert t. induction p as [|s p IH]; intros t Hp H; [done|]. simpl in *.
  destruct t as [c|ch]; [by destruct H|]. destruct (ch !! s) as [n|]; [|by destruct H].
  destruct p as [|s2 p]; [eauto|].
  destruct (IH n) as [n' ->]; [done|done|eauto].
Qed.

Lemma get_remove_below t p t' r :
  FS.remove t p = Some t' → FS.get t' (p ++ r) = None.
Proof.
  revert t t'. induction p as [|s p IH]; intros t t' H; simpl in *; [done|].
  destruct t as [c|ch]; [done|]. destruct (ch !! s) as [n|]; [|done].
  destruct p as [|s2 p].
  - injection H as <-. simpl. by rewrite lookup_delete_eq.
  - destruct (FS.remove n (s2 :: p)) as [n'|] eqn:Hn; [|done].
    injection H as <-. rewrite lookup_insert_eq. apply (IH _ _ Hn).
Qed.

Lemma get_remove_frame t p t' q :
  FS.remove t p = Some t' → ¬ p `prefix_of` q → ¬ q `prefix_of` p →
  FS.get t' q = FS.get t q.
Proof.
  revert t t' q. induction p as [|s p IH]; intros t t' q H Hpq Hqp; [done|].
  destruct q as [|s' q]; [destruct Hqp; apply prefix_nil|].
  simpl in H. destruct t as [c|ch]; [done|].
  destruct (ch !! s) as [n|] eqn:Hs; [|done].
  destruct (decide (s' = s)) as [->|Hne].
  - assert (¬ p `prefix_of` q) by (intros Hc; apply Hpq; by apply prefix_cons).
    assert (¬ q `prefix_of` p) by (intros Hc; apply Hqp; by apply prefix_cons).
    destruct p as [|s2 p]; [destruct H0; apply prefix_nil|].
    destruct (FS.remove n (s2 :: p)) as [n'|] eqn:Hn; [|done].
    injection H as <-. simpl. rewrite lookup_insert_eq, Hs. by eapply IH.
  - destruct p as [|s2 p].
    + injection H as <-. simpl. by rewrite lookup_delete_ne.
    + destruct (FS.remove n (s2 :: p)) as [n'|] eqn:Hn; [|done].
      injection H as <-. simpl. by rewrite lookup_insert_ne.
Qed.

Lemma get_remove_above t p t' q :
  FS.remove t p = Some t' → q `prefix_of` p → q ≠ p → FS.is_dir t' q = true.
Proof.
  revert t t' q. induction p as [|s p IH]; intros t t' q H Hq Hne; [done|].
  simpl in H. destruct t as [c|ch]; [done|].
  destruct (ch !! s) as [n|] eqn:Hs; [|done].
  destruct q as [|s' q].
  - destruct p; [injection H as <-; done|].
    destruct (FS.remove _ _); [|done]. by injection H as <-.
  - pose proof (prefix_cons_inv_1 _ _ _ _ Hq) as ->.
    apply prefix_cons_inv_2 in Hq.
    destruct p as [|s2 p]; [apply prefix_nil_inv in Hq as ->; done|].
    destruct (FS.remove n (s2 :: p)) as [n'|] eqn:Hn; [|done].
    injection H as <-. unfold FS.is_dir. simpl. rewrite lookup_insert_eq.
    apply (IH _ _ _ Hn Hq). congruence.
Qed.

Lemma mkdirs_not_file t p t' q :
  FS.mkdirs t p = Some t' → q `prefix_of` p → FS.is_file t q = false.
Proof.
  revert t t' q. induction p as [|s p IH]; intros t t' q H Hq; simpl in H.
  - apply prefix_nil_inv in Hq as ->. by destruct t.
  - destruct t as [c|ch]; [done|].
    destruct (FS.mkdirs (default (Dir ∅) (ch !! s)) p) as [n'|] eqn:Hm; [|done].
    destruct q as [|s' q]; [done|].
    pose proof (prefix_cons_inv_1 _ _ _ _ Hq) as ->. apply prefix_cons_inv_2 in Hq.
    specialize (IH _ _ _ Hm Hq). unfold FS.is_file in *. simpl.
    by destruct (ch !! s).
Qed.

Lemma mkdirs_is_dir t p t' q :
  FS.mkdirs t p = Some t' → FS.is_dir t q = true → FS.is_dir t' q = true.
Proof.
  intros H Hd. pose proof (mkdirs_get t p t' q H) as Hg.
  unfold FS.is_dir in *. case_decide.
  - destruct Hg as [ch ->]. done.
  - by rewrite Hg.
Qed.

Lemma get_parent_dir t p q n :
  FS.get t (p ++ q) = Some n → q ≠ [] → FS.is_dir t p = true.
Proof.
  rewrite get_app. unfold FS.is_dir. destruct (FS.get t p) as [[|]|]; try done.
  destruct q; done.
Qed.

Lemma blocked_snoc t p x :
  FS.blocked t (p ++ [x]) = false → ∀ q, q `prefix_of` p → FS.is_file t q = false.
Proof.
  revert t. induction p as [|s p IH]; intros t H q Hq.
  - apply prefix_nil_inv in Hq as ->. simpl in H. unfold FS.is_file. simpl. by destruct t.
  - simpl in H. destruct t as [c|ch]; [done|].
    destruct q as [|s' q]; [done|].
    pose proof (prefix_cons_inv_1 _ _ _ _ Hq) as ->. apply prefix_cons_inv_2 in Hq.
    unfold FS.is_file. simpl. destruct (ch !! s) as [n|]; [|done].
    by apply (IH n H q).
Qed.

Lemma exists_get t p : FS.exists_ t p = match FS.get t p with Some _ => true | None => false end.
Proof. done. Qed.

Lemma not_prefix_snoc (dd : path) x : ¬ (dd ++ [x]) `prefix_of` dd.
Proof. intros H. apply prefix_length in H. rewrite length_app in H. simpl in H. lia. Qed.

Lemma not_prefix_sibling (dd : path) x y : x ≠ y → ¬ (dd ++ [x]) `prefix_of` (dd ++ [y]).
Proof.
  intros Hne H. apply prefix_app_inv in H. apply prefix_cons_inv_1 in H. done.
Qed.

Lemma prefix_app_same (p q r : path) : (p ++ q) `prefix_of` (p ++ r) ↔ q `prefix_of` r.
Proof. split; [apply prefix_app_inv|apply prefix_app]. Qed.

(** ** Strings *)

Lemma append_length a b : String.length (a +:+ b) = (String.length a + String.length b)%nat.
Proof. induction a; simpl; [done|]. by rewrite IHa. Qed.

Lemma str_drop_append a b : str_drop (String.length a) (a +:+ b) = b.
Proof. induction a; simpl; done. Qed.

Lemma append_suffix a suf t :
  a +:+ suf = t → str_drop (String.length t - String.length suf) t = suf.
Proof.
  intros <-. rewrite append_length.
  replace (String.length a + String.length suf - String.length suf)%nat with (String.length a) by lia.
  apply str_drop_append.
Qed.

Lemma append_cons c a b : String c a +:+ b = String c (a +:+ b).
Proof. done. Qed.

Lemma rfind_dot_append a b :
  rfind_dot (a +:+ b)
  = match rfind_dot b with
    | Some i => Some (String.length a + i)%nat
    | None => rfind_dot a
    end.
Proof.
  induction a as [|c a IH].
  - change ("" +:+ b) with b. by destruct (rfind_dot b).
  - rewrite append_cons. cbn [rfind_dot String.length]. rewrite IH.
    destruct (rfind_dot b) as [i|]; [done|]. by destruct (rfind_dot a).
Qed.

Lemma substring_prefix a b : substring 0 (String.length a) (a +:+ b) = a.
Proof.
  induction a as [|c a IH]; [by destruct b|].
  rewrite append_cons. cbn [String.length substring]. by rewrite IH.
Qed.

Lemma substring_suffix a b : substring (String.length a) (String.length b) (a +:+ b) = b.
Proof.
  induction a as [|c a IH].
  - change ("" +:+ b) with b. cbn [String.length].
    induction b as [|c b IHb]; [done|]. cbn [String.length substring]. by rewrite IHb.
  - rewrite append_cons. cbn [String.length substring]. exact IH.
Qed.

Lemma split_suffix_png n : n ≠ "" → split_suffix (n +:+ ".png") = (n, ".png").
Proof.
  intros Hn. unfold split_suffix. rewrite rfind_dot_append.
  change (rfind_dot ".png") with (Some 0%nat).
  rewrite append_length. change (String.length ".png") with 4%nat.
  assert (0 < String.length n)%nat by (destruct n; [done|simpl; lia]).
  replace (0 <? String.length n + 0)%nat with true by (symmetry; apply Nat.ltb_lt; lia).
  replace (String.length n + 0 <? String.length n + 4 - 1)%nat with true
    by (symmetry; apply Nat.ltb_lt; lia).
  cbn [andb]. rewrite Nat.add_0_r, substring_prefix. f_equal.
  replace (String.length n + 4 - String.length n)%nat with (String.length ".png") by (simpl; lia).
  apply substring_suffix.
Qed.

Lemma append_assoc (a b c : string) : (a +:+ b) +:+ c = a +:+ (b +:+ c).
Proof. induction a as [|x a IH]; [done|]. rewrite !append_cons. by rewrite IH. Qed.

Lemma append_inj_l a b c : a +:+ b = a +:+ c → b = c.
Proof. induction a; simpl; [done|]. intros [= H]. auto. Qed.

Lemma png_ne_meta n : n +:+ ".png" ≠ n +:+ ".meta.json".
Proof. intros H. by apply append_inj_l in H. Qed.

Lemma truthy_JStr s : s ≠ "" → truthy (JStr s) = true.
Proof. intros H. simpl. by destruct (String.eqb_spec s ""). Qed.

Lemma file_name_nonempty s : is_file_name s = true → s ≠ "".
Proof. intros H ->. done. Qed.

(** Paths that do not meet. *)
Ltac not_prefix := let k := fresh in let Hk := fresh in intros [k Hk]; simplify_eq/=.

Ltac not_standard :=
  unfold standard_dirs; repeat first [apply Forall_nil_2 | apply Forall_cons_2]; not_prefix.

Ltac suffix_clash H := apply append_suffix in H; vm_compute in H; discriminate H.

Lemma sprite_not_standard c s n :
  Forall (λ d, ¬ (dest_dir c s ++ [n +:+ ".png"]) `prefix_of` d) standard_dirs.
Proof.
  unfold standard_dirs.
  destruct s; repeat first [apply Forall_nil_2 | apply Forall_cons_2];
    intros [k Hk]; simplify_eq/=;
    match goal with
    | H : _ +:+ _ = _ |- _ => suffix_clash H
    | H : _ = _ +:+ _ |- _ => symmetry in H; suffix_clash H
    end.
Qed.

Lemma meta_not_standard c s n :
  Forall (λ d, ¬ (dest_dir c s ++ [n +:+ ".meta.json"]) `prefix_of` d) standard_dirs.
Proof.
  unfold standard_dirs.
  destruct s; repeat first [apply Forall_nil_2 | apply Forall_cons_2];
    intros [k Hk]; simplify_eq/=;
    match goal with
    | H : _ +:+ _ = _ |- _ => suffix_clash H
    | H : _ = _ +:+ _ |- _ => symmetry in H; suffix_clash H
    end.
Qed.

(** ** Commands, step by step *)

Lemma bind_Done {A B} (m : M A) (k : A → M B) w a w1 :
  m w = Done a w1 → bind m k w = k a w1.
Proof. unfold bind. by intros ->. Qed.

Lemma bind_Raised {A B} (m : M A) (k : A → M B) w e w1 :
  m w = Raised e w1 → bind m k w = Raised e w1.
Proof. unfold bind. by intros ->. Qed.

Lemma bind_Exited {A B} (m : M A) (k : A → M B) w c w1 :
  m w = Exited c w1 → bind m k w = Exited c w1.
Proof. unfold bind. by intros ->. Qed.

Lemma bind_inv_Done {A B} (m : M A) (k : A → M B) w b w' :
  bind m k w = Done b w' → ∃ a w1, m w = Done a w1 ∧ k a w1 = Done b w'.
Proof. unfold bind. destruct (m w); [eauto|done|done]. Qed.

Lemma bind_ret {A B} (a : A) (k : A → M B) w : bind (ret a) k w = k a w.
Proof. done. Qed.

Lemma bind_print {B} l (k : unit → M B) w : bind (print l) k w = k tt (add_out l w).
Proof. done. Qed.

Lemma bind_path_exists {B} p (k : bool → M B) w :
  bind (path_exists p) k w = k (FS.exists_ (fs w) p) w.
Proof. done. Qed.

Lemma bind_lift_Ok {A B} (a : A) (k : A → M B) w : bind (lift (Ok a)) k w = k a w.
Proof. done. Qed.

Lemma set_fs_id w : set_fs (fs w) w = w.
Proof. by destruct w. Qed.

Lemma mkdir_parents_Done p w t' :
  FS.mkdirs (fs w) p = Some t' → mkdir_parents p w = Done tt (set_fs t' w).
Proof. unfold mkdir_parents, bind, read_fs. by intros ->. Qed.

Lemma mkdir_parents_inv p w w1 :
  mkdir_parents p w = Done tt w1 → FS.mkdirs (fs w) p = Some (fs w1) ∧ w1 = set_fs (fs w1) w.
Proof.
  unfold mkdir_parents, bind, read_fs. destruct (FS.mkdirs (fs w) p) eqn:H; [|done].
  unfold write_fs. intros [= <-]. done.
Qed.

Lemma write_file_Done p c w t' :
  FS.is_dir (fs w) p = false → FS.put (fs w) p (File c) = Some t' →
  write_file p c w = Done tt (set_fs t' w).
Proof.
  intros Hd Hp. unfold write_file, bind, read_fs. unfold FS.is_dir in Hd.
  destruct (FS.get (fs w) p) as [[|]|]; try done; by rewrite Hp.
Qed.

Lemma read_file_Done p c w :
  FS.get (fs w) p = Some (File c) → read_file p w = Done c w.
Proof. intros H. unfold read_file, bind, read_fs. by rewrite H. Qed.

Lemma load_json_Done p j w :
  FS.get (fs w) p = Some (File (Json j)) → load_json p w = Done j w.
Proof. intros H. unfold load_json, bind. by rewrite (read_file_Done _ _ _ H). Qed.

Lemma copy2_Done src dst c w t' :
  FS.is_dir (fs w) dst = false → src ≠ dst →
  FS.get (fs w) src = Some (File c) →
  FS.put (fs w) dst (File c) = Some t' →
  copy2 src dst w = Done tt (set_fs t' w).
Proof.
  intros Hd Hne Hs Hp. unfold copy2. unfold bind at 1. unfold read_fs. rewrite Hd.
  rewrite bool_decide_eq_false_2 by done. cbn [andb].
  rewrite (bind_Done _ _ _ _ _ (read_file_Done _ _ _ Hs)).
  by apply write_file_Done.
Qed.

Lemma load_manifest_Done j w :
  manifest_doc (fs w) = Some j → load_manifest w = Done j w.
Proof.
  unfold manifest_doc, load_manifest. rewrite bind_path_exists, exists_get.
  destruct (FS.get (fs w) MANIFEST_PATH) as [[[|j']|]|] eqn:H; try done.
  - intros [= ->]. by apply load_json_Done.
  - by intros [= ->].
Qed.

Lemma rmtree_Done p w t' :
  FS.is_dir (fs w) p = true → FS.remove (fs w) p = Some t' →
  rmtree p w = Done tt (set_fs t' w).
Proof.
  intros Hd Hr. unfold rmtree, bind, read_fs. unfold FS.is_dir in Hd.
  destruct (FS.get (fs w) p) as [[|]|]; try done. by rewrite Hr.
Qed.

Lemma move_Done src dst x w t1 t2 :
  FS.get (fs w) src = Some x →
  FS.exists_ (fs w) dst = false →
  FS.remove (fs w) src = Some t1 →
  FS.put t1 dst x = Some t2 →
  move src dst w = Done tt (set_fs t2 w).
Proof.
  intros Hx Hd Hr Hp. unfold move, bind, read_fs. rewrite Hx.
  unfold FS.is_dir. rewrite exists_get in Hd.
  destruct (FS.get (fs w) dst) eqn:Hdst; [done|]. cbn [andb].
  rewrite Hdst, Hr, Hp. by destruct x.
Qed.

Lemma lift_inv {A} (r : Result A) w a w' : lift r w = Done a w' → r = Ok a ∧ w' = w.
Proof. destruct r; simpl; [by intros [= <- <-]|done]. Qed.

Lemma print_inv l w u w' : print l w = Done u w' → w' = add_out l w.
Proof. by intros [= <-]. Qed.

Lemma when_print_inv b l w u w' :
  when b (print l) w = Done u w' → w' = if b then add_out l w else w.
Proof. destruct b; by intros [= <-]. Qed.

Lemma read_file_inv p w c w' : read_file p w = Done c w' → w' = w.
Proof.
  unfold read_file, bind, read_fs. destruct (FS.get (fs w) p) as [[|]|]; try done.
  by intros [= _ <-].
Qed.

Lemma load_json_inv p w j w' :
  load_json p w = Done j w' → w' = w ∧ FS.get (fs w) p = Some (File (Json j)).
Proof.
  unfold load_json. intros H. apply bind_inv_Done in H as (c & w2 & Hr & H).
  pose proof (read_file_inv _ _ _ _ Hr) as ->.
  unfold read_file, bind, read_fs in Hr. destruct (FS.get (fs w) p) as [[|]|]; try done.
  injection Hr as ->. destruct c; [done|]. by injection H as <- <-.
Qed.

Lemma load_style_guide_inv w j w' : load_style_guide w = Done j w' → w' = w.
Proof.
  unfold load_style_guide. rewrite bind_path_exists.
  destruct (FS.exists_ (fs w) STYLE_GUIDE_PATH).
  - intros H. by apply load_json_inv in H as [-> _].
  - by intros [= _ <-].
Qed.

Lemma load_manifest_inv w j w' : load_manifest w = Done j w' → w' = w.
Proof.
  unfold load_manifest. rewrite bind_path_exists.
  destruct (FS.exists_ (fs w) MANIFEST_PATH).
  - intros H. by apply load_json_inv in H as [-> _].
  - by intros [= _ <-].
Qed.


(** ** The standard directories *)

Lemma for_each_mkdir_spec dirs w w1 :
  for_each dirs mkdir_parents w = Done tt w1 →
  w1 = set_fs (fs w1) w
  ∧ (∀ q, Forall (λ d, ¬ q `prefix_of` d) dirs → FS.get (fs w1) q = FS.get (fs w) q)
  ∧ (∀ q, Exists (λ d, q `prefix_of` d) dirs →
       FS.is_dir (fs w1) q = true ∧ FS.is_file (fs w) q = false)
  ∧ (∀ q, FS.is_dir (fs w) q = true → FS.is_dir (fs w1) q = true).
Proof.
  revert w. induction dirs as [|d dirs IH]; intros w H; simpl in H.
  - injection H as <-. rewrite set_fs_id.
    split; [done|split; [done|split; [|done]]].
    intros q Hq. by apply Exists_nil in Hq.
  - apply bind_inv_Done in H as ([] & w2 & Hm & H).
    apply mkdir_parents_inv in Hm as [Hm Hw2].
    destruct (IH _ H) as (Hw1 & Hframe & Hdirs & Hmono).
    split; [|split; [|split]].
    + rewrite Hw1, Hw2. done.
    + intros q Hq. apply Forall_cons in Hq as [Hd Hq].
      rewrite (Hframe q Hq).
      pose proof (mkdirs_get _ _ _ q Hm) as Hg. by rewrite decide_False in Hg.
    + intros q Hq.
      destruct (decide (q `prefix_of` d)) as [Hqd|Hqd].
      * split.
        -- apply Hmono. pose proof (mkdirs_get _ _ _ q Hm) as Hg.
           rewrite decide_True in Hg by done. destruct Hg as [ch Hg].
           unfold FS.is_dir. by rewrite Hg.
        -- by eapply mkdirs_not_file.
      * apply Exists_cons in Hq as [Hq|Hq]; [done|].
        destruct (Hdirs q Hq) as [H1 H2]. split; [done|].
        pose proof (mkdirs_get _ _ _ q Hm) as Hg. rewrite decide_False in Hg by done.
        unfold FS.is_file in *. by rewrite <- Hg.
    + intros q Hq. apply Hmono. by eapply mkdirs_is_dir.
Qed.

Lemma ensure_directories_files w w1 :
  ensure_directories w = Done tt w1 → files_kept (fs w) (fs w1).
Proof.
  intros H. apply for_each_mkdir_spec in H as (_ & Hframe & Hdirs & Hmono).
  split; [|done]. intros q c.
  destruct (decide (Exists (λ d, q `prefix_of` d) standard_dirs)) as [Hq|Hq].
  - destruct (Hdirs q Hq) as [Hd Hf]. unfold FS.is_dir, FS.is_file in *.
    split; intros Hc; rewrite Hc in *; done.
  - apply not_Exists_Forall in Hq; [|intros d; apply _].
    rewrite Hframe; [done|]. eapply Forall_impl; [exact Hq|]. done.
Qed.

Lemma ensure_directories_root w w1 :
  ensure_directories w = Done tt w1 → FS.is_dir (fs w1) [] = true.
Proof.
  intros H. apply for_each_mkdir_spec in H as (_ & _ & Hstd & _).
  apply (Hstd []). unfold standard_dirs. apply Exists_cons_hd. apply prefix_nil.
Qed.

(** On a tree that has all its standard directories, nothing changes. *)
Lemma ensure_directories_initialised w :
  Forall (λ d, FS.is_dir (fs w) d = true) standard_dirs →
  ensure_directories w = Done tt w.
Proof.
  unfold ensure_directories. generalize standard_dirs.
  intros dirs. induction dirs as [|d dirs IH]; intros H; [done|].
  apply Forall_cons in H as [Hd H]. simpl.
  rewrite (bind_Done _ _ _ _ _ (mkdir_parents_Done _ _ _ (mkdirs_id _ _ Hd))).
  rewrite set_fs_id. by apply IH.
Qed.

(** ** Manifest keys and prompts *)

Section Prompt.

Variable repr_container : json → string.

Lemma asset_key_strings c s n :
  s ≠ Some "" →
  asset_key repr_container (JStr c) (of_opt s) (JStr n) = derive c s n.
Proof.
  intros Hs. unfold asset_key, derive. destruct s as [s|]; simpl; [|done].
  destruct (String.eqb_spec s ""); [congruence|done].
Qed.

Lemma inferred_key_derive c s n :
  n ≠ "" → inferred_key (dest_dir c s ++ [n +:+ ".png"]) = Ok (derive c s n).
Proof.
  intros Hn. unfold inferred_key, dest_dir, derive, stem, basename.
  destruct s as [s'|]; cbn [app removelast List.last]; rewrite split_suffix_png by done;
    cbn [fst join concat].
  - change (join "." [c; s']) with (c +:+ "." +:+ s'). by rewrite !append_assoc.
  - done.
Qed.

(** C3. The manifest key is a function of (category, subcategory, name)
    alone, and the three commands that record an asset compute the same
    one: for a category [c], a name [n] and a subcategory [s] that is
    absent or a non-empty string, the key [cmd_generate] records a direct
    sprite under, the key [cmd_approve] builds from the resolved values,
    the key [cmd_apply] builds from a sidecar record holding them, and the
    key [cmd_apply] infers without a sidecar from the place
    [used/c[/s]/n.png] the other two commands give the asset, are all
    [derive c s n], that is [c.s.n] with a subcategory and [c.n] without;
    so [derive("player", None, "idle")] is ["player.idle"] and
    [derive("enemy", "minor", "slime")] is ["enemy.minor.slime"]. *)
Theorem key_derivation c s n :
  s ≠ Some "" →
  generate_key repr_container (GenArgs.mk c s n "" None 1 None "direct" false) = derive c s n
  ∧ asset_key repr_container (JStr c) (of_opt s) (JStr n) = derive c s n
  ∧ (∀ (d : gmap string json) p,
       d !! "category" = Some (JStr c) →
       default JNull (d !! "subcategory") = of_opt s →
       d !! "name" = Some (JStr n) →
       apply_key repr_container (JDict d) p = Ok (derive c s n))
  ∧ (n ≠ "" → inferred_key (dest_dir c s ++ [n +:+ ".png"]) = Ok (derive c s n))
  ∧ derive "player" None "idle" = "player.idle"
  ∧ derive "enemy" (Some "minor") "slime" = "enemy.minor.slime".
Proof.
  intros Hs. pose proof (asset_key_strings c s n Hs) as Hk.
  split; [exact Hk|]. split; [exact Hk|]. split; [|split; [|done]].
  - intros d p Hc Hsub Hn. unfold apply_key, dict_get_default, dict_get.
    rewrite Hc, Hsub, Hn. simpl. by rewrite Hk.
  - apply inferred_key_derive.
Qed.

Lemma strings_of_strs (l : list string) : strings_of (JStr <$> l) = Some l.
Proof. induction l as [|s l IH]; csimpl; [done|]. by rewrite IH. Qed.

Lemma palette_clause_text god : palette_clause god = JStr <$> palette_text god.
Proof.
  unfold palette_clause, palette_text. destruct god as [g|]; [|done].
  destruct (truthy (JStr g)) eqn:Ht.
  - by destruct (GOD_PALETTES !! g).
  - simpl in Ht. destruct (String.eqb_spec g ""); [subst|done]. done.
Qed.

(** C4. For a positive size [s] and frame count [f], and a style guide
    whose style and aesthetic texts are [st] and [ae], the prompt is the
    parts style text, size clause, aesthetic text, palette description of
    a known god if one is given, and the caller's prompt last and
    unchanged, joined by [", "]; the size clause states the total
    dimensions [(s*f)xs] and the frame dimensions [sxs] when [f > 1], and
    [single sprite, sxs] when [f = 1]. *)
Theorem prompt_composition base category s f god sg st ae :
  0 < s → 0 < f →
  guide_text sg "base_style" DEFAULT_STYLE_PROMPT = Ok (JStr st) →
  guide_text sg "aesthetic" DEFAULT_AESTHETIC = Ok (JStr ae) →
  build_prompt base category s f god sg
    = Ok (join ", " ([st; size_clause s f; ae] ++ palette_text god ++ [base]))
  ∧ (1 < f →
     size_clause s f =
       "sprite sheet with " +:+ str_of_Z f
         +:+ " frames arranged horizontally, total image size "
         +:+ str_of_Z (s * f) +:+ "x" +:+ str_of_Z s
         +:+ " pixels, each frame " +:+ str_of_Z s +:+ "x" +:+ str_of_Z s +:+ " pixels")
  ∧ (f = 1 →
     size_clause s f =
       "single sprite, " +:+ str_of_Z s +:+ "x" +:+ str_of_Z s +:+ " pixels").
Proof.
  intros _ _ Hst Hae. split; [|split].
  - unfold build_prompt. rewrite Hst, Hae, palette_clause_text. unfold py_join.
    replace ([JStr st; JStr (size_clause s f); JStr ae] ++ (JStr <$> palette_text god) ++ [JStr base])
      with (JStr <$> ([st; size_clause s f; ae] ++ palette_text god ++ [base])).
    + by rewrite strings_of_strs.
    + by rewrite !fmap_app.
  - intros Hf. unfold size_clause. by rewrite (proj2 (Z.ltb_lt 1 f) Hf).
  - intros ->. done.
Qed.

Lemma guide_text_dict (d : gmap string json) key dflt :
  guide_text (JDict d) key dflt = Ok (default (JStr dflt) (d !! key)).
Proof.
  unfold guide_text. destruct (truthy (JDict d)) eqn:Ht; [done|].
  simpl in Ht. destruct (map_to_list d) eqn:Hl; [|done].
  apply map_to_list_empty_iff in Hl as ->. by rewrite lookup_empty.
Qed.

(** C9. Two style guides that differ only in their ["palettes"] entry give
    the same prompt for every prompt text, category, size, frame count and
    god: the palette clause comes from the constant [GOD_PALETTES], never
    from the guide. *)
Theorem palettes_of_guide_unused (d1 d2 : gmap string json) base category s f god :
  (∀ k, k ≠ "palettes" → d1 !! k = d2 !! k) →
  build_prompt base category s f god (JDict d1)
    = build_prompt base category s f god (JDict d2).
Proof.
  intros H. unfold build_prompt. rewrite !guide_text_dict.
  by rewrite (H "base_style"), (H "aesthetic").
Qed.

End Prompt.


(** ** init *)

Section Init.

Variable E : Env.

(** C8. On a sprite tree with no style guide file, [cmd_init] returns 0 and
    leaves a style guide document with the two fields ["base_style"] and
    ["palettes"], holding the default style prompt and the built-in
    palettes: the document has no ["aesthetic"] field. *)
Theorem init_style_guide_fields w w1 :
  ensure_directories w = Done tt w1 →
  FS.exists_ (fs w) STYLE_GUIDE_PATH = false →
  ∃ w' g,
    cmd_init E w = Done 0 w'
    ∧ FS.get (fs w') STYLE_GUIDE_PATH = Some (File (Json (JDict g)))
    ∧ g !! "base_style" = Some (JStr DEFAULT_STYLE_PROMPT)
    ∧ g !! "palettes" = Some GOD_PALETTES_json
    ∧ g !! "aesthetic" = None.
Proof.
  intros Hens Hmiss.
  pose proof (ensure_directories_root _ _ Hens) as Hroot.
  pose proof (for_each_mkdir_spec _ _ _ Hens) as (Hw1 & Hframe & _ & _).
  assert (H1 : FS.get (fs w1) STYLE_GUIDE_PATH = None).
  { rewrite Hframe by not_standard. rewrite exists_get in Hmiss.
    by destruct (FS.get (fs w) STYLE_GUIDE_PATH). }
  destruct (put_Some (fs w1) [] "style_guide.json" (File (Json (JDict seeded_style_guide))) Hroot)
    as [t2 Ht2].
  change ([] ++ ["style_guide.json"]) with STYLE_GUIDE_PATH in Ht2.
  assert (Hsave : save_style_guide (JDict seeded_style_guide) w1 = Done tt (set_fs t2 w1)).
  { apply write_file_Done; [|done]. unfold FS.is_dir. by rewrite H1. }
  assert (H2root : FS.is_dir t2 [] = true).
  { apply (get_put_above _ _ _ _ [] Ht2); [apply prefix_nil|done]. }
  set (w2 := add_out ("Created style guide: " +:+ abs_str E STYLE_GUIDE_PATH) (set_fs t2 w1)).
  assert (Hrun : ∀ w3, (if FS.exists_ t2 MANIFEST_PATH then w3 = w2
                        else ∃ t3, FS.put t2 MANIFEST_PATH (File (Json empty_manifest)) = Some t3
                                   ∧ w3 = add_out ("Created manifest: " +:+ abs_str E MANIFEST_PATH) (set_fs t3 w2)) →
           cmd_init E w = Done 0 (add_out "Sprite directories initialized." w3)).
  { intros w3 Hw3. unfold cmd_init. rewrite (bind_Done _ _ _ _ _ Hens).
    rewrite bind_path_exists, exists_get, H1. cbn [negb when].
    assert (Hstep : (save_style_guide (JDict seeded_style_guide);;
                     print ("Created style guide: " +:+ abs_str E STYLE_GUIDE_PATH)) w1
                    = Done tt w2)
      by (by rewrite (bind_Done _ _ _ _ _ Hsave)).
    unfold seeded_style_guide in Hstep. rewrite (bind_Done _ _ _ _ _ Hstep).
    rewrite bind_path_exists. change (fs w2) with t2.
    destruct (FS.exists_ t2 MANIFEST_PATH) eqn:Hex; cbn [negb when].
    - subst w3. reflexivity.
    - destruct Hw3 as (t3 & Ht3 & ->).
      assert (Hsm : save_manifest empty_manifest w2 = Done tt (set_fs t3 w2)).
      { apply write_file_Done; [|done]. unfold FS.is_dir. cbn [fs w2 set_fs add_out].
        rewrite exists_get in Hex. by destruct (FS.get t2 MANIFEST_PATH). }
      assert (Hstep2 : (save_manifest empty_manifest;;
                        print ("Created manifest: " +:+ abs_str E MANIFEST_PATH)) w2
                       = Done tt (add_out ("Created manifest: " +:+ abs_str E MANIFEST_PATH) (set_fs t3 w2)))
        by (by rewrite (bind_Done _ _ _ _ _ Hsm)).
      rewrite (bind_Done _ _ _ _ _ Hstep2). reflexivity. }
  destruct (FS.exists_ t2 MANIFEST_PATH) eqn:Hex.
  - exists (add_out "Sprite directories initialized." w2), seeded_style_guide.
    split; [by apply Hrun|]. split; [|done].
    cbn [fs w2 set_fs add_out]. by apply get_put_eq in Ht2.
  - destruct (put_Some t2 [] "manifest.json" (File (Json empty_manifest)) H2root) as [t3 Ht3].
    change ([] ++ ["manifest.json"]) with MANIFEST_PATH in Ht3.
    eexists (add_out "Sprite directories initialized." _), seeded_style_guide.
    split; [apply Hrun; eauto|]. split; [|done].
    cbn [fs w2 set_fs add_out].
    rewrite (get_put_frame _ _ _ _ STYLE_GUIDE_PATH Ht3) by not_prefix.
    by apply get_put_eq in Ht2.
Qed.

(** An existing style guide is left as it is. *)
Lemma init_keeps_style_guide w w' x :
  FS.get (fs w) STYLE_GUIDE_PATH = Some x →
  cmd_init E w = Done 0 w' →
  FS.get (fs w') STYLE_GUIDE_PATH = Some x.
Proof.
  intros Hx Hrun. unfold cmd_init in Hrun.
  apply bind_inv_Done in Hrun as ([] & w1 & Hens & Hrun).
  pose proof (for_each_mkdir_spec _ _ _ Hens) as (Hw1 & Hframe & _ & _).
  assert (H1 : FS.get (fs w1) STYLE_GUIDE_PATH = Some x) by (rewrite Hframe by not_standard; done).
  rewrite bind_path_exists, exists_get, H1 in Hrun. cbn [negb when] in Hrun.
  rewrite bind_ret, bind_path_exists in Hrun.
  destruct (FS.exists_ (fs w1) MANIFEST_PATH) eqn:Hex; cbn [negb when] in Hrun.
  - rewrite bind_ret, bind_print in Hrun. injection Hrun as <-. done.
  - apply bind_inv_Done in Hrun as ([] & w2 & Hsm & Hrun).
    apply bind_inv_Done in Hsm as ([] & w3 & Hsm & Hpr).
    rewrite bind_print in Hrun. injection Hrun as <-. injection Hpr as <-.
    cbn [fs add_out].
    unfold save_manifest, dump_json, write_file, bind, read_fs in Hsm.
    destruct (FS.get (fs w1) MANIFEST_PATH) as [[|]|] eqn:Hg; try done;
      destruct (FS.put (fs w1) MANIFEST_PATH (File (Json empty_manifest))) as [t3|] eqn:Hp; try done;
      injection Hsm as <-; cbn [fs set_fs];
      rewrite (get_put_frame _ _ _ _ STYLE_GUIDE_PATH Hp) by not_prefix; done.
Qed.

End Init.

(** ** generate *)

Section Generate.

Variable repr_container : json → string.
Variable E : Env.

Lemma write_file_inv p c w w' :
  write_file p c w = Done tt w' →
  FS.put (fs w) p (File c) = Some (fs w') ∧ w' = set_fs (fs w') w.
Proof.
  unfold write_file, bind, read_fs.
  destruct (FS.get (fs w) p) as [[|]|]; try done;
    destruct (FS.put (fs w) p (File c)) eqn:Hp; try done; by intros [= <-].
Qed.

Lemma images_cons c cs :
  images (c :: cs) = match chunk_image c with Some d => d :: images cs | None => images cs end.
Proof. unfold images. simpl. by destruct (chunk_image c). Qed.

Lemma lines_cons p c cs :
  omap (chunk_line E p) (c :: cs)
  = match chunk_line E p c with Some l => l :: omap (chunk_line E p) cs | None => omap (chunk_line E p) cs end.
Proof. simpl. by destruct (chunk_line E p c). Qed.

(** What a completed run of the loop has done: the file holds the last
    image payload, and every chunk has left its line. *)
Lemma consume_inv p cs b w b' w' :
  consume E p cs b w = Done b' w' →
  Forall well_formed cs
  ∧ b' = b || has_image cs
  ∧ out w' = out w ++ omap (chunk_line E p) cs
  ∧ match last (images cs) with
    | Some d => FS.get (fs w') p = Some (File (Bytes d))
    | None => fs w' = fs w
    end
  ∧ same_counters w w'.
Proof.
  revert b w b'. induction cs as [|c cs IH]; intros b w b' H; simpl in H.
  - injection H as <- <-. unfold has_image. simpl. rewrite orb_false_r, app_nil_r.
    split; [constructor|]. unfold same_counters. tauto.
  - unfold has_image in *. rewrite images_cons, lines_cons.
    unfold chunk_line at 1. unfold chunk_note, chunk_image at 1 2 3.
    destruct (first_part c) as [[pt|]|e] eqn:Hfp; [| |by unfold bind in H].
    + rewrite bind_lift_Ok in H. destruct (image_of pt) as [d|] eqn:Him.
      * apply bind_inv_Done in H as ([] & w2 & Hwr & H).
        rewrite bind_print in H. apply write_file_inv in Hwr as [Hput Hw2].
        destruct (IH _ _ _ H) as (Hwf & Hb & Hout & Hfs & Hc).
        split; [constructor; [by eexists|done]|].
        split; [by rewrite orb_true_r, Hb|]. split; [|split].
        -- rewrite Hout. simpl. replace (out w2) with (out w) by (by rewrite Hw2).
           by rewrite <- app_assoc.
        -- destruct (images cs) as [|d' ds] eqn:Hom.
           ++ simpl in *. rewrite Hfs. by apply get_put_eq in Hput.
           ++ rewrite last_cons_cons.
              destruct (last (d' :: ds)) eqn:Hl; [exact Hfs|by apply last_None in Hl].
        -- unfold same_counters in *. rewrite Hw2 in Hc. simpl in Hc. tauto.
      * destruct (note_of pt) as [s|] eqn:Hnote.
        -- rewrite bind_print in H.
           destruct (IH _ _ _ H) as (Hwf & Hb & Hout & Hfs & Hc).
           split; [constructor; [by eexists|done]|]. split; [done|]. split; [|done].
           rewrite Hout. simpl. by rewrite <- app_assoc.
        -- destruct (IH _ _ _ H) as (Hwf & Hb & Hout & Hfs & Hc).
           split; [constructor; [by eexists|done]|]. done.
    + rewrite bind_lift_Ok in H.
      destruct (IH _ _ _ H) as (Hwf & Hb & Hout & Hfs & Hc).
      split; [constructor; [by eexists|done]|]. done.
Qed.

Lemma writable_put t p c t' :
  writable t p → FS.put t p (File c) = Some t' → writable t' p.
Proof.
  intros [Hd (dir & x & -> & Hdir)] Hp. split.
  - unfold FS.is_dir. by rewrite (get_put_eq _ _ _ _ Hp).
  - exists dir, x. split; [done|].
    apply (get_put_above _ _ _ _ dir Hp); [by apply prefix_app_r|].
    intros Heq. apply (f_equal length) in Heq. rewrite length_app in Heq. simpl in Heq. lia.
Qed.

Lemma consume_Done p cs b w :
  Forall well_formed cs → writable (fs w) p →
  ∃ b' w', consume E p cs b w = Done b' w'.
Proof.
  revert b w. induction cs as [|c cs IH]; intros b w Hwf Hw; simpl; [by eexists _, _|].
  apply Forall_cons in Hwf as [[pt Hpt] Hwf]. rewrite Hpt, bind_lift_Ok.
  destruct pt as [pt|]; [|by apply IH].
  destruct (image_of pt) as [d|].
  - destruct Hw as [Hd (dir & x & -> & Hdir)].
    destruct (put_Some (fs w) dir x (File (Bytes d)) Hdir) as [t' Ht'].
    rewrite (bind_Done _ _ _ _ _ (write_file_Done _ _ _ _ Hd Ht')), bind_print.
    apply IH; [done|]. cbn [fs add_out set_fs].
    apply (writable_put (fs w) _ (Bytes d)); [|done]. split; eauto.
  - destruct (note_of pt); [rewrite bind_print|]; by apply IH.
Qed.

Lemma consume_no_image p cs b w :
  Forall well_formed cs → images cs = [] →
  ∃ w', consume E p cs b w = Done b w'.
Proof.
  revert b w. induction cs as [|c cs IH]; intros b w Hwf Him; simpl; [by eexists|].
  apply Forall_cons in Hwf as [[pt Hpt] Hwf]. rewrite Hpt, bind_lift_Ok.
  rewrite images_cons in Him. unfold chunk_image in Him. rewrite Hpt in Him.
  destruct pt as [pt|]; [|by apply IH].
  destruct (image_of pt) as [d|]; [done|].
  destruct (note_of pt); [rewrite bind_print|]; by apply IH.
Qed.

Lemma consume_cases p cs b w :
  (∃ b' w', consume E p cs b w = Done b' w')
  ∨ (∃ e w', consume E p cs b w = Raised e w')
  ∨ (∃ c w', consume E p cs b w = Exited c w').
Proof. destruct (consume E p cs b w); eauto. Qed.

Lemma write_file_api_calls p c w : api_calls (world_of (write_file p c w)) = api_calls w.
Proof.
  unfold write_file, bind, read_fs.
  destruct (FS.get (fs w) p) as [[|]|]; try done;
    by destruct (FS.put (fs w) p (File c)).
Qed.

Lemma consume_api_calls p cs b w :
  api_calls (world_of (consume E p cs b w)) = api_calls w.
Proof.
  revert b w. induction cs as [|c cs IH]; intros b w; simpl; [done|].
  destruct (first_part c) as [[pt|]|e]; [| |done].
  - rewrite bind_lift_Ok. destruct (image_of pt) as [d|].
    + unfold bind at 1. pose proof (write_file_api_calls p (Bytes d) w) as Hw.
      destruct (write_file p (Bytes d) w) as [[] w2| |]; try done.
      rewrite bind_print, IH. done.
    + destruct (note_of pt); [rewrite bind_print|]; by rewrite IH.
  - rewrite bind_lift_Ok. apply IH.
Qed.

Lemma last_add_out l w : last (out (add_out l w)) = Some l.
Proof. cbn. apply last_snoc. Qed.

Lemma get_api_client_inv w u w' : get_api_client E w = Done u w' → w' = w.
Proof.
  unfold get_api_client.
  destruct (truthy _); [by intros [= <-]|done].
Qed.

Lemma generate_target_inv args w tg w1 :
  generate_target repr_container E args w = Done tg w1 →
  ∃ dir x y head rest,
    Target.output_path tg = dir ++ [x]
    ∧ Target.metadata_path tg = dir ++ [y]
    ∧ x ≠ y
    ∧ dir = head :: rest ∧ (head = "used" ∨ head = "staging")
    ∧ FS.is_dir (fs w1) dir = true
    ∧ api_calls w1 = api_calls w.
Proof.
  intros H. unfold generate_target in H.
  apply bind_inv_Done in H as ([] & wa & Hens & H).
  apply for_each_mkdir_spec in Hens as (Hwa & _).
  apply bind_inv_Done in H as (sg & wb & Hsg & H). apply load_style_guide_inv in Hsg as ->.
  apply bind_inv_Done in H as (fp & wb & Hfp & H). apply lift_inv in Hfp as [_ ->].
  repeat (let Hs := fresh "Hs" in
          apply bind_inv_Done in H as ([] & ? & Hs & H);
          first [apply print_inv in Hs | apply when_print_inv in Hs
                | apply get_api_client_inv in Hs]).
  apply bind_inv_Done in H as (u & wu & Hu & H). injection Hu as <- <-.
  apply bind_inv_Done in H as ([] & wm & Hm & H). apply mkdir_parents_inv in Hm as [Hm Hwm].
  injection H as <- <-. cbn [Target.output_path Target.metadata_path].
  assert (Hapi : api_calls wm = api_calls w).
  { rewrite Hwm. subst. destruct (truthy _), (truthy _); cbn; by rewrite Hwa. }
  match type of Hm with
  | FS.mkdirs _ ?d = _ => pose proof (mkdirs_get _ _ _ d Hm) as Hg
  end.
  rewrite decide_True in Hg by done. destruct Hg as [ch Hg].
  revert Hg. clear Hm.
  destruct (String.eqb (GenArgs.output args) "direct" || GenArgs.auto_apply args);
    [destruct (truthy (of_opt (GenArgs.subcategory args)))|]; intros Hg;
    eexists _, _, _, _, _;
    (split; [reflexivity|]; split; [reflexivity|];
     split; [first [apply png_ne_meta|done]|];
     split; [reflexivity|]; split; [auto|]; split; [|done];
     unfold FS.is_dir; by rewrite Hg).
Qed.

Lemma call_api_Done p w saved w2 :
  let r := generate_content_stream E (api_calls w) in
  consume E p (chunks r) false (count_request w) = Done saved w2 →
  call_api E p w =
    match failure r with
    | Some msg => Done (Some 1) (add_out ("Error generating image: " +:+ msg) w2)
    | None =>
        if saved then Done None w2
        else Done (Some 1) (add_out "Error: No image was generated" w2)
    end.
Proof.
  intros r H. unfold call_api, try_except, next_response. unfold bind at 1.
  fold r. rewrite (bind_Done _ _ _ _ _ H).
  destruct (failure r); [done|]. by destruct saved.
Qed.

Lemma call_api_Raised p w e w2 :
  let r := generate_content_stream E (api_calls w) in
  consume E p (chunks r) false (count_request w) = Raised e w2 →
  call_api E p w = Done (Some 1) (add_out ("Error generating image: " +:+ exn_text E e) w2).
Proof.
  intros r H. unfold call_api, try_except, next_response. unfold bind at 1.
  fold r. by rewrite (bind_Raised _ _ _ _ _ H).
Qed.

Lemma call_api_Exited p w c w2 :
  let r := generate_content_stream E (api_calls w) in
  consume E p (chunks r) false (count_request w) = Exited c w2 →
  call_api E p w = Exited c w2.
Proof.
  intros r H. unfold call_api, try_except, next_response. unfold bind at 1.
  fold r. by rewrite (bind_Exited _ _ _ _ _ H).
Qed.

(** The code after the request touches the metadata record and the
    manifest only, and returns 0 if it returns. *)

Lemma generate_record_inv args tg w c w' :
  generate_record repr_container E args tg w = Done c w' →
  c = 0
  ∧ (∀ q, ¬ Target.metadata_path tg `prefix_of` q → ¬ q `prefix_of` Target.metadata_path tg →
          ¬ MANIFEST_PATH `prefix_of` q → ¬ q `prefix_of` MANIFEST_PATH →
          FS.get (fs w') q = FS.get (fs w) q)
  ∧ (∃ more, out w' = out w ++ more)
  ∧ api_calls w' = api_calls w.
Proof.
  intros H. unfold generate_record in H.
  apply bind_inv_Done in H as (now & wa & Hnow & H). injection Hnow as <- <-.
  apply bind_inv_Done in H as ([] & wb & Hd & H). apply write_file_inv in Hd as [Hd Hwb].
  cbn [fs tick] in Hd.
  apply bind_inv_Done in H as ([] & wc & Hrec & H). injection H as <- <-.
  split; [done|].
  destruct (String.eqb (Target.status tg) "used").
  - apply bind_inv_Done in Hrec as (m & wd & Hl & Hrec). apply load_manifest_inv in Hl as ->.
    apply bind_inv_Done in Hrec as (m' & wd & Hl & Hrec). apply lift_inv in Hl as [_ ->].
    apply bind_inv_Done in Hrec as ([] & wd & Hs & Hrec). apply write_file_inv in Hs as [Hs Hwd].
    injection Hrec as <-. cbn [fs out api_calls add_out].
    split; [|split].
    + intros q H1 H2 H3 H4. rewrite (get_put_frame _ _ _ _ q Hs) by done.
      by rewrite (get_put_frame _ _ _ _ q Hd).
    + rewrite Hwd, Hwb. cbn. eauto.
    + rewrite Hwd, Hwb. done.
  - apply bind_inv_Done in Hrec as ([] & wd & Hp & Hrec). injection Hp as <-.
    injection Hrec as <-. cbn [fs out api_calls add_out].
    split; [|split].
    + intros q H1 H2 H3 H4. by rewrite (get_put_frame _ _ _ _ q Hd).
    + rewrite Hwb. cbn. rewrite <- app_assoc. eauto.
    + rewrite Hwb. done.
Qed.

(** C1. When [cmd_generate] returns 0, the output file holds the payload of
    the LAST chunk of the response whose first part carries inline image
    data: every such chunk is written to the same path, each over the one
    before.  A chunk whose first part carries text and no image leaves an
    ["API note: ..."] line in the output and does not fail the command. *)
Theorem generate_keeps_last_image args w w' :
  cmd_generate repr_container E args w = Done 0 w' →
  ∃ tg w1 d,
    generate_target repr_container E args w = Done tg w1
    ∧ last (images (chunks (generate_content_stream E (api_calls w)))) = Some d
    ∧ FS.get (fs w') (Target.output_path tg) = Some (File (Bytes d))
    ∧ (∀ c s, c ∈ chunks (generate_content_stream E (api_calls w)) →
              chunk_note c = Some s → ("API note: " +:+ s) ∈ out w').
Proof.
  intros H. unfold cmd_generate in H.
  apply bind_inv_Done in H as (tg & w1 & Htg & H).
  destruct (generate_target_inv _ _ _ _ Htg)
    as (dir & x & y & hd & rest & Hop & Hmp & Hxy & Hdir & Hhd & _ & Hapi).
  apply bind_inv_Done in H as (r & w2 & Hcall & H).
  rewrite <- Hapi.
  set (resp := generate_content_stream E (api_calls w1)) in *.
  destruct (consume_cases (Target.output_path tg) (chunks resp) false (count_request w1))
    as [(saved & w3 & Hc) | [(e & w3 & Hc) | (c & w3 & Hc)]].
  2:{ rewrite (call_api_Raised _ _ _ _ Hc) in Hcall. injection Hcall as <- <-. done. }
  2:{ by rewrite (call_api_Exited _ _ _ _ Hc) in Hcall. }
  rewrite (call_api_Done _ _ _ _ Hc) in Hcall. fold resp in Hcall.
  destruct (failure resp); [injection Hcall as <- <-; done|].
  destruct saved; [|injection Hcall as <- <-; done].
  injection Hcall as <- <-.
  apply consume_inv in Hc as (Hwf & Hsaved & Hout & Hfs & _).
  apply generate_record_inv in H as (_ & Hframe & [more Hmore] & _).
  unfold has_image in Hsaved. cbn [orb] in Hsaved.
  destruct (last (images (chunks resp))) as [d|] eqn:Hlast.
  2:{ apply last_None in Hlast. by rewrite Hlast in Hsaved. }
  exists tg, w1, d. split; [done|]. split; [done|]. split.
  - rewrite Hframe; [done|..]; rewrite ?Hop, ?Hmp, ?Hdir.
    + by apply not_prefix_sibling, not_eq_sym.
    + by apply not_prefix_sibling.
    + destruct Hhd as [-> | ->]; not_prefix.
    + destruct Hhd as [-> | ->]; not_prefix.
  - intros c s Hc Hnote. rewrite Hmore, Hout. apply elem_of_app. left. apply elem_of_app. right.
    apply list_elem_of_omap. exists c. split; [done|].
    unfold chunk_line. rewrite Hnote.
    unfold chunk_note, chunk_image in *. destruct (first_part c) as [[pt|]|]; try done.
    by destruct (image_of pt).
Qed.

(** C5. Once the code before the request has run, with [r] the response to
    the one request made:
    - when the stream ends without an exception and every chunk can be
      indexed, [cmd_generate] returns 1 with the line
      ["Error: No image was generated"] if and only if no chunk carries
      inline image data;
    - when the stream raises with message [msg] (its chunks indexable, the
      output file writable), [cmd_generate] returns 1 with the line
      ["Error generating image: msg"];
    - whenever [cmd_generate] returns a non-zero code, exactly one request
      was made. *)
Theorem generate_failure_modes args w tg w1 :
  generate_target repr_container E args w = Done tg w1 →
  let r := generate_content_stream E (api_calls w) in
  (failure r = None → Forall well_formed (chunks r) →
     (no_image_failure (cmd_generate repr_container E args w) ↔ images (chunks r) = []))
  ∧ (∀ msg, failure r = Some msg → Forall well_formed (chunks r) →
       FS.is_dir (fs w1) (Target.output_path tg) = false →
       generation_failed msg (cmd_generate repr_container E args w))
  ∧ (∀ c w', cmd_generate repr_container E args w = Done c w' → c ≠ 0 →
       api_calls w' = S (api_calls w)).
Proof.
  intros Htg r.
  destruct (generate_target_inv _ _ _ _ Htg)
    as (dir & x & y & hd & rest & Hop & Hmp & Hxy & Hdir & Hhd & Hisdir & Hapi).
  unfold cmd_generate. rewrite (bind_Done _ _ _ _ _ Htg).
  unfold r. rewrite <- Hapi. clear r.
  set (r := generate_content_stream E (api_calls w1)).
  pose proof (consume_api_calls (Target.output_path tg) (chunks r) false (count_request w1)) as Hcalls.
  destruct (consume_cases (Target.output_path tg) (chunks r) false (count_request w1))
    as [(saved & w3 & Hc) | [(e & w3 & Hc) | (c & w3 & Hc)]].
  - (* the stream is consumed *)
    pose proof (call_api_Done _ _ _ _ Hc) as Hcall. fold r in Hcall.
    rewrite Hc in Hcalls. cbn [world_of] in Hcalls.
    apply consume_inv in Hc as (Hwf & Hsaved & Hout & Hfs & _). cbn [orb] in Hsaved.
    split; [|split].
    + intros Hnone _. rewrite Hnone in Hcall. unfold no_image_failure. subst saved.
      unfold has_image in Hcall. unfold bind. rewrite Hcall.
      destruct (images (chunks r)) eqn:Him.
      * split; [done|]. intros _. eexists. split; [reflexivity|]. apply last_add_out.
      * split; [|done]. intros (w' & Hrun & _).
        destruct (generate_record repr_container E args tg w3) eqn:Hrec; try done.
        apply generate_record_inv in Hrec as [-> _]. done.
    + intros msg Hmsg _ _. rewrite Hmsg in Hcall. unfold bind. rewrite Hcall.
      eexists. split; [reflexivity|]. apply last_add_out.
    + intros c w' Hrun Hc0. unfold bind in Hrun. rewrite Hcall in Hrun.
      destruct (failure r).
      * injection Hrun as <- <-. done.
      * destruct saved.
        -- apply generate_record_inv in Hrun as [-> _]. done.
        -- injection Hrun as <- <-. done.
  - (* an exception inside the loop *)
    pose proof (call_api_Raised _ _ _ _ Hc) as Hcall. fold r in Hcall.
    rewrite Hc in Hcalls. cbn [world_of] in Hcalls.
    split; [|split].
    + intros Hnone Hwf. split.
      * intros (w' & Hrun & Hlast). unfold bind in Hrun. rewrite Hcall in Hrun.
        injection Hrun as <-. rewrite last_add_out in Hlast. by injection Hlast.
      * intros Him.
        destruct (consume_no_image (Target.output_path tg) (chunks r) false
                    (count_request w1) Hwf Him) as [w4 Hw4].
        by rewrite Hc in Hw4.
    + intros msg Hmsg Hwf Hfree.
      destruct (consume_Done (Target.output_path tg) (chunks r) false (count_request w1) Hwf)
        as (b' & w4 & Hw4); [|by rewrite Hc in Hw4].
      split; [done|]. by exists dir, x.
    + intros c w' Hrun Hc0. unfold bind in Hrun. rewrite Hcall in Hrun.
      injection Hrun as <- <-. done.
  - pose proof (call_api_Exited _ _ _ _ Hc) as Hcall. fold r in Hcall.
    split; [|split].
    + intros Hnone Hwf. split.
      * intros (w' & Hrun & _). unfold bind in Hrun. by rewrite Hcall in Hrun.
      * intros Him.
        destruct (consume_no_image (Target.output_path tg) (chunks r) false
                    (count_request w1) Hwf Him) as [w4 Hw4].
        by rewrite Hc in Hw4.
    + intros msg Hmsg Hwf Hfree.
      destruct (consume_Done (Target.output_path tg) (chunks r) false (count_request w1) Hwf)
        as (b' & w4 & Hw4); [|by rewrite Hc in Hw4].
      split; [done|]. by exists dir, x.
    + intros c0 w' Hrun. unfold bind in Hrun. by rewrite Hcall in Hrun.
Qed.

End Generate.

(** ** batch *)

Section Batch.

Variable repr_container : json → string.
Variable E : Env.

Lemma batch_loop_returns auto total i l w w' :
  items_return repr_container E auto total i l w w' →
  batch_loop repr_container E auto total i l w = Done tt w'.
Proof.
  induction 1 as [|i item rest w code w1 w' Hgen _ IH]; [done|].
  simpl. rewrite bind_print. fold (item_header total i item).
  rewrite (bind_Done _ _ _ _ _ Hgen). fold (item_warning repr_container item).
  destruct (code =? 0); exact IH.
Qed.

Lemma batch_loop_inv auto total i l w w' :
  batch_loop repr_container E auto total i l w = Done tt w' →
  items_return repr_container E auto total i l w w'.
Proof.
  revert i w. induction l as [|item rest IH]; intros i w H; simpl in H.
  - injection H as <-. constructor.
  - rewrite bind_print in H. apply bind_inv_Done in H as (code & w1 & Hgen & H).
    apply bind_inv_Done in H as ([] & w2 & Hwarn & H).
    apply (items_return_cons _ _ _ _ _ _ _ _ code w1); [exact Hgen|].
    apply IH. destruct (code =? 0); cbn [negb when] in Hwarn; injection Hwarn as <-; exact H.
Qed.

(** C10. For a batch manifest that exists, [cmd_batch] returns 0 whenever
    every item's call of [cmd_generate] returns, with whatever code: an
    item that returns non-zero adds a warning line and the loop goes on.
    It never returns another code than 0. *)
Theorem batch_returns_zero (args : BatchArgs.t) bm w :
  batch_files E (BatchArgs.manifest args) = Some bm →
  let l := default [] (items bm) in
  let n := str_of_Z (Z.of_nat (length l)) in
  (∀ w',
     items_return repr_container E (BatchArgs.auto_apply args) (length l) 1 l
       (add_out ("Processing " +:+ n +:+ " items...") w) w' →
     cmd_batch repr_container E args w
       = Done 0 (add_out (nl +:+ "Batch complete. Generated " +:+ n +:+ " sprites.") w'))
  ∧ (∀ code w', cmd_batch repr_container E args w = Done code w' → code = 0).
Proof.
  intros Hbm l n. unfold cmd_batch. rewrite Hbm. fold l. fold n. split.
  - intros w' Hret. rewrite bind_print.
    by rewrite (bind_Done _ _ _ _ _ (batch_loop_returns _ _ _ _ _ _ Hret)).
  - intros code w' H. rewrite bind_print in H.
    apply bind_inv_Done in H as ([] & w1 & _ & H). rewrite bind_print in H.
    by injection H as <- _.
Qed.

End Batch.


(** ** approve *)

Section Approve.

Variable repr_container : json → string.
Variable E : Env.

Lemma resolve_step {B} arg (d : gmap string json) key (k : json → M B) w :
  bind (if truthy (of_opt arg) then ret (of_opt arg) else lift (dict_get (JDict d) key)) k w
  = k (resolved arg d key) w.
Proof. unfold resolved, py_or. by destruct (truthy (of_opt arg)). Qed.

Lemma dest_dir_step {B} (subj : json) c s (k : path → M B) w :
  match s with
  | Some s' => subj = JStr s' ∧ s' ≠ ""
  | None => truthy subj = false
  end →
  bind (if truthy subj
        then (x <- lift (segment subj);; ret ["used"; c; x])
        else ret ["used"; c]) k w
  = k (dest_dir c s) w.
Proof.
  destruct s as [s'|].
  - intros [-> Hs]. by rewrite truthy_JStr.
  - by intros ->.
Qed.

Lemma asset_key_resolved c (subj : json) s n :
  match s with
  | Some s' => subj = JStr s' ∧ s' ≠ ""
  | None => truthy subj = false
  end →
  asset_key repr_container (JStr c) subj (JStr n) = derive c s n.
Proof.
  unfold asset_key. destruct s as [s'|].
  - intros [-> Hs]. by rewrite truthy_JStr.
  - by intros ->.
Qed.

(** C7. On a sprite tree whose standard directories can be ensured,
    [cmd_approve] returns 1
    - with ["Error: Staging asset not found"] when the staging directory
      is missing,
    - with ["Error: Metadata not found"] when the directory is there and
      its metadata record is missing,
    - with ["Error: Must specify --category and --name ..."] when the
      record is a JSON object and the arguments and the record give no
      category or no name;
    in each case the final tree is the one [ensure_directories] leaves: no
    regular file is created, changed or removed, the manifest and all of
    the staging entry are as before, nothing is printed but the error, and
    the only change is that missing standard directories now exist. *)
Theorem approve_failures (args : ApproveArgs.t) w w1 :
  let uuid := ApproveArgs.uuid args in
  is_file_name uuid = true →
  ensure_directories w = Done tt w1 →
  (FS.exists_ (fs w) ["staging"; uuid] = false →
     cmd_approve repr_container E args w
       = Done 1 (add_out ("Error: Staging asset not found: " +:+ uuid) w1))
  ∧ (FS.exists_ (fs w) ["staging"; uuid] = true →
     FS.exists_ (fs w) ["staging"; uuid; "metadata.json"] = false →
     cmd_approve repr_container E args w
       = Done 1 (add_out ("Error: Metadata not found for " +:+ uuid) w1))
  ∧ (∀ d,
     FS.get (fs w) ["staging"; uuid; "metadata.json"] = Some (File (Json (JDict d))) →
     truthy (resolved (ApproveArgs.category args) d "category") = false
       ∨ truthy (resolved (ApproveArgs.name args) d "name") = false →
     cmd_approve repr_container E args w
       = Done 1 (add_out "Error: Must specify --category and --name, or they must be in metadata" w1))
  ∧ files_kept (fs w) (fs w1)
  ∧ FS.get (fs w1) MANIFEST_PATH = FS.get (fs w) MANIFEST_PATH
  ∧ (∀ r, FS.get (fs w1) ("staging" :: uuid :: r) = FS.get (fs w) ("staging" :: uuid :: r))
  ∧ out w1 = out w.
Proof.
  intros uuid _ Hens.
  pose proof (ensure_directories_files _ _ Hens) as Hkept.
  pose proof (for_each_mkdir_spec _ _ _ Hens) as (Hw1 & Hframe & _ & _).
  assert (Hst : ∀ r, FS.get (fs w1) ("staging" :: uuid :: r) = FS.get (fs w) ("staging" :: uuid :: r)).
  { intros r. apply Hframe. not_standard. }
  split; [|split; [|split; [|split; [done|split; [|split; [done|]]]]]].
  - intros Hmiss. unfold cmd_approve. rewrite (bind_Done _ _ _ _ _ Hens).
    rewrite bind_path_exists. rewrite exists_get, Hst, <- exists_get. fold uuid. rewrite Hmiss. done.
  - intros Hdir Hmiss. unfold cmd_approve. rewrite (bind_Done _ _ _ _ _ Hens).
    rewrite bind_path_exists. rewrite exists_get, Hst, <- exists_get. fold uuid. rewrite Hdir.
    cbn [negb]. rewrite bind_path_exists.
    change (["staging"; uuid] ++ ["metadata.json"]) with ("staging" :: uuid :: ["metadata.json"]).
    rewrite exists_get, Hst, <- exists_get. rewrite Hmiss. done.
  - intros d Hmeta Hres.
    assert (Hdir : FS.exists_ (fs w) ["staging"; uuid] = true).
    { rewrite exists_get. change ["staging"; uuid; "metadata.json"] with (["staging"; uuid] ++ ["metadata.json"]) in Hmeta.
      rewrite get_app in Hmeta. by destruct (FS.get (fs w) ["staging"; uuid]). }
    unfold cmd_approve. rewrite (bind_Done _ _ _ _ _ Hens).
    rewrite bind_path_exists. rewrite exists_get, Hst, <- exists_get. fold uuid. rewrite Hdir.
    cbn [negb]. rewrite bind_path_exists.
    change (["staging"; uuid] ++ ["metadata.json"]) with ("staging" :: uuid :: ["metadata.json"]).
    rewrite exists_get, Hst, Hmeta. cbn [negb].
    assert (Hload : load_json ["staging"; uuid; "metadata.json"] w1 = Done (JDict d) w1).
    { unfold load_json, read_file, bind, read_fs. by rewrite Hst, Hmeta. }
    rewrite (bind_Done _ _ _ _ _ Hload).
    rewrite !resolve_step.
    destruct Hres as [-> | ->]; [done|]. by rewrite orb_true_r.
  - apply Hframe. not_standard.
  - by rewrite Hw1.
Qed.

(** C2. Let a staging entry hold a metadata record [d] (a JSON object) and
    an image [img], let the arguments or else the record give a category
    [c] and a name [n], and a subcategory [s] or none, all of them file
    names; let the place of the asset in the used tree be free of
    irregular files, and the manifest be absent or a document with an
    ["assets"] object.  Then [cmd_approve] returns 0, and afterwards
    - the staging directory no longer exists,
    - [used/c[/s]/n.png] holds [img],
    - [used/c[/s]/n.meta.json] holds [d] with status ["used"] and the
      approval timestamp,
    - the manifest maps the derived key to that path, with the frame count
      and the size of the record (1 and 64 when the record has none), all
      its other entries as before. *)
Theorem approve_moves_to_used (args : ApproveArgs.t) w w1 d img c s n m a :
  let uuid := ApproveArgs.uuid args in
  let dest_sprite := dest_dir c s ++ [n +:+ ".png"] in
  let dest_meta := dest_dir c s ++ [n +:+ ".meta.json"] in
  is_file_name uuid = true →
  ensure_directories w = Done tt w1 →
  FS.get (fs w) ["staging"; uuid; "metadata.json"] = Some (File (Json (JDict d))) →
  FS.get (fs w) ["staging"; uuid; "sprite.png"] = Some (File img) →
  resolved (ApproveArgs.category args) d "category" = JStr c → is_file_name c = true →
  resolved (ApproveArgs.name args) d "name" = JStr n → is_file_name n = true →
  match s with
  | Some s' =>
      resolved (ApproveArgs.subcategory args) d "subcategory" = JStr s'
      ∧ is_file_name s' = true
  | None => truthy (resolved (ApproveArgs.subcategory args) d "subcategory") = false
  end →
  FS.blocked (fs w) dest_sprite = false →
  FS.is_dir (fs w) dest_sprite = false →
  FS.is_dir (fs w) dest_meta = false →
  manifest_doc (fs w) = Some (JDict m) → m !! "assets" = Some (JDict a) →
  ∃ w',
    cmd_approve repr_container E args w = Done 0 w'
    ∧ FS.exists_ (fs w') ["staging"; uuid] = false
    ∧ FS.get (fs w') dest_sprite = Some (File img)
    ∧ FS.get (fs w') dest_meta
        = Some (File (Json (JDict (<["approved_at" := JStr (now_iso E (clock w))]>
                                     (<["status" := JStr "used"]> d)))))
    ∧ manifest_doc (fs w')
        = Some (JDict (<["assets" :=
                          JDict (<[derive c s n :=
                                     manifest_entry dest_sprite
                                       (default (JInt 1) (d !! "frames"))
                                       (default (JInt 64) (d !! "size"))]> a)]> m)).
Proof.
  intros uuid DS DM _ Hens Hmeta Himg Hc Hcn Hn Hnn Hsn Hblocked HDS HDM Hman Hassets.
  pose proof (file_name_nonempty _ Hcn) as Hc0.
  pose proof (file_name_nonempty _ Hnn) as Hn0.
  assert (Hs : match s with
               | Some s' =>
                   resolved (ApproveArgs.subcategory args) d "subcategory" = JStr s' ∧ s' ≠ ""
               | None => truthy (resolved (ApproveArgs.subcategory args) d "subcategory") = false
               end).
  { destruct s as [s'|]; [|done]. destruct Hsn as [? Hsn]. split; [done|].
    by apply file_name_nonempty. }
  pose proof (blocked_snoc _ _ _ Hblocked) as Hfree.
  set (dd := dest_dir c s) in *.
  set (SD := ["staging"; uuid]).
  assert (Hdd : ∃ rest, dd = "used" :: rest) by (unfold dd, dest_dir; eauto).
  destruct Hdd as [rest Hdd].
  pose proof (ensure_directories_files _ _ Hens) as [Hfiles Hdirs].
  pose proof (for_each_mkdir_spec _ _ _ Hens) as (Hw1 & Hframe & Hstd & _).
  (* state 1: after ensure_directories *)
  assert (H1st : ∀ r, FS.get (fs w1) ("staging" :: uuid :: r) = FS.get (fs w) ("staging" :: uuid :: r)).
  { intros r. apply Hframe. not_standard. }
  assert (H1DS : FS.get (fs w1) DS = FS.get (fs w) DS) by apply Hframe, sprite_not_standard.
  assert (H1DM : FS.get (fs w1) DM = FS.get (fs w) DM) by apply Hframe, meta_not_standard.
  assert (H1MP : FS.get (fs w1) MANIFEST_PATH = FS.get (fs w) MANIFEST_PATH)
    by (apply Hframe; not_standard).
  assert (HSDdir : FS.is_dir (fs w) SD = true).
  { apply (get_parent_dir _ SD ["metadata.json"] _ Hmeta). done. }
  (* state 2: the destination directory *)
  destruct (mkdirs_Some (fs w1) dd) as [t2 Ht2].
  { intros q Hq. specialize (Hfree q Hq). unfold FS.is_file in *.
    destruct (FS.get (fs w1) q) as [[cq|]|] eqn:Hq1; try done.
    apply Hfiles in Hq1. by rewrite Hq1 in Hfree. }
  assert (H2 : ∀ q, ¬ q `prefix_of` dd → FS.get t2 q = FS.get (fs w1) q).
  { intros q Hq. pose proof (mkdirs_get _ _ _ q Ht2) as Hg. by rewrite decide_False in Hg. }
  assert (H2dd : FS.is_dir t2 dd = true).
  { pose proof (mkdirs_get _ _ _ dd Ht2) as Hg. rewrite decide_True in Hg by done.
    destruct Hg as [ch Hg]. unfold FS.is_dir. by rewrite Hg. }
  assert (Hst_dd : ∀ r, ¬ ("staging" :: uuid :: r) `prefix_of` dd) by (intros r; rewrite Hdd; not_prefix).
  assert (HMP_dd : ¬ MANIFEST_PATH `prefix_of` dd) by (rewrite Hdd; not_prefix).
  (* state 3: the sprite is copied *)
  destruct (put_Some t2 dd (n +:+ ".png") (File img) H2dd) as [t3 Ht3]. fold DS in Ht3.
  assert (H3 : ∀ q, ¬ DS `prefix_of` q → ¬ q `prefix_of` DS → FS.get t3 q = FS.get t2 q)
    by (intros q; apply (get_put_frame _ _ _ _ q Ht3)).
  assert (H3dd : FS.is_dir t3 dd = true).
  { apply (get_put_above _ _ _ _ dd Ht3); [by apply prefix_app_r|].
    unfold DS. intros Heq. apply (f_equal length) in Heq. rewrite length_app in Heq. simpl in Heq. lia. }
  (* state 4: the metadata record *)
  set (meta' := <["approved_at" := JStr (now_iso E (clock w))]> (<["status" := JStr "used"]> d)).
  destruct (put_Some t3 dd (n +:+ ".meta.json") (File (Json (JDict meta'))) H3dd) as [t4 Ht4].
  fold DM in Ht4.
  assert (H4 : ∀ q, ¬ DM `prefix_of` q → ¬ q `prefix_of` DM → FS.get t4 q = FS.get t3 q)
    by (intros q; apply (get_put_frame _ _ _ _ q Ht4)).
  assert (H4root : FS.is_dir t4 [] = true).
  { apply (get_put_above _ _ _ _ [] Ht4); [apply prefix_nil|]. unfold DM. by destruct dd. }
  (* state 5: the manifest *)
  set (entry := manifest_entry DS (default (JInt 1) (d !! "frames")) (default (JInt 64) (d !! "size"))).
  set (man' := JDict (<["assets" := JDict (<[derive c s n := entry]> a)]> m)).
  destruct (put_Some t4 [] "manifest.json" (File (Json man')) H4root) as [t5 Ht5].
  change ([] ++ ["manifest.json"]) with MANIFEST_PATH in Ht5.
  assert (H5 : ∀ q, ¬ MANIFEST_PATH `prefix_of` q → ¬ q `prefix_of` MANIFEST_PATH →
                    FS.get t5 q = FS.get t4 q)
    by (intros q; apply (get_put_frame _ _ _ _ q Ht5)).
  (* paths that do not meet *)
  assert (HDS_st : ∀ r, ¬ DS `prefix_of` ("staging" :: uuid :: r) ∧ ¬ ("staging" :: uuid :: r) `prefix_of` DS)
    by (intros r; unfold DS; rewrite Hdd; split; not_prefix).
  assert (HDM_st : ∀ r, ¬ DM `prefix_of` ("staging" :: uuid :: r) ∧ ¬ ("staging" :: uuid :: r) `prefix_of` DM)
    by (intros r; unfold DM; rewrite Hdd; split; not_prefix).
  assert (HMP_st : ∀ r, ¬ MANIFEST_PATH `prefix_of` ("staging" :: uuid :: r) ∧ ¬ ("staging" :: uuid :: r) `prefix_of` MANIFEST_PATH)
    by (intros r; split; not_prefix).
  assert (HDS_MP : ¬ DS `prefix_of` MANIFEST_PATH ∧ ¬ MANIFEST_PATH `prefix_of` DS)
    by (unfold DS; rewrite Hdd; split; not_prefix).
  assert (HDM_MP : ¬ DM `prefix_of` MANIFEST_PATH ∧ ¬ MANIFEST_PATH `prefix_of` DM)
    by (unfold DM; rewrite Hdd; split; not_prefix).
  assert (HDS_DM : ¬ DS `prefix_of` DM ∧ ¬ DM `prefix_of` DS).
  { split; apply not_prefix_sibling; [|apply not_eq_sym]; apply png_ne_meta. }
  assert (Hst : ∀ r, FS.get t5 ("staging" :: uuid :: r) = FS.get (fs w) ("staging" :: uuid :: r)).
  { intros r. rewrite H5 by apply HMP_st. rewrite H4 by apply HDM_st.
    rewrite H3 by apply HDS_st. rewrite H2 by apply Hst_dd. apply H1st. }
  (* state 6: the staging directory is removed *)
  assert (H5SD : FS.is_dir t5 SD = true).
  { unfold FS.is_dir, SD in *. by rewrite Hst. }
  destruct (remove_Some t5 SD) as [t6 Ht6]; [done| |].
  { unfold FS.is_dir in H5SD. by destruct (FS.get t5 SD). }
  assert (H6 : ∀ q, ¬ SD `prefix_of` q → ¬ q `prefix_of` SD → FS.get t6 q = FS.get t5 q)
    by (intros q; apply (get_remove_frame _ _ _ q Ht6)).
  assert (Hclock : clock w1 = clock w) by (rewrite Hw1; done).
  eexists. split; [|split; [|split; [|split]]].
  - unfold cmd_approve. rewrite (bind_Done _ _ _ _ _ Hens).
    rewrite bind_path_exists. fold uuid. fold SD.
    assert (Hex1 : FS.exists_ (fs w1) SD = true).
    { rewrite exists_get. unfold SD. rewrite H1st. unfold FS.is_dir, SD in HSDdir.
      by destruct (FS.get (fs w) ["staging"; uuid]). }
    rewrite Hex1. cbn [negb]. rewrite bind_path_exists.
    change (SD ++ ["metadata.json"]) with ("staging" :: uuid :: ["metadata.json"]).
    rewrite exists_get, H1st, Hmeta. cbn [negb].
    assert (Hmeta1 : FS.get (fs w1) ["staging"; uuid; "metadata.json"] = Some (File (Json (JDict d))))
      by (by rewrite H1st).
    rewrite (bind_Done _ _ _ _ _ (load_json_Done _ _ _ Hmeta1)).
    rewrite !resolve_step. rewrite Hc, Hn. rewrite !truthy_JStr by done. cbn [negb orb].
    cbn [segment]. rewrite bind_lift_Ok. rewrite (dest_dir_step _ c s) by exact Hs.
    fold dd.
    rewrite (bind_Done _ _ _ _ _ (mkdir_parents_Done _ _ _ Ht2)).
    cbn [py_str]. fold DS. fold DM.
    assert (Hcopy : copy2 (SD ++ ["sprite.png"]) DS (set_fs t2 w1) = Done tt (set_fs t3 (set_fs t2 w1))).
    { apply (copy2_Done _ _ img); cbn [fs set_fs].
      - unfold FS.is_dir in *. rewrite H2 by apply not_prefix_snoc. by rewrite H1DS.
      - unfold DS. rewrite Hdd. done.
      - change (SD ++ ["sprite.png"]) with ("staging" :: uuid :: ["sprite.png"]).
        rewrite H2 by apply Hst_dd. by rewrite H1st.
      - done. }
    rewrite (bind_Done _ _ _ _ _ Hcopy).
    cbn [dict_set]. rewrite bind_lift_Ok.
    unfold datetime_now at 1. unfold bind at 1. cbn [clock set_fs]. rewrite Hclock.
    cbn [dict_set]. rewrite bind_lift_Ok. fold meta'.
    assert (Hdump : dump_json DM (JDict meta') (tick (set_fs t3 (set_fs t2 w1)))
                    = Done tt (set_fs t4 (tick (set_fs t3 (set_fs t2 w1))))).
    { apply write_file_Done; cbn [fs set_fs tick]; [|done].
      unfold FS.is_dir in *. rewrite H3 by apply HDS_DM.
      rewrite H2 by apply not_prefix_snoc. by rewrite H1DM. }
    rewrite (bind_Done _ _ _ _ _ Hdump).
    assert (Hload : load_manifest (set_fs t4 (tick (set_fs t3 (set_fs t2 w1))))
                    = Done (JDict m) (set_fs t4 (tick (set_fs t3 (set_fs t2 w1))))).
    { apply load_manifest_Done. cbn [fs set_fs tick]. unfold manifest_doc in *.
      rewrite H4 by apply HDM_MP. rewrite H3 by apply HDS_MP.
      rewrite H2 by done. by rewrite H1MP. }
    rewrite (bind_Done _ _ _ _ _ Hload).
    cbn [dict_get_default]. rewrite !bind_lift_Ok.
    unfold meta' at 1 2. rewrite !lookup_insert_ne by done.
    rewrite (asset_key_resolved c _ s n Hs).
    fold entry. unfold record_asset. rewrite Hassets. rewrite bind_lift_Ok. fold man'.
    assert (Hsave : save_manifest man' (set_fs t4 (tick (set_fs t3 (set_fs t2 w1))))
                    = Done tt (set_fs t5 (set_fs t4 (tick (set_fs t3 (set_fs t2 w1)))))).
    { apply write_file_Done; cbn [fs set_fs tick]; [|done].
      unfold FS.is_dir. rewrite H4 by apply HDM_MP. rewrite H3 by apply HDS_MP.
      rewrite H2 by done. rewrite H1MP. unfold manifest_doc in Hman.
      by destruct (FS.get (fs w) MANIFEST_PATH) as [[|]|]. }
    rewrite (bind_Done _ _ _ _ _ Hsave).
    assert (Hrm : rmtree SD (set_fs t5 (set_fs t4 (tick (set_fs t3 (set_fs t2 w1)))))
                  = Done tt (set_fs t6 (set_fs t5 (set_fs t4 (tick (set_fs t3 (set_fs t2 w1))))))).
    { apply rmtree_Done; done. }
    rewrite (bind_Done _ _ _ _ _ Hrm).
    rewrite !bind_print. reflexivity.
  - cbn [fs set_fs add_out]. rewrite exists_get.
    pose proof (get_remove_below _ _ _ [] Ht6) as Hg. rewrite app_nil_r in Hg. by rewrite Hg.
  - cbn [fs set_fs add_out].
    rewrite H6 by (unfold SD; apply (HDS_st [])).
    rewrite H5 by apply HDS_MP. rewrite H4 by apply HDS_DM.
    by apply get_put_eq in Ht3.
  - cbn [fs set_fs add_out].
    rewrite H6 by (unfold SD; apply (HDM_st [])).
    rewrite H5 by apply HDM_MP. by apply get_put_eq in Ht4.
  - cbn [fs set_fs add_out]. unfold manifest_doc.
    rewrite H6 by (unfold SD; apply (HMP_st [])).
    by rewrite (get_put_eq _ _ _ _ Ht5).
Qed.

End Approve.

(** ** reject *)

Section Reject.

Variable repr_container : json → string.
Variable E : Env.

(** C6. On a sprite tree whose standard directories can be ensured:
    when the staging entry of a UUID holds a metadata record [d] (a JSON
    object) and no alternatives entry of that UUID exists yet, rejecting it
    with a reason returns 0, and afterwards the staging directory no longer
    exists, the alternatives directory of the UUID exists, its metadata
    record is [d] with status ["rejected"], the reason as given and the
    rejection timestamp, and everything else of the entry is found there
    as it was in staging (the directory has moved);
    when the staging directory is absent, [cmd_reject] returns 1 with
    ["Error: Staging asset not found"]. *)
Theorem reject_moves_to_alternatives (args : RejectArgs.t) w w1 :
  let uuid := RejectArgs.uuid args in
  is_file_name uuid = true →
  ensure_directories w = Done tt w1 →
  (∀ d reason,
     RejectArgs.reason args = Some reason →
     FS.get (fs w) ["staging"; uuid; "metadata.json"] = Some (File (Json (JDict d))) →
     FS.exists_ (fs w) ["alternatives"; uuid] = false →
     ∃ w',
       cmd_reject repr_container E args w = Done 0 w'
       ∧ FS.exists_ (fs w') ["staging"; uuid] = false
       ∧ FS.is_dir (fs w') ["alternatives"; uuid] = true
       ∧ FS.get (fs w') ["alternatives"; uuid; "metadata.json"]
           = Some (File (Json (JDict
               (<["rejected_at" := JStr (now_iso E (clock w))]>
                  (<["rejection_reason" := JStr reason]>
                     (<["status" := JStr "rejected"]> d))))))
       ∧ (∀ r, r ≠ [] → ¬ ["metadata.json"] `prefix_of` r →
            FS.get (fs w') ("alternatives" :: uuid :: r)
              = FS.get (fs w) ("staging" :: uuid :: r)))
  ∧ (FS.exists_ (fs w) ["staging"; uuid] = false →
     cmd_reject repr_container E args w
       = Done 1 (add_out ("Error: Staging asset not found: " +:+ uuid) w1)).
Proof.
  intros uuid _ Hens.
  pose proof (for_each_mkdir_spec _ _ _ Hens) as (Hw1 & Hframe & Hstd & _).
  assert (H1st : ∀ r, FS.get (fs w1) ("staging" :: uuid :: r) = FS.get (fs w) ("staging" :: uuid :: r)).
  { intros r. apply Hframe. not_standard. }
  assert (H1alt : ∀ r, FS.get (fs w1) ("alternatives" :: uuid :: r) = FS.get (fs w) ("alternatives" :: uuid :: r)).
  { intros r. apply Hframe. not_standard. }
  split.
  - intros d reason Hreason Hmeta Halt.
    set (SD := ["staging"; uuid]). set (AD := ["alternatives"; uuid]).
    set (AM := ["alternatives"; uuid; "metadata.json"]).
    destruct (FS.get (fs w) SD) as [x|] eqn:Hx.
    2:{ change ["staging"; uuid; "metadata.json"] with (SD ++ ["metadata.json"]) in Hmeta.
        rewrite get_app, Hx in Hmeta. done. }
    assert (Hxm : FS.get x ["metadata.json"] = Some (File (Json (JDict d)))).
    { change ["staging"; uuid; "metadata.json"] with (SD ++ ["metadata.json"]) in Hmeta.
      by rewrite get_app, Hx in Hmeta. }
    assert (Hx1 : FS.get (fs w1) SD = Some x) by (unfold SD; by rewrite H1st).
    destruct (remove_Some (fs w1) SD) as [t1 Ht1]; [done|by rewrite Hx1|].
    assert (Haltdir : FS.is_dir t1 ["alternatives"] = true).
    { unfold FS.is_dir. rewrite (get_remove_frame _ _ _ ["alternatives"] Ht1) by not_prefix.
      fold (FS.is_dir (fs w1) ["alternatives"]).
      assert (Hex : Exists (λ d, ["alternatives"] `prefix_of` d) standard_dirs).
      { unfold standard_dirs.
        repeat first [by apply Exists_cons_hd | apply Exists_cons_tl]. }
      exact (proj1 (Hstd _ Hex)). }
    destruct (put_Some t1 ["alternatives"] uuid x Haltdir) as [t2 Ht2].
    change (["alternatives"] ++ [uuid]) with AD in Ht2.
    assert (Hmove : move SD AD w1 = Done tt (set_fs t2 w1)).
    { apply (move_Done _ _ x _ t1); try done.
      rewrite exists_get. unfold AD. rewrite H1alt. by rewrite exists_get in Halt. }
    set (meta' := <["rejected_at" := JStr (now_iso E (clock w))]>
                    (<["rejection_reason" := JStr reason]> (<["status" := JStr "rejected"]> d))).
    assert (H2AM : FS.get t2 AM = Some (File (Json (JDict d)))).
    { change AM with (AD ++ ["metadata.json"]). by rewrite (get_put_below _ _ _ _ _ Ht2). }
    assert (H2AD : FS.is_dir t2 AD = true).
    { apply (get_parent_dir _ AD ["metadata.json"] _ H2AM). done. }
    destruct (put_Some t2 AD "metadata.json" (File (Json (JDict meta'))) H2AD) as [t3 Ht3].
    change (AD ++ ["metadata.json"]) with AM in Ht3.
    assert (Hclock : clock w1 = clock w) by (rewrite Hw1; done).
    exists ((if truthy (JStr reason) then add_out ("Reason: " +:+ reason) else id)
              (add_out ("Rejected " +:+ uuid) (set_fs t3 (tick (set_fs t2 w1))))).
    assert (Hfs : ∀ w0, fs ((if truthy (JStr reason) then add_out ("Reason: " +:+ reason) else id) w0) = fs w0)
      by (intros w0; by destruct (truthy (JStr reason))).
    rewrite !Hfs.
    split; [|split; [|split; [|split]]].
    + unfold cmd_reject. rewrite (bind_Done _ _ _ _ _ Hens).
      rewrite bind_path_exists. fold uuid. fold SD. rewrite exists_get, Hx1. cbn [negb].
      fold AD. rewrite (bind_Done _ _ _ _ _ Hmove).
      rewrite bind_path_exists. change (AD ++ ["metadata.json"]) with AM.
      cbn [fs set_fs]. rewrite exists_get, H2AM.
      unfold when at 1.
      assert (Hload : load_json AM (set_fs t2 w1) = Done (JDict d) (set_fs t2 w1))
        by (by apply load_json_Done).
      assert (Hupd :
        (meta <- load_json AM;;
         meta0 <- lift (dict_set meta "status" (JStr "rejected"));;
         meta1 <- lift (dict_set meta0 "rejection_reason" (of_opt (RejectArgs.reason args)));;
         rejected_at <- datetime_now E;;
         meta2 <- lift (dict_set meta1 "rejected_at" (JStr rejected_at));;
         dump_json AM meta2) (set_fs t2 w1)
        = Done tt (set_fs t3 (tick (set_fs t2 w1)))).
      { rewrite (bind_Done _ _ _ _ _ Hload).
        cbn [dict_set]. rewrite bind_lift_Ok. cbn [dict_set]. rewrite bind_lift_Ok.
        unfold datetime_now at 1. unfold bind at 1. cbn [clock set_fs]. rewrite Hclock.
        cbn [dict_set]. rewrite bind_lift_Ok. rewrite Hreason. cbn [of_opt]. fold meta'.
        apply write_file_Done; cbn [fs set_fs tick]; [|done].
        unfold FS.is_dir. by rewrite H2AM. }
      rewrite (bind_Done _ _ _ _ _ Hupd).
      rewrite !bind_print. rewrite Hreason. cbn [of_opt py_str].
      by destruct (truthy (JStr reason)).
    + cbn [fs set_fs add_out tick]. rewrite exists_get.
      rewrite (get_put_frame _ _ _ _ SD Ht3) by not_prefix.
      rewrite (get_put_frame _ _ _ _ SD Ht2) by not_prefix.
      pose proof (get_remove_below _ _ _ [] Ht1) as Hg. rewrite app_nil_r in Hg. by rewrite Hg.
    + cbn [fs set_fs add_out tick].
      apply (get_put_above _ _ _ _ AD Ht3); [by exists ["metadata.json"]|done].
    + cbn [fs set_fs add_out tick]. by apply get_put_eq in Ht3.
    + intros r Hr Hnp. cbn [fs set_fs add_out tick].
      change ("alternatives" :: uuid :: r) with (AD ++ r).
      change ("staging" :: uuid :: r) with (SD ++ r).
      rewrite (get_put_frame _ _ _ _ (AD ++ r) Ht3).
      * rewrite (get_put_below _ _ _ _ r Ht2). by rewrite get_app, Hx.
      * change AM with (AD ++ ["metadata.json"]). by rewrite prefix_app_same.
      * change AM with (AD ++ ["metadata.json"]). rewrite prefix_app_same.
        intros Hp. destruct r as [|s r]; [done|].
        pose proof (prefix_cons_inv_1 _ _ _ _ Hp) as ->. apply Hnp.
        apply prefix_cons. apply prefix_nil.
  - intros Hmiss. unfold cmd_reject. rewrite (bind_Done _ _ _ _ _ Hens).
    rewrite bind_path_exists. fold uuid. rewrite exists_get, H1st, <- exists_get, Hmiss. done.
Qed.

End Reject.

(** * Further properties of the program *)

Section Sizes.

Variable repr_container : json → string.



(** X2. The directories of the used tree that [ensure_directories] creates
    are named in the plural ([enemies/boss], [terrain/backgrounds],
    [ui/icons]) while the keys of [SIZE_DEFAULTS] are in the singular
    ([enemy.boss], [terrain.background], [ui.icon]): for the category and
    subcategory of every standard directory the default size is 64, so the
    sizes 32, 128, 256 and 512 of the table are never the default there. *)
Theorem standard_directory_size c s :
  ["used"; c; s] ∈ standard_dirs → get_size_for_category repr_container c (Some s) = 64.
Proof.
  unfold standard_dirs. intros H.
  repeat (apply elem_of_cons in H as [H|H]; [simplify_eq; vm_compute; reflexivity|]).
  by apply elem_of_nil in H.
Qed.

End Sizes.

Section PromptGuide.

Lemma guide_text_falsy sg key dflt :
  truthy sg = false → guide_text sg key dflt = Ok (JStr dflt).
Proof. unfold guide_text. by intros ->. Qed.

Lemma default_guide_text key dflt :
  default_style_guide !! key = Some (JStr dflt) →
  ∀ d : gmap string json,
    default (JStr dflt) ((d ∪ default_style_guide) !! key) = default (JStr dflt) (d !! key).
Proof.
  intros Hk d. rewrite lookup_union. destruct (d !! key) as [v|] eqn:Hd.
  - by rewrite Hk.
  - by rewrite Hk.
Qed.

(** X3. Fields a style guide lacks are read as the defaults. *)
Theorem prompt_guide_defaults base category s f god :
  (∀ d : gmap string json,
     build_prompt base category s f god (JDict d)
     = build_prompt base category s f god (JDict (d ∪ default_style_guide)))
  ∧ (∀ sg, truthy sg = false →
     build_prompt base category s f god sg
     = build_prompt base category s f god (JDict default_style_guide))
  ∧ (∀ d : gmap string json,
       d !! "base_style" = Some (JStr DEFAULT_STYLE_PROMPT) → d !! "aesthetic" = None →
       build_prompt base category s f god (JDict d)
       = build_prompt base category s f god (JDict default_style_guide)).
Proof.
  assert (Hd : ∀ d : gmap string json,
     build_prompt base category s f god (JDict d)
     = build_prompt base category s f god (JDict (d ∪ default_style_guide))).
  { intros d. unfold build_prompt. rewrite !guide_text_dict.
    by rewrite !default_guide_text. }
  split; [exact Hd|]. split.
  - intros sg Hsg. unfold build_prompt. rewrite !guide_text_falsy by done.
    by rewrite !guide_text_dict.
  - intros d Hb Ha. unfold build_prompt. rewrite !guide_text_dict, Hb, Ha. done.
Qed.

(** X4. A guide that is not an object, or whose texts are not strings, makes
    the prompt fail. *)
Theorem prompt_guide_errors base category s f god sg :
  truthy sg = true →
  (is_dict sg = false → build_prompt base category s f god sg = Error AttributeError)
  ∧ (∀ d v, sg = JDict d →
       (d !! "base_style" = Some v ∨ d !! "aesthetic" = Some v) → is_str v = false →
       build_prompt base category s f god sg = Error TypeError).
Proof.
  intros Ht. split.
  - intros Hd. unfold build_prompt, guide_text. rewrite Ht.
    destruct sg; try done.
  - intros d v -> Hv Hs. unfold build_prompt. rewrite !guide_text_dict.
    unfold py_join.
    destruct Hv as [Hv|Hv]; rewrite Hv; cbn [default].
    + destruct v; try done.
    + destruct (default (JStr DEFAULT_STYLE_PROMPT) (d !! "base_style")); try done;
      destruct v; try done.
Qed.

End PromptGuide.

(** ** The standard directories, again *)

Lemma files_kept_refl t : files_kept t t.
Proof. by split. Qed.

Lemma files_kept_trans t1 t2 t3 : files_kept t1 t2 → files_kept t2 t3 → files_kept t1 t3.
Proof.
  intros [H1 H1'] [H2 H2']. split.
  - intros q c. by rewrite (H2 q c), (H1 q c).
  - intros q Hq. by apply H2', H1'.
Qed.

Lemma mkdirs_files_kept t p t' : FS.mkdirs t p = Some t' → files_kept t t'.
Proof.
  intros Hm. split.
  - intros q c. pose proof (mkdirs_get _ _ _ q Hm) as Hg.
    destruct (decide (q `prefix_of` p)) as [Hq|Hq].
    + destruct Hg as [ch Hg]. rewrite Hg.
      pose proof (mkdirs_not_file _ _ _ q Hm Hq) as Hf. unfold FS.is_file in Hf.
      split; [done|]. intros Hc. by rewrite Hc in Hf.
    + by rewrite Hg.
  - intros q. apply (mkdirs_is_dir _ _ _ q Hm).
Qed.

Lemma mkdirs_is_file t p t' q : FS.mkdirs t p = Some t' → FS.is_file t' q = FS.is_file t q.
Proof.
  intros Hm. destruct (mkdirs_files_kept _ _ _ Hm) as [Hk _]. clear Hm.
  unfold FS.is_file. destruct (FS.get t' q) as [[c|ch]|] eqn:H1.
  - apply Hk in H1. by rewrite H1.
  - destruct (FS.get t q) as [[c|ch']|] eqn:H2; try done.
    apply Hk in H2. congruence.
  - destruct (FS.get t q) as [[c|ch']|] eqn:H2; try done.
    apply Hk in H2. congruence.
Qed.

Lemma for_each_mkdir_Done dirs w :
  (∀ d q, d ∈ dirs → q `prefix_of` d → FS.is_file (fs w) q = false) →
  ∃ w1, for_each dirs mkdir_parents w = Done tt w1.
Proof.
  revert w. induction dirs as [|d dirs IH]; intros w H; simpl; [by eexists|].
  destruct (mkdirs_Some (fs w) d) as [t' Ht'].
  { intros q Hq. apply (H d); [apply elem_of_cons; by left|done]. }
  rewrite (bind_Done _ _ _ _ _ (mkdir_parents_Done _ _ _ Ht')).
  apply IH. intros d' q Hd' Hq. cbn [fs set_fs].
  rewrite (mkdirs_is_file _ _ _ _ Ht'). apply (H d'); [apply elem_of_cons; by right|done].
Qed.

(** Whatever the outcome, no regular file is touched and nothing but the
    tree changes. *)
Lemma for_each_mkdir_any dirs w :
  let r := for_each dirs mkdir_parents w in
  files_kept (fs w) (fs (world_of r)) ∧ world_of r = set_fs (fs (world_of r)) w
  ∧ (∀ c w', r ≠ Exited c w').
Proof.
  revert w. induction dirs as [|d dirs IH]; intros w; simpl.
  - split; [apply files_kept_refl|]. by rewrite set_fs_id.
  - destruct (FS.mkdirs (fs w) d) as [t'|] eqn:Hm.
    + rewrite (bind_Done _ _ _ _ _ (mkdir_parents_Done _ _ _ Hm)).
      destruct (IH (set_fs t' w)) as (Hk & Hw & Hex). split; [|split; [|done]].
      * eapply files_kept_trans; [by eapply mkdirs_files_kept|exact Hk].
      * rewrite Hw at 1. done.
    + assert (Hr : ∃ e, mkdir_parents d w = Raised e w).
      { unfold mkdir_parents, bind, read_fs. rewrite Hm. by eexists. }
      destruct Hr as [e Hr]. rewrite (bind_Raised _ _ _ _ _ Hr). cbn.
      split; [apply files_kept_refl|]. by rewrite set_fs_id.
Qed.

Section Directories.

(** X5. [ensure_directories] completes exactly when no regular file stands
    where a standard directory, or a directory on the way to one, has to
    be. *)
Theorem ensure_directories_completes w :
  (∃ w1, ensure_directories w = Done tt w1)
  ↔ (∀ d q, d ∈ standard_dirs → q `prefix_of` d → FS.is_file (fs w) q = false).
Proof.
  split.
  - intros [w1 H] d q Hd Hq.
    apply for_each_mkdir_spec in H as (_ & _ & Hstd & _).
    apply (Hstd q). apply Exists_exists. eauto.
  - apply for_each_mkdir_Done.
Qed.

(** X6. After [ensure_directories] every standard directory is there, no
    regular file was touched, nothing was printed, and a second run
    changes nothing. *)
Theorem ensure_directories_idempotent w w1 :
  ensure_directories w = Done tt w1 →
  Forall (λ d, FS.is_dir (fs w1) d = true) standard_dirs
  ∧ files_kept (fs w) (fs w1)
  ∧ w1 = set_fs (fs w1) w
  ∧ ensure_directories w1 = Done tt w1.
Proof.
  intros H.
  assert (Hall : Forall (λ d, FS.is_dir (fs w1) d = true) standard_dirs).
  { apply for_each_mkdir_spec in H as (_ & _ & Hstd & _).
    apply Forall_forall. intros d Hd. apply (Hstd d). apply Exists_exists. eauto. }
  split; [done|]. split; [by apply ensure_directories_files|].
  split; [by apply for_each_mkdir_spec in H as (? & _)|].
  by apply ensure_directories_initialised.
Qed.

End Directories.

(** ** The API key and the style guide of [cmd_generate] *)

Lemma add_out_as_lines l w : add_out l w = add_lines [l] w.
Proof. done. Qed.

Lemma add_lines_app a b w : add_lines b (add_lines a w) = add_lines (a ++ b) w.
Proof. unfold add_lines. simpl. by rewrite <- app_assoc. Qed.

Lemma add_lines_nil w : add_lines [] w = w.
Proof. destruct w. unfold add_lines. simpl. by rewrite app_nil_r. Qed.

Lemma load_json_any p w :
  (∃ j, load_json p w = Done j w) ∨ (∃ e, load_json p w = Raised e w).
Proof.
  unfold load_json, read_file, bind, read_fs.
  destruct (FS.get (fs w) p) as [[[b|j]|ch]|]; cbn; eauto.
Qed.

Lemma load_style_guide_any w :
  (∃ j, load_style_guide w = Done j w) ∨ (∃ e, load_style_guide w = Raised e w).
Proof.
  unfold load_style_guide. rewrite bind_path_exists.
  destruct (FS.exists_ (fs w) STYLE_GUIDE_PATH); [apply load_json_any|]. left. by eexists.
Qed.

Lemma when_print_step {B} b l (k : unit → M B) w :
  bind (when b (print l)) k w = k tt (if b then add_out l w else w).
Proof. by destruct b. Qed.

Section Credentials.

Variable repr_container : json → string.
Variable E : Env.

Lemma get_api_client_spec w :
  get_api_client E w
  = if api_key_found E then Done tt w else Exited 1 (add_out key_error w).
Proof.
  unfold get_api_client, api_key_found, py_or. cbv zeta.
  destruct (truthy (of_opt (environ E !! "GEMINI_API_KEY"))) eqn:H1; cbn [orb].
  - by rewrite !H1.
  - destruct (truthy (of_opt (environ E !! "SPRITEGEN_API_KEY"))) eqn:H2; cbn [orb].
    + by rewrite !H2.
    + destruct (dotenv_key E) as [k|]; cbn [of_opt].
      * by destruct (truthy (JStr k)).
      * by rewrite !H2.
Qed.

(** [generate_target], once the directories are there and the prompt is
    built: the banner is printed, then the client is asked for. *)
Lemma generate_target_prompted args w w1 sg fp :
  ensure_directories w = Done tt w1 →
  load_style_guide w1 = Done sg w1 →
  build_prompt (GenArgs.prompt args) (GenArgs.category args) (chosen_size repr_container args)
    (GenArgs.frames args) (GenArgs.god args) sg = Ok fp →
  generate_target repr_container E args w
  = (get_api_client E;;
     u <- next_uuid E;;
     let asset_id := str_take 8 u in
     let direct := String.eqb (GenArgs.output args) "direct" || GenArgs.auto_apply args in
     let output_dir :=
       if direct then
         if truthy (of_opt (GenArgs.subcategory args))
         then ["used"; GenArgs.category args; py_str repr_container (of_opt (GenArgs.subcategory args))]
         else ["used"; GenArgs.category args]
       else ["staging"; asset_id] in
     mkdir_parents output_dir;;
     ret (Target.mk (chosen_size repr_container args) fp asset_id
            (output_dir ++ [if direct then GenArgs.name args +:+ ".png" else "sprite.png"])
            (output_dir ++ [if direct then GenArgs.name args +:+ ".meta.json" else "metadata.json"])
            (if direct then "used" else "staging")))
    (add_lines (banner repr_container args (chosen_size repr_container args) fp) w1).
Proof.
  intros Hens Hsg Hfp. unfold generate_target.
  rewrite (bind_Done _ _ _ _ _ Hens), (bind_Done _ _ _ _ _ Hsg).
  fold (chosen_size repr_container args). rewrite Hfp, bind_lift_Ok.
  rewrite !bind_print, !when_print_step, !bind_print, !when_print_step, !bind_print.
  f_equal. unfold banner.
  destruct (truthy (of_opt (GenArgs.subcategory args))), (truthy (of_opt (GenArgs.god args)));
    rewrite !add_out_as_lines, !add_lines_app; cbn [app]; reflexivity.
Qed.

(** What [generate_target] does when it does not get that far. *)
Lemma generate_target_stops args w :
  let r := generate_target repr_container E args w in
  (∃ e w1, r = Raised e w1 ∧ files_kept (fs w) (fs w1) ∧ w1 = set_fs (fs w1) w)
  ∨ (∃ w1 sg fp,
       ensure_directories w = Done tt w1 ∧ load_style_guide w1 = Done sg w1
       ∧ build_prompt (GenArgs.prompt args) (GenArgs.category args) (chosen_size repr_container args)
           (GenArgs.frames args) (GenArgs.god args) sg = Ok fp).
Proof.
  intros r. subst r.
  destruct (for_each_mkdir_any standard_dirs w) as (Hk & Hw & Hex).
  fold ensure_directories in *.
  destruct (ensure_directories w) as [[] w1|e w1|c w1] eqn:Hens; cbn [world_of] in *.
  2:{ left. exists e, w1. unfold generate_target. by rewrite (bind_Raised _ _ _ _ _ Hens). }
  2:{ by destruct (Hex c w1). }
  destruct (load_style_guide_any w1) as [[sg Hsg]|[e Hsg]].
  2:{ left. exists e, w1. unfold generate_target.
      by rewrite (bind_Done _ _ _ _ _ Hens), (bind_Raised _ _ _ _ _ Hsg). }
  destruct (build_prompt (GenArgs.prompt args) (GenArgs.category args) (chosen_size repr_container args)
              (GenArgs.frames args) (GenArgs.god args) sg) as [fp|e] eqn:Hfp.
  - right. by exists w1, sg, fp.
  - left. exists e, w1. unfold generate_target.
    rewrite (bind_Done _ _ _ _ _ Hens), (bind_Done _ _ _ _ _ Hsg).
    fold (chosen_size repr_container args). by rewrite Hfp.
Qed.

(** X7. Without an API key [cmd_generate] never returns: it exits with
    code 1 after the banner, or has raised before; in either case no
    request was made, no id was drawn, and no regular file was created,
    changed or removed. *)
Theorem generate_needs_key args w :
  api_key_found E = false →
  let r := cmd_generate repr_container E args w in
  (∀ c w', r ≠ Done c w')
  ∧ (∀ c w', r = Exited c w' → c = 1 ∧ last (out w') = Some key_error)
  ∧ files_kept (fs w) (fs (world_of r))
  ∧ same_counters w (world_of r)
  ∧ (∀ w1 sg fp,
       ensure_directories w = Done tt w1 → load_style_guide w1 = Done sg w1 →
       build_prompt (GenArgs.prompt args) (GenArgs.category args) (chosen_size repr_container args)
         (GenArgs.frames args) (GenArgs.god args) sg = Ok fp →
       r = Exited 1 (add_out key_error
                       (add_lines (banner repr_container args (chosen_size repr_container args) fp) w1))).
Proof.
  intros Hkey r.
  assert (Hrun : ∀ w1 sg fp,
       ensure_directories w = Done tt w1 → load_style_guide w1 = Done sg w1 →
       build_prompt (GenArgs.prompt args) (GenArgs.category args) (chosen_size repr_container args)
         (GenArgs.frames args) (GenArgs.god args) sg = Ok fp →
       r = Exited 1 (add_out key_error
                       (add_lines (banner repr_container args (chosen_size repr_container args) fp) w1))).
  { intros w1 sg fp Hens Hsg Hfp. unfold r, cmd_generate.
    apply bind_Exited. rewrite (generate_target_prompted _ _ _ _ _ Hens Hsg Hfp).
    apply bind_Exited. by rewrite get_api_client_spec, Hkey. }
  destruct (generate_target_stops args w) as [(e & w1 & Hr & Hk & Hw)|(w1 & sg & fp & Hens & Hsg & Hfp)].
  - assert (Hre : r = Raised e w1) by (by apply bind_Raised).
    rewrite Hre. cbn [world_of]. split; [done|]. split; [done|]. split; [done|].
    split; [by rewrite Hw|].
    intros w2 sg fp H1 H2 H3. specialize (Hrun _ _ _ H1 H2 H3). congruence.
  - rewrite (Hrun _ _ _ Hens Hsg Hfp). cbn [world_of]. split; [done|]. split.
    { intros c w' [= <- <-]. split; [done|]. apply last_add_out. }
    split; [exact (ensure_directories_files _ _ Hens)|]. split.
    + apply for_each_mkdir_spec in Hens as (Hw1 & _). rewrite Hw1. done.
    + intros w2 sg2 fp2 H1 H2 H3. rewrite <- (Hrun _ _ _ Hens Hsg Hfp). exact (Hrun _ _ _ H1 H2 H3).
Qed.

(** X8. A style guide file that cannot be used stops [cmd_generate] with
    the exception, before anything is printed or requested. *)
Theorem generate_rejects_guide args w w1 :
  ensure_directories w = Done tt w1 →
  (∀ sg e,
     FS.get (fs w) STYLE_GUIDE_PATH = Some (File (Json sg)) →
     build_prompt (GenArgs.prompt args) (GenArgs.category args) (chosen_size repr_container args)
       (GenArgs.frames args) (GenArgs.god args) sg = Error e →
     cmd_generate repr_container E args w = Raised e w1)
  ∧ (∀ b,
     FS.get (fs w) STYLE_GUIDE_PATH = Some (File (Bytes b)) →
     cmd_generate repr_container E args w = Raised (JSONDecodeError STYLE_GUIDE_PATH) w1)
  ∧ out w1 = out w ∧ same_counters w w1.
Proof.
  intros Hens.
  pose proof (for_each_mkdir_spec _ _ _ Hens) as (Hw1 & Hframe & _ & _).
  assert (Hg : FS.get (fs w1) STYLE_GUIDE_PATH = FS.get (fs w) STYLE_GUIDE_PATH)
    by (apply Hframe; not_standard).
  split; [|split; [|split; rewrite Hw1; done]].
  - intros sg e Hfile Herr. unfold cmd_generate, generate_target.
    apply bind_Raised. rewrite (bind_Done _ _ _ _ _ Hens).
    assert (Hsg : load_style_guide w1 = Done sg w1).
    { unfold load_style_guide. rewrite bind_path_exists, exists_get, Hg, Hfile.
      apply load_json_Done. by rewrite Hg. }
    rewrite (bind_Done _ _ _ _ _ Hsg). fold (chosen_size repr_container args). by rewrite Herr.
  - intros b Hfile. unfold cmd_generate, generate_target.
    apply bind_Raised. rewrite (bind_Done _ _ _ _ _ Hens).
    apply bind_Raised. unfold load_style_guide. rewrite bind_path_exists, exists_get, Hg, Hfile.
    unfold load_json, read_file, bind, read_fs. by rewrite Hg, Hfile.
Qed.

End Credentials.

(** ** init, again *)

Lemma put_file_is_dir t p c t' q :
  FS.put t p (File c) = Some t' → FS.is_dir t p = false →
  FS.is_dir t q = true → FS.is_dir t' q = true.
Proof.
  intros Hp Hnd Hq.
  destruct (decide (p `prefix_of` q)) as [[r ->]|Hpq].
  - unfold FS.is_dir in *. rewrite get_app in Hq.
    destruct (FS.get t p) as [[c'|ch]|] eqn:Hg; try done.
    by destruct r.
  - destruct (decide (q `prefix_of` p)) as [Hqp|Hqp].
    + apply (get_put_above _ _ _ _ q Hp Hqp). intros ->. by apply Hpq.
    + unfold FS.is_dir. by rewrite (get_put_frame _ _ _ _ q Hp).
Qed.

Lemma write_file_is_dir p c w w' q :
  write_file p c w = Done tt w' → FS.is_dir (fs w) q = true → FS.is_dir (fs w') q = true.
Proof.
  unfold write_file, bind, read_fs.
  destruct (FS.get (fs w) p) as [[c'|ch]|] eqn:Hg; try done;
    destruct (FS.put (fs w) p (File c)) as [t'|] eqn:Hp; try done; intros [= <-];
    apply (put_file_is_dir _ _ _ _ _ Hp); unfold FS.is_dir; by rewrite Hg.
Qed.

Section InitAgain.

Variable E : Env.

(** The steps of a run of [cmd_init] that returns. *)
Lemma cmd_init_inv w c w' :
  cmd_init E w = Done c w' →
  c = 0 ∧
  ∃ w1 w2 w3,
    ensure_directories w = Done tt w1
    ∧ (if FS.exists_ (fs w1) STYLE_GUIDE_PATH then w2 = w1
       else ∃ wa, write_file STYLE_GUIDE_PATH (Json (JDict seeded_style_guide)) w1 = Done tt wa
                  ∧ w2 = add_out ("Created style guide: " +:+ abs_str E STYLE_GUIDE_PATH) wa)
    ∧ (if FS.exists_ (fs w2) MANIFEST_PATH then w3 = w2
       else ∃ wb, write_file MANIFEST_PATH (Json empty_manifest) w2 = Done tt wb
                  ∧ w3 = add_out ("Created manifest: " +:+ abs_str E MANIFEST_PATH) wb)
    ∧ w' = add_out "Sprite directories initialized." w3.
Proof.
  intros H. unfold cmd_init in H.
  apply bind_inv_Done in H as ([] & w1 & Hens & H).
  rewrite bind_path_exists in H.
  apply bind_inv_Done in H as ([] & w2 & Hsg & H).
  rewrite bind_path_exists in H.
  apply bind_inv_Done in H as ([] & w3 & Hm & H).
  rewrite bind_print in H. injection H as <- <-. split; [done|].
  exists w1, w2, w3. split; [done|]. split; [|split; [|done]].
  - destruct (FS.exists_ (fs w1) STYLE_GUIDE_PATH); cbn [negb when] in Hsg.
    + by injection Hsg.
    + apply bind_inv_Done in Hsg as ([] & wa & Hwr & Hp). apply print_inv in Hp.
      exists wa. done.
  - destruct (FS.exists_ (fs w2) MANIFEST_PATH); cbn [negb when] in Hm.
    + by injection Hm.
    + apply bind_inv_Done in Hm as ([] & wb & Hwr & Hp). apply print_inv in Hp.
      exists wb. done.
Qed.

End InitAgain.

Lemma put_parent_dir t p x t' q :
  FS.put t p x = Some t' → q `prefix_of` p → q ≠ p → FS.is_dir t q = true.
Proof.
  revert t t' p. induction q as [|a q IH]; intros t t' p Hp [r ->] Hne.
  - destruct r as [|s r]; [done|]. by destruct t.
  - destruct r as [|s r]; [by rewrite app_nil_r in Hne|].
    cbn [app] in Hp. simpl in Hp. destruct t as [|ch]; [done|].
    destruct (q ++ s :: r) as [|b l] eqn:Hl; [by destruct q|].
    destruct (ch !! a) as [n|] eqn:Ha; [|done].
    destruct (FS.put n (b :: l) x) as [n'|] eqn:Hn; [|done].
    unfold FS.is_dir. simpl. rewrite Ha. rewrite <- Hl in Hn.
    apply (IH n n' (q ++ s :: r) Hn); [by eexists|].
    intros Heq. apply (f_equal length) in Heq. rewrite length_app in Heq. simpl in Heq. lia.
Qed.

Lemma write_new_file p c w w' :
  write_file p c w = Done tt w' → FS.exists_ (fs w) p = false →
  FS.get (fs w') p = Some (File c)
  ∧ (∀ q, q ≠ p → ∀ x, FS.get (fs w') q = Some (File x) ↔ FS.get (fs w) q = Some (File x))
  ∧ (∀ q, FS.is_dir (fs w) q = true → FS.is_dir (fs w') q = true)
  ∧ (∀ q, ¬ p `prefix_of` q → ¬ q `prefix_of` p → FS.get (fs w') q = FS.get (fs w) q)
  ∧ w' = set_fs (fs w') w.
Proof.
  intros Hw Hex. pose proof (λ q, write_file_is_dir _ _ _ _ q Hw) as Hdir.
  apply write_file_inv in Hw as [Hp Hw']. rewrite exists_get in Hex.
  destruct (FS.get (fs w) p) eqn:Hg; [done|].
  split; [by apply get_put_eq in Hp|]. split; [|split; [exact Hdir|split; [|done]]].
  - intros q Hq x.
    destruct (decide (p `prefix_of` q)) as [[r ->]|Hpq].
    + destruct r as [|s r]; [by rewrite app_nil_r in Hq|].
      rewrite (get_put_below _ _ _ _ (s :: r) Hp), get_app, Hg. done.
    + destruct (decide (q `prefix_of` p)) as [Hqp|Hqp].
      * pose proof (get_put_above _ _ _ _ q Hp Hqp Hq) as Hd.
        pose proof (put_parent_dir _ _ _ _ q Hp Hqp Hq) as Hd0.
        unfold FS.is_dir in *.
        destruct (FS.get (fs w') q) as [[|]|]; try done.
        destruct (FS.get (fs w) q) as [[|]|]; try done.
      * by rewrite (get_put_frame _ _ _ _ q Hp).
  - intros q H1 H2. by apply (get_put_frame _ _ _ _ q Hp).
Qed.

(** A file is written unless something exists at its place. *)
Lemma seed_step p doc line w1 w2 :
  (if FS.exists_ (fs w1) p then w2 = w1
   else ∃ wa, write_file p doc w1 = Done tt wa ∧ w2 = add_out line wa) →
  FS.get (fs w2) p = Some (default (File doc) (FS.get (fs w1) p))
  ∧ (∀ q, q ≠ p → ∀ x, FS.get (fs w2) q = Some (File x) ↔ FS.get (fs w1) q = Some (File x))
  ∧ (∀ q, FS.is_dir (fs w1) q = true → FS.is_dir (fs w2) q = true)
  ∧ (∀ q, ¬ p `prefix_of` q → ¬ q `prefix_of` p → FS.get (fs w2) q = FS.get (fs w1) q)
  ∧ same_counters w1 w2.
Proof.
  destruct (FS.exists_ (fs w1) p) eqn:Hex.
  - intros ->. rewrite exists_get in Hex. destruct (FS.get (fs w1) p); [|done]. done.
  - intros (wa & Hw & ->). cbn [fs add_out].
    destruct (write_new_file _ _ _ _ Hw Hex) as (H1 & H2 & H3 & H4 & H5).
    rewrite exists_get in Hex. destruct (FS.get (fs w1) p); [done|].
    split; [done|]. split; [done|]. split; [done|]. split; [done|]. by rewrite H5.
Qed.

Section InitOutcome.

Variable E : Env.

(** What a run of [cmd_init] that returns leaves at the three places it
    looks after. *)
Lemma cmd_init_tree w c w' :
  cmd_init E w = Done c w' →
  Forall (λ d, FS.is_dir (fs w') d = true) standard_dirs
  ∧ FS.get (fs w') STYLE_GUIDE_PATH
      = Some (default (File (Json (JDict seeded_style_guide))) (FS.get (fs w) STYLE_GUIDE_PATH))
  ∧ FS.get (fs w') MANIFEST_PATH
      = Some (default (File (Json empty_manifest)) (FS.get (fs w) MANIFEST_PATH)).
Proof.
  intros H. apply cmd_init_inv in H as (-> & w1 & w2 & w3 & Hens & H2 & H3 & ->).
  cbn [fs add_out].
  pose proof (for_each_mkdir_spec _ _ _ Hens) as (_ & Hframe & Hstd & _).
  apply seed_step in H2 as (Ha1 & _ & Ha3 & Ha4 & _).
  apply seed_step in H3 as (Hb1 & _ & Hb3 & Hb4 & _).
  split; [|split].
  - apply Forall_forall. intros d Hd. apply Hb3, Ha3, (Hstd d). apply Exists_exists. eauto.
  - rewrite Hb4 by not_prefix. rewrite Ha1. by rewrite Hframe by not_standard.
  - rewrite Hb1. rewrite Ha4 by not_prefix. by rewrite Hframe by not_standard.
Qed.

(** X9. Whenever [cmd_init] returns, it returns 0; every standard
    directory is there; the style guide and the manifest are the ones that
    were there, or else the seeded guide and the empty manifest; no other
    regular file was created, changed or removed, and no request was made. *)
Theorem init_outcome w c w' :
  cmd_init E w = Done c w' →
  c = 0
  ∧ Forall (λ d, FS.is_dir (fs w') d = true) standard_dirs
  ∧ FS.get (fs w') STYLE_GUIDE_PATH
      = Some (default (File (Json (JDict seeded_style_guide))) (FS.get (fs w) STYLE_GUIDE_PATH))
  ∧ FS.get (fs w') MANIFEST_PATH
      = Some (default (File (Json empty_manifest)) (FS.get (fs w) MANIFEST_PATH))
  ∧ (∀ q x, q ≠ STYLE_GUIDE_PATH → q ≠ MANIFEST_PATH →
       FS.get (fs w') q = Some (File x) ↔ FS.get (fs w) q = Some (File x))
  ∧ same_counters w w'.
Proof.
  intros H. destruct (cmd_init_tree _ _ _ H) as (Hall & Hsg & Hm).
  apply cmd_init_inv in H as (-> & w1 & w2 & w3 & Hens & H2 & H3 & ->).
  cbn [fs add_out]. cbn [fs add_out] in Hall, Hsg, Hm.
  do 4 (split; [done|]).
  pose proof (for_each_mkdir_spec _ _ _ Hens) as (Hw1 & _).
  pose proof (ensure_directories_files _ _ Hens) as [Hkept _].
  apply seed_step in H2 as (_ & Ha2 & _ & _ & Ha5).
  apply seed_step in H3 as (_ & Hb2 & _ & _ & Hb5).
  split.
  - intros q x Hq1 Hq2. by rewrite (Hb2 q Hq2), (Ha2 q Hq1), (Hkept q x).
  - assert (H0 : same_counters w w1) by (rewrite Hw1; done).
    unfold same_counters in *. cbn [uuid_calls clock api_calls add_out].
    destruct H0 as (? & ? & ?), Ha5 as (? & ? & ?), Hb5 as (? & ? & ?).
    split; [|split]; congruence.
Qed.

(** X10. A second [cmd_init] changes nothing: it only prints its last line. *)
Theorem init_idempotent w c w' :
  cmd_init E w = Done c w' →
  cmd_init E w' = Done 0 (add_out "Sprite directories initialized." w').
Proof.
  intros H. destruct (cmd_init_tree w c w' H) as (Hall & Hsg & Hm).
  unfold cmd_init. rewrite (bind_Done _ _ _ _ _ (ensure_directories_initialised _ Hall)).
  rewrite bind_path_exists, exists_get, Hsg. cbn [negb when]. rewrite bind_ret.
  rewrite bind_path_exists, exists_get, Hm. cbn [negb when]. rewrite bind_ret.
  by rewrite bind_print.
Qed.

End InitOutcome.

(** ** apply *)

Lemma write_file_any p c w :
  (∃ w1, write_file p c w = Done tt w1) ∨ (∃ e, write_file p c w = Raised e w).
Proof.
  unfold write_file, bind, read_fs.
  destruct (FS.get (fs w) p) as [[c'|ch]|]; cbn; eauto;
    destruct (FS.put (fs w) p (File c)); cbn; eauto.
Qed.

Lemma load_manifest_any w :
  (∃ j, load_manifest w = Done j w) ∨ (∃ e, load_manifest w = Raised e w).
Proof.
  unfold load_manifest. rewrite bind_path_exists.
  destruct (FS.exists_ (fs w) MANIFEST_PATH); [apply load_json_any|]. left. by eexists.
Qed.

Lemma lift_any {A} (r : Result A) w :
  (∃ a, r = Ok a ∧ lift r w = Done a w) ∨ (∃ e, r = Error e ∧ lift r w = Raised e w).
Proof. destruct r; eauto. Qed.

Lemma put_same t p x : FS.get t p = Some x → FS.put t p x = Some t.
Proof.
  revert t. induction p as [|s p IH]; intros t H; simpl in *; [congruence|].
  destruct t as [|ch]; [done|]. destruct (ch !! s) as [n|] eqn:Hs; [|done].
  destruct p as [|s' p].
  - simpl in H. injection H as ->. by rewrite insert_id.
  - rewrite (IH n H). by rewrite insert_id.
Qed.

(** Writing a file changes what is found at its own path and above it,
    and nothing else. *)
Lemma get_put_file t p c t' q :
  FS.put t p (File c) = Some t' → FS.is_dir t p = false →
  q ≠ p → ¬ (q `prefix_of` p) → FS.get t' q = FS.get t q.
Proof.
  intros Hp Hd Hq Hqp. destruct (decide (p `prefix_of` q)) as [[r ->]|Hpq].
  - destruct r as [|s r]; [by rewrite app_nil_r in Hq|].
    rewrite (get_put_below _ _ _ _ (s :: r) Hp), get_app. unfold FS.is_dir in Hd.
    by destruct (FS.get t p) as [[|]|].
  - by apply (get_put_frame _ _ _ _ q Hp).
Qed.

Lemma write_file_exists p c w w' q :
  write_file p c w = Done tt w' → FS.exists_ (fs w) q = true → FS.exists_ (fs w') q = true.
Proof.
  intros Hw Hq. pose proof (λ q, write_file_is_dir _ _ _ _ q Hw) as Hdir.
  assert (Hnd : FS.is_dir (fs w) p = false).
  { revert Hw. unfold write_file, bind, read_fs, FS.is_dir.
    by destruct (FS.get (fs w) p) as [[|]|]. }
  apply write_file_inv in Hw as [Hp _]. rewrite !exists_get in *.
  destruct (decide (q = p)) as [->|Hne]; [by rewrite (get_put_eq _ _ _ _ Hp)|].
  destruct (decide (q `prefix_of` p)) as [Hqp|Hqp].
  - pose proof (get_put_above _ _ _ _ q Hp Hqp Hne) as Hd. unfold FS.is_dir in Hd.
    by destruct (FS.get (fs w') q).
  - by rewrite (get_put_file _ _ _ _ q Hp Hnd Hne Hqp).
Qed.

Lemma sidecar_not_manifest p : with_suffix p ".meta.json" ≠ MANIFEST_PATH.
Proof.
  unfold with_suffix, MANIFEST_PATH. intros H.
  destruct (removelast p) as [|a l]; [|by destruct l].
  simpl in H. injection H as H. suffix_clash H.
Qed.

Lemma sidecar_of_congr p w w2 meta :
  FS.get (fs w2) (with_suffix p ".meta.json") = FS.get (fs w) (with_suffix p ".meta.json") →
  sidecar_of p w = Done meta w → sidecar_of p w2 = Done meta w2.
Proof.
  intros Hg. unfold sidecar_of. rewrite !bind_path_exists, !exists_get, Hg.
  destruct (FS.get (fs w) (with_suffix p ".meta.json")) as [n|] eqn:Hn.
  - unfold load_json, read_file, bind, read_fs. rewrite Hg, Hn.
    destruct n as [[b|j]|ch]; try done. by intros [= <-].
  - by intros [= <-].
Qed.


Lemma manifest_not_above q : q ≠ [] → q ≠ MANIFEST_PATH → ¬ q `prefix_of` MANIFEST_PATH.
Proof.
  intros H1 H2 [r Hr]. unfold MANIFEST_PATH in *. destruct q as [|x q]; [done|].
  destruct q; [|done]. destruct r; [|done]. simplify_eq.
Qed.

Lemma write_file_frame p c w w' q :
  write_file p c w = Done tt w' → q ≠ p → ¬ q `prefix_of` p →
  FS.get (fs w') q = FS.get (fs w) q.
Proof.
  intros Hw Hq Hqp.
  assert (Hnd : FS.is_dir (fs w) p = false).
  { revert Hw. unfold write_file, bind, read_fs, FS.is_dir.
    by destruct (FS.get (fs w) p) as [[|]|]. }
  apply write_file_inv in Hw as [Hp _]. by apply (get_put_file _ _ _ _ q Hp).
Qed.

Lemma record_asset_twice m key entry m' :
  record_asset m key entry = Ok m' → record_asset m' key entry = Ok m'.
Proof.
  unfold record_asset. destruct m as [| | | | |m]; try done.
  destruct (m !! "assets") as [[| | | | |a]|] eqn:Ha; try done.
  intros [= <-]. rewrite lookup_insert_eq. by rewrite !insert_insert_eq.
Qed.

Section Apply.

Variable repr_container : json → string.
Variable E : Env.

(** The three ways a run of [cmd_apply] ends: the asset is missing; an
    exception is raised, with nothing written; the manifest is written. *)
Lemma cmd_apply_cases (args : ApplyArgs.t) w :
  let p := ApplyArgs.path args in
  (FS.exists_ (fs w) p = false
   ∧ cmd_apply repr_container E args w
     = Done 1 (add_out ("Error: Asset not found: " +:+ abs_str E p) w))
  ∨ (FS.exists_ (fs w) p = true ∧ ∃ e, cmd_apply repr_container E args w = Raised e w)
  ∨ (FS.exists_ (fs w) p = true
     ∧ ∃ meta key m frames size m' w1,
         sidecar_of p w = Done meta w
         ∧ applied_key repr_container meta p = Ok key
         ∧ load_manifest w = Done m w
         ∧ dict_get_default meta "frames" (JInt 1) = Ok frames
         ∧ dict_get_default meta "size" (JInt 64) = Ok size
         ∧ record_asset m key (manifest_entry p frames size) = Ok m'
         ∧ write_file MANIFEST_PATH (Json m') w = Done tt w1
         ∧ cmd_apply repr_container E args w
           = Done 0 (add_out ("Applied " +:+ key +:+ " to manifest") w1)).
Proof.
  intros p. unfold cmd_apply. fold p. rewrite bind_path_exists.
  destruct (FS.exists_ (fs w) p) eqn:Hex; cbn [negb].
  2:{ left. by rewrite bind_print. }
  right.
  assert (Hside : ∀ B (k : json → M B),
            bind (path_exists (with_suffix p ".meta.json"))
                 (λ found, bind (if found then load_json (with_suffix p ".meta.json")
                                 else ret (JDict ∅)) k) w
            = bind (sidecar_of p) k w).
  { intros B k. unfold sidecar_of. rewrite !bind_path_exists. unfold bind at 2.
    rewrite bind_path_exists. reflexivity. }
  rewrite Hside. clear Hside.
  assert (Hany : (∃ j, sidecar_of p w = Done j w) ∨ (∃ e, sidecar_of p w = Raised e w)).
  { unfold sidecar_of. rewrite bind_path_exists.
    destruct (FS.exists_ (fs w) (with_suffix p ".meta.json"));
      [apply load_json_any|]. left. by eexists. }
  destruct Hany as [[meta Hmeta]|[e He]].
  2:{ left. split; [done|]. exists e. by rewrite (bind_Raised _ _ _ _ _ He). }
  rewrite (bind_Done _ _ _ _ _ Hmeta).
  assert (Hk : (if truthy meta then lift (apply_key repr_container meta p) else lift (inferred_key p))
               = lift (applied_key repr_container meta p)) by (unfold applied_key; by destruct (truthy meta)).
  rewrite Hk.
  destruct (lift_any (applied_key repr_container meta p) w) as [(key & Hkey & Hl)|(e & _ & Hl)].
  2:{ left. split; [done|]. exists e. by rewrite (bind_Raised _ _ _ _ _ Hl). }
  rewrite (bind_Done _ _ _ _ _ Hl).
  destruct (load_manifest_any w) as [[m Hm]|[e He]].
  2:{ left. split; [done|]. exists e. by rewrite (bind_Raised _ _ _ _ _ He). }
  rewrite (bind_Done _ _ _ _ _ Hm).
  destruct (lift_any (dict_get_default meta "frames" (JInt 1)) w) as [(frames & Hfr & Hl1)|(e & _ & Hl1)].
  2:{ left. split; [done|]. exists e. by rewrite (bind_Raised _ _ _ _ _ Hl1). }
  rewrite (bind_Done _ _ _ _ _ Hl1).
  destruct (lift_any (dict_get_default meta "size" (JInt 64)) w) as [(size & Hsz & Hl2)|(e & _ & Hl2)].
  2:{ left. split; [done|]. exists e. by rewrite (bind_Raised _ _ _ _ _ Hl2). }
  rewrite (bind_Done _ _ _ _ _ Hl2).
  destruct (lift_any (record_asset m key (manifest_entry p frames size)) w)
    as [(m' & Hrec & Hl3)|(e & _ & Hl3)].
  2:{ left. split; [done|]. exists e. by rewrite (bind_Raised _ _ _ _ _ Hl3). }
  rewrite (bind_Done _ _ _ _ _ Hl3).
  destruct (write_file_any MANIFEST_PATH (Json m') w) as [[w1 Hw]|[e He]].
  2:{ left. split; [done|]. exists e. unfold save_manifest, dump_json.
      by rewrite (bind_Raised _ _ _ _ _ He). }
  right. split; [done|]. exists meta, key, m, frames, size, m', w1.
  do 7 (split; [done|]). unfold save_manifest, dump_json.
  rewrite (bind_Done _ _ _ _ _ Hw). by rewrite bind_print.
Qed.

Lemma cmd_apply_Done (args : ApplyArgs.t) w meta key m frames size m' w1 :
  let p := ApplyArgs.path args in
  FS.exists_ (fs w) p = true →
  sidecar_of p w = Done meta w →
  applied_key repr_container meta p = Ok key →
  load_manifest w = Done m w →
  dict_get_default meta "frames" (JInt 1) = Ok frames →
  dict_get_default meta "size" (JInt 64) = Ok size →
  record_asset m key (manifest_entry p frames size) = Ok m' →
  write_file MANIFEST_PATH (Json m') w = Done tt w1 →
  cmd_apply repr_container E args w
  = Done 0 (add_out ("Applied " +:+ key +:+ " to manifest") w1).
Proof.
  intros p Hex Hmeta Hkey Hm Hfr Hsz Hrec Hw. subst p.
  destruct (cmd_apply_cases args w) as [[H _]|[(_ & e & H)|(_ & H)]].
  - congruence.
  - exfalso. revert H. unfold cmd_apply. rewrite bind_path_exists, Hex. cbn [negb].
    unfold sidecar_of in Hmeta. rewrite bind_path_exists in Hmeta. rewrite bind_path_exists.
    rewrite (bind_Done _ _ _ _ _ Hmeta).
    replace (if truthy meta then lift (apply_key repr_container meta (ApplyArgs.path args))
             else lift (inferred_key (ApplyArgs.path args)))
      with (lift (applied_key repr_container meta (ApplyArgs.path args)))
      by (unfold applied_key; by destruct (truthy meta)).
    rewrite Hkey, bind_lift_Ok, (bind_Done _ _ _ _ _ Hm), Hfr, bind_lift_Ok, Hsz, bind_lift_Ok.
    rewrite Hrec, bind_lift_Ok. unfold save_manifest, dump_json.
    rewrite (bind_Done _ _ _ _ _ Hw), bind_print. done.
  - destruct H as (meta2 & key2 & m2 & frames2 & size2 & m2' & w2 & H1 & H2 & H3 & H4 & H5 & H6 & H7 & H).
    rewrite H. rewrite Hmeta in H1. injection H1 as <-. rewrite Hkey in H2. injection H2 as <-.
    rewrite Hm in H3. injection H3 as <-. rewrite Hfr in H4. injection H4 as <-.
    rewrite Hsz in H5. injection H5 as <-. rewrite Hrec in H6. injection H6 as <-.
    rewrite Hw in H7. injection H7 as <-. done.
Qed.







(** X14. Whatever its outcome, [cmd_apply] changes no file but the
    manifest, makes no request and draws no id or time stamp; it returns no
    other code than 0 and 1, never exits, and leaves the whole tree as it
    was unless it returns 0. *)
Theorem apply_touches_manifest_only (args : ApplyArgs.t) w :
  let r := cmd_apply repr_container E args w in
  (∀ c w', r = Done c w' → c = 0 ∨ c = 1)
  ∧ (∀ c w', r ≠ Exited c w')
  ∧ ((∀ w', r ≠ Done 0 w') → fs (world_of r) = fs w)
  ∧ (∀ q, q ≠ [] → q ≠ MANIFEST_PATH → FS.get (fs (world_of r)) q = FS.get (fs w) q)
  ∧ same_counters w (world_of r).
Proof.
  intros r. subst r.
  destruct (cmd_apply_cases args w) as [[_ H]|[(_ & e & H)|(_ & H)]].
  - rewrite H. cbn [world_of fs add_out]. repeat split; try done. intros c w' [= <- _]. by right.
  - rewrite H. cbn [world_of]. repeat split; done.
  - destruct H as (meta & key & m & frames & size & m' & w1 & _ & _ & _ & _ & _ & _ & Hw & H).
    rewrite H. cbn [world_of fs add_out].
    split; [intros c w' [= <- _]; by left|]. split; [done|].
    split; [intros Hno; by destruct (Hno _ eq_refl)|]. split.
    + intros q Hq1 Hq2. apply (write_file_frame _ _ _ _ q Hw Hq2). by apply manifest_not_above.
    + apply write_file_inv in Hw as [_ ->]. done.
Qed.

(** X15. Applying an asset a second time changes nothing: the run returns 0
    again and leaves the tree, the manifest with it, as the first run left
    it. *)
Theorem apply_idempotent (args : ApplyArgs.t) w w' :
  ApplyArgs.path args ≠ [] →
  cmd_apply repr_container E args w = Done 0 w' →
  ∃ key, cmd_apply repr_container E args w'
         = Done 0 (add_out ("Applied " +:+ key +:+ " to manifest") w').
Proof.
  intros Hp Hrun.
  destruct (cmd_apply_cases args w) as [[_ H]|[(_ & e & H)|(Hex & H)]]; [congruence|congruence|].
  destruct H as (meta & key & m & frames & size & m' & w1 & Hmeta & Hkey & Hm & Hfr & Hsz & Hrec & Hw & H).
  rewrite H in Hrun. injection Hrun as <-. exists key.
  set (p := ApplyArgs.path args) in *.
  set (w2 := add_out ("Applied " +:+ key +:+ " to manifest") w1).
  assert (Hget : FS.get (fs w2) MANIFEST_PATH = Some (File (Json m'))).
  { apply write_file_inv in Hw as [Hput _]. by apply get_put_eq in Hput. }
  assert (Hsame : ∀ q, q ≠ [] → q ≠ MANIFEST_PATH → FS.get (fs w2) q = FS.get (fs w) q).
  { intros q Hq1 Hq2. apply (write_file_frame _ _ _ _ q Hw Hq2). by apply manifest_not_above. }
  replace w2 with (set_fs (fs w2) w2) at 2 by apply set_fs_id.
  apply (cmd_apply_Done args w2 meta key m' frames size m').
  - apply (write_file_exists _ _ _ _ p Hw Hex).
  - apply (sidecar_of_congr p w w2); [|done]. apply Hsame; [|apply sidecar_not_manifest].
    unfold with_suffix. by destruct (removelast p).
  - done.
  - apply load_manifest_Done. unfold manifest_doc. by rewrite Hget.
  - done.
  - done.
  - by apply (record_asset_twice m).
  - apply write_file_Done; [unfold FS.is_dir; by rewrite Hget|]. by apply put_same.
Qed.

End Apply.

(** ** generate, again *)

Section GenerateAgain.

Variable repr_container : json → string.
Variable E : Env.

(** Whatever its outcome, the loop touches the output file only. *)
Lemma consume_any p cs b w :
  let r := consume E p cs b w in
  (∀ q, ¬ p `prefix_of` q → ¬ q `prefix_of` p → FS.get (fs (world_of r)) q = FS.get (fs w) q)
  ∧ same_counters w (world_of r)
  ∧ (∀ c w', r ≠ Exited c w').
Proof.
  revert b w. induction cs as [|c cs IH]; intros b w; simpl.
  - by repeat split.
  - destruct (first_part c) as [[pt|]|e]; [| |by repeat split].
    + rewrite bind_lift_Ok. destruct (image_of pt) as [d|].
      * destruct (write_file_any p (Bytes d) w) as [[w2 Hw]|[e He]].
        -- rewrite (bind_Done _ _ _ _ _ Hw), bind_print.
           destruct (IH true (add_out ("Saved sprite to: " +:+ abs_str E p) w2)) as (H1 & H2 & H3).
           apply write_file_inv in Hw as [Hput Hw2]. cbn [fs add_out] in H1.
           split; [|split; [|done]].
           ++ intros q Hq1 Hq2. rewrite H1 by done. by apply (get_put_frame _ _ _ _ q Hput).
           ++ assert (Hc2 : same_counters w w2) by (rewrite Hw2; done).
              unfold same_counters in *. cbn [uuid_calls clock api_calls add_out] in H2.
              destruct H2 as (? & ? & ?), Hc2 as (? & ? & ?). split; [|split]; congruence.
        -- rewrite (bind_Raised _ _ _ _ _ He). by repeat split.
      * destruct (note_of pt) as [s|]; [rewrite bind_print; exact (IH b (add_out ("API note: " +:+ s) w))|].
        apply IH.
    + rewrite bind_lift_Ok. apply IH.
Qed.

(** The outcomes of the [try] block. *)
Lemma call_api_inv p w res w2 :
  call_api E p w = Done res w2 →
  let r := generate_content_stream E (api_calls w) in
  (res = None ∧ failure r = None
     ∧ consume E p (chunks r) false (count_request w) = Done true w2)
  ∨ (res = Some 1
     ∧ ∃ w3 line, w2 = add_out line w3
         ∧ w3 = world_of (consume E p (chunks r) false (count_request w))).
Proof.
  intros H r.
  destruct (consume_cases E p (chunks r) false (count_request w))
    as [(saved & w3 & Hc) | [(e & w3 & Hc) | (c & w3 & Hc)]].
  - rewrite (call_api_Done _ _ _ _ _ Hc) in H. fold r in H.
    destruct (failure r) as [msg|] eqn:Hf.
    + injection H as <- <-. right. split; [done|]. eexists _, _. split; [done|].
      fold r. by rewrite Hc.
    + destruct saved.
      * injection H as <- <-. by left.
      * injection H as <- <-. right. split; [done|]. eexists _, _. split; [done|].
        fold r. by rewrite Hc.
  - rewrite (call_api_Raised _ _ _ _ _ Hc) in H. injection H as <- <-.
    right. split; [done|]. eexists _, _. split; [done|]. fold r. by rewrite Hc.
  - by rewrite (call_api_Exited _ _ _ _ _ Hc) in H.
Qed.

(** A run of [generate_target] that returns. *)
Lemma generate_target_Done_inv args w tg wt :
  generate_target repr_container E args w = Done tg wt →
  let size := chosen_size repr_container args in
  let asset_id := str_take 8 (uuid4 E (uuid_calls w)) in
  let dir := output_dir repr_container args asset_id in
  ∃ w1 sg fp,
    ensure_directories w = Done tt w1
    ∧ load_style_guide w1 = Done sg w1
    ∧ build_prompt (GenArgs.prompt args) (GenArgs.category args) size
        (GenArgs.frames args) (GenArgs.god args) sg = Ok fp
    ∧ api_key_found E = true
    ∧ FS.mkdirs (fs w1) dir = Some (fs wt)
    ∧ out wt = out w ++ banner repr_container args size fp
    ∧ uuid_calls wt = S (uuid_calls w) ∧ clock wt = clock w ∧ api_calls wt = api_calls w
    ∧ tg = Target.mk size fp asset_id
             (dir ++ [if is_direct args then GenArgs.name args +:+ ".png" else "sprite.png"])
             (dir ++ [if is_direct args then GenArgs.name args +:+ ".meta.json" else "metadata.json"])
             (if is_direct args then "used" else "staging").
Proof.
  intros H size asset_id dir.
  destruct (generate_target_stops repr_container E args w)
    as [(e & w1 & Hr & _)|(w1 & sg & fp & Hens & Hsg & Hfp)]; [congruence|].
  exists w1, sg, fp. do 3 (split; [done|]).
  rewrite (generate_target_prompted _ _ _ _ _ _ _ Hens Hsg Hfp) in H.
  unfold bind at 1 in H. rewrite get_api_client_spec in H.
  destruct (api_key_found E); [|done]. split; [done|].
  unfold bind at 1 in H. unfold next_uuid at 1 in H.
  pose proof (for_each_mkdir_spec _ _ _ Hens) as (Hw1 & _).
  assert (Hu : uuid_calls w1 = uuid_calls w) by (by rewrite Hw1).
  assert (Hcl : clock w1 = clock w) by (by rewrite Hw1).
  assert (Hap : api_calls w1 = api_calls w) by (by rewrite Hw1).
  assert (Ho : out w1 = out w) by (by rewrite Hw1).
  cbn [uuid_calls add_lines] in H. rewrite Hu in H. fold asset_id in H.
  apply bind_inv_Done in H as ([] & wm & Hm & H).
  apply mkdir_parents_inv in Hm as [Hm Hwm]. injection H as <- <-.
  split; [exact Hm|]. rewrite Hwm. cbn. rewrite Ho, Hu, Hcl, Hap. done.
Qed.

(** A run of [generate_record] that returns. *)
Lemma generate_record_Done_inv args tg w c w' :
  generate_record repr_container E args tg w = Done c w' →
  c = 0 ∧
  ∃ wa,
    write_file (Target.metadata_path tg)
      (Json (metadata_record args (Target.size tg) (Target.full_prompt tg) (Target.asset_id tg)
               (now_iso E (clock w)) (Target.status tg))) (tick w) = Done tt wa
    ∧ if String.eqb (Target.status tg) "used" then
        ∃ m m' wb,
          load_manifest wa = Done m wa
          ∧ record_asset m (generate_key repr_container args)
              (manifest_entry (Target.output_path tg) (JInt (GenArgs.frames args))
                 (JInt (Target.size tg))) = Ok m'
          ∧ write_file MANIFEST_PATH (Json m') wa = Done tt wb
          ∧ w' = add_out ("Updated manifest with key: " +:+ generate_key repr_container args) wb
      else
        w' = add_lines [nl +:+ "Asset staged with ID: " +:+ Target.asset_id tg;
                        "To approve: spritegen approve " +:+ Target.asset_id tg +:+ " --category "
                          +:+ GenArgs.category args +:+ " --name " +:+ GenArgs.name args] wa.
Proof.
  intros H. unfold generate_record in H.
  apply bind_inv_Done in H as (now & w0 & Hnow & H). injection Hnow as <- <-.
  apply bind_inv_Done in H as ([] & wa & Hd & H).
  apply bind_inv_Done in H as ([] & wc & Hrec & H). injection H as <- <-.
  split; [done|]. exists wa. split; [exact Hd|].
  destruct (String.eqb (Target.status tg) "used").
  - apply bind_inv_Done in Hrec as (m & wd & Hl & Hrec).
    pose proof (load_manifest_inv _ _ _ Hl) as ->.
    apply bind_inv_Done in Hrec as (m' & wd & Hl2 & Hrec). apply lift_inv in Hl2 as [Hl2 ->].
    apply bind_inv_Done in Hrec as ([] & wd & Hs & Hrec). apply print_inv in Hrec.
    by exists m, m', wd.
  - apply bind_inv_Done in Hrec as ([] & wd & Hp & Hrec). apply print_inv in Hp.
    apply print_inv in Hrec. subst. by rewrite !add_out_as_lines, add_lines_app.
Qed.

(** A run of [cmd_generate] that returns 0, step by step. *)
Lemma cmd_generate_0_inv args w w' :
  cmd_generate repr_container E args w = Done 0 w' →
  ∃ tg wt w2 c,
    generate_target repr_container E args w = Done tg wt
    ∧ failure (generate_content_stream E (api_calls wt)) = None
    ∧ consume E (Target.output_path tg) (chunks (generate_content_stream E (api_calls wt)))
        false (count_request wt) = Done true w2
    ∧ generate_record repr_container E args tg w2 = Done c w'.
Proof.
  intros H. unfold cmd_generate in H.
  apply bind_inv_Done in H as (tg & wt & Htg & H).
  apply bind_inv_Done in H as (res & w2 & Hcall & H).
  apply call_api_inv in Hcall as [(-> & Hf & Hc)|(-> & _)]; [|by injection H].
  by exists tg, wt, w2, 0.
Qed.

Lemma unrelated_child (dir : path) x q :
  ¬ dir `prefix_of` q → ¬ q `prefix_of` dir →
  ¬ (dir ++ [x]) `prefix_of` q ∧ ¬ q `prefix_of` (dir ++ [x]).
Proof.
  intros H1 H2. split.
  - intros [r Hr]. apply H1. exists ([x] ++ r). by rewrite Hr, <- app_assoc.
  - intros [r Hr]. destruct (decide (r = [])) as [->|Hne].
    + rewrite app_nil_r in Hr. apply H1. exists [x]. by rewrite Hr.
    + apply H2. destruct (exists_last Hne) as (r' & y & ->).
      rewrite app_assoc in Hr. apply app_inj_tail in Hr as [-> _]. by exists r'.
Qed.

Lemma load_manifest_doc w m w' : load_manifest w = Done m w' → manifest_doc (fs w) = Some m.
Proof.
  unfold load_manifest, manifest_doc. rewrite bind_path_exists, exists_get.
  destruct (FS.get (fs w) MANIFEST_PATH) as [n|] eqn:Hn.
  - intros H. apply load_json_inv in H as [_ H]. rewrite Hn in H. by injection H as ->.
  - by intros [= <- _].
Qed.

(** X16. A generation that is staged and returns 0 has drawn one id, made
    one request and read the clock once; the staging directory named by
    the first eight characters of the id holds the last image received as
    [sprite.png] and the metadata record, with status ["staging"], as
    [metadata.json]; everything outside that directory, the manifest
    included, is as [ensure_directories] left it. *)
Theorem generate_stages args w w' :
  let id := str_take 8 (uuid4 E (uuid_calls w)) in
  let size := chosen_size repr_container args in
  is_direct args = false → is_file_name id = true →
  cmd_generate repr_container E args w = Done 0 w' →
  ∃ w1 sg fp d,
    ensure_directories w = Done tt w1
    ∧ load_style_guide w1 = Done sg w1
    ∧ build_prompt (GenArgs.prompt args) (GenArgs.category args) size
        (GenArgs.frames args) (GenArgs.god args) sg = Ok fp
    ∧ last (images (chunks (generate_content_stream E (api_calls w)))) = Some d
    ∧ FS.get (fs w') ["staging"; id; "sprite.png"] = Some (File (Bytes d))
    ∧ FS.get (fs w') ["staging"; id; "metadata.json"]
        = Some (File (Json (metadata_record args size fp id (now_iso E (clock w)) "staging")))
    ∧ (∀ q, ¬ ["staging"; id] `prefix_of` q → ¬ q `prefix_of` ["staging"; id] →
         FS.get (fs w') q = FS.get (fs w1) q)
    ∧ FS.get (fs w') MANIFEST_PATH = FS.get (fs w) MANIFEST_PATH
    ∧ uuid_calls w' = S (uuid_calls w) ∧ clock w' = S (clock w)
    ∧ api_calls w' = S (api_calls w).
Proof.
  intros id size Hdir _ H.
  apply cmd_generate_0_inv in H as (tg & wt & w2 & c & Htg & Hf & Hc & Hrec).
  apply generate_target_Done_inv in Htg
    as (w1 & sg & fp & Hens & Hsg & Hfp & Hkey & Hm & Hout & Hu & Hcl & Hap & ->).
  fold id size in Hm, Hfp |- *. unfold output_dir in *. rewrite Hdir in *.
  cbn [Target.output_path Target.metadata_path Target.size Target.full_prompt
       Target.asset_id Target.status] in *.
  set (dir := ["staging"; id]) in *.
  match type of Hc with
  | consume _ ?p ?cs ?b ?w0 = _ => pose proof (consume_any p cs b w0) as (Hframe2 & _ & _)
  end.
  rewrite Hc in Hframe2. cbn [world_of fs count_request] in Hframe2.
  apply consume_inv in Hc as (_ & Hsaved & _ & Hfs & Hcnt).
  unfold same_counters in Hcnt. cbn [uuid_calls clock api_calls count_request] in Hcnt.
  destruct Hcnt as (Hc1 & Hc2 & Hc3).
  apply generate_record_Done_inv in Hrec as (_ & wa & Hwa & Hw').
  cbn [Target.output_path Target.metadata_path Target.size Target.full_prompt
       Target.asset_id Target.status String.eqb Ascii.eqb Bool.eqb] in *.
  apply write_file_inv in Hwa as [Hput Hwa]. cbn [fs tick] in Hput.
  rewrite Hap in *.
  destruct (last (images (chunks (generate_content_stream E (api_calls w))))) as [d|] eqn:Hlast.
  2:{ apply last_None in Hlast. unfold has_image in Hsaved. by rewrite Hlast in Hsaved. }
  pose proof (for_each_mkdir_spec _ _ _ Hens) as (_ & Hensframe & _ & _).
  assert (Hfr : ∀ q, ¬ dir `prefix_of` q → ¬ q `prefix_of` dir →
                     FS.get (fs w') q = FS.get (fs w1) q).
  { intros q H1 H2. subst w'. cbn [fs add_lines].
    destruct (unrelated_child dir "metadata.json" q H1 H2) as [Ha Hb].
    destruct (unrelated_child dir "sprite.png" q H1 H2) as [Hc Hd].
    rewrite (get_put_frame _ _ _ _ q Hput Ha Hb), (Hframe2 q Hc Hd).
    pose proof (mkdirs_get _ _ _ q Hm) as Hg. by rewrite decide_False in Hg. }
  exists w1, sg, fp, d. do 4 (split; [done|]). split; [|split; [|split; [|split]]].
  - subst w'. cbn [fs add_lines]. change ["staging"; id; "sprite.png"] with (dir ++ ["sprite.png"]).
    rewrite (get_put_frame _ _ _ _ (dir ++ ["sprite.png"]) Hput);
      [exact Hfs| |]; by apply not_prefix_sibling.
  - subst w'. cbn [fs add_lines]. change ["staging"; id; "metadata.json"] with (dir ++ ["metadata.json"]).
    rewrite Hc2, Hcl in Hput. exact (get_put_eq _ _ _ _ Hput).
  - exact Hfr.
  - rewrite Hfr by (unfold dir; not_prefix). apply Hensframe. not_standard.
  - subst w'. rewrite Hwa.
    cbn [uuid_calls clock api_calls add_lines set_fs tick].
    rewrite Hc1, Hc2, Hc3, Hu, Hcl. done.
Qed.

Lemma output_dir_direct args id c s :
  is_direct args = true → GenArgs.category args = c → GenArgs.subcategory args = s →
  s ≠ Some "" → output_dir repr_container args id = dest_dir c s.
Proof.
  intros Hd <- <- Hs. unfold output_dir, dest_dir. rewrite Hd.
  destruct (GenArgs.subcategory args) as [s'|]; [|done].
  cbn [of_opt]. rewrite truthy_JStr; [done|congruence].
Qed.

Lemma dest_dir_unrelated c s (q : path) :
  head q ≠ Some "used" → q ≠ [] → ¬ dest_dir c s `prefix_of` q ∧ ¬ q `prefix_of` dest_dir c s.
Proof.
  intros Hh Hq. unfold dest_dir. split; intros [r Hr].
  - subst q. by apply Hh.
  - destruct q as [|x q]; [done|]. simpl in Hr. injection Hr as <- _. by apply Hh.
Qed.

(** X17. A generation that goes straight to the used tree and returns 0
    leaves the last image received at [used/c[/s]/n.png], the metadata
    record, with status ["used"], at [used/c[/s]/n.meta.json], and in the
    manifest, under the derived key, the path of the image with the frame
    count and the size; the other entries of the manifest are kept, and no
    staging entry is made. *)
Theorem generate_direct args w w' c s n :
  let id := str_take 8 (uuid4 E (uuid_calls w)) in
  let size := chosen_size repr_container args in
  let sprite := dest_dir c s ++ [n +:+ ".png"] in
  let record := dest_dir c s ++ [n +:+ ".meta.json"] in
  is_direct args = true →
  GenArgs.category args = c → GenArgs.subcategory args = s → GenArgs.name args = n →
  is_file_name c = true → is_file_name n = true →
  match s with Some s' => is_file_name s' = true | None => True end →
  cmd_generate repr_container E args w = Done 0 w' →
  ∃ w1 sg fp d (m a : gmap string json),
    ensure_directories w = Done tt w1
    ∧ load_style_guide w1 = Done sg w1
    ∧ build_prompt (GenArgs.prompt args) c size (GenArgs.frames args) (GenArgs.god args) sg = Ok fp
    ∧ last (images (chunks (generate_content_stream E (api_calls w)))) = Some d
    ∧ FS.get (fs w') sprite = Some (File (Bytes d))
    ∧ FS.get (fs w') record
        = Some (File (Json (metadata_record args size fp id (now_iso E (clock w)) "used")))
    ∧ manifest_doc (fs w) = Some (JDict m) ∧ m !! "assets" = Some (JDict a)
    ∧ manifest_doc (fs w')
        = Some (JDict (<["assets" :=
                          JDict (<[derive c s n :=
                                     manifest_entry sprite (JInt (GenArgs.frames args)) (JInt size)]> a)]> m))
    ∧ (∀ x r, FS.get (fs w') ("staging" :: x :: r) = FS.get (fs w) ("staging" :: x :: r)).
Proof.
  intros id size sprite record Hdir Hcat Hsub Hname Hc _ Hs H.
  assert (Hs0 : s ≠ Some "").
  { destruct s as [s'|]; [|done]. intros [= ->]. done. }
  apply cmd_generate_0_inv in H as (tg & wt & w2 & c0 & Htg & Hf & Hcons & Hrec).
  apply generate_target_Done_inv in Htg
    as (w1 & sg & fp & Hens & Hsg & Hfp & Hkey & Hm & Hout & Hu & Hcl & Hap & ->).
  fold size in Hfp.
  rewrite (output_dir_direct args (str_take 8 (uuid4 E (uuid_calls w))) c s Hdir Hcat Hsub Hs0) in *.
  rewrite Hdir, Hname in *.
  cbn [Target.output_path Target.metadata_path Target.size Target.full_prompt
       Target.asset_id Target.status] in *.
  fold sprite record in Hcons, Hrec.
  match type of Hcons with
  | consume _ ?p ?cs ?b ?w0 = _ => pose proof (consume_any p cs b w0) as (Hframe2 & _ & _)
  end.
  rewrite Hcons in Hframe2. cbn [world_of fs count_request] in Hframe2.
  apply consume_inv in Hcons as (_ & Hsaved & _ & Hfs & Hcnt).
  unfold same_counters in Hcnt. cbn [uuid_calls clock api_calls count_request] in Hcnt.
  destruct Hcnt as (Hc1 & Hc2 & Hc3).
  apply generate_record_Done_inv in Hrec as (_ & wa & Hwa & Hw').
  cbn [Target.output_path Target.metadata_path Target.size Target.full_prompt
       Target.asset_id Target.status String.eqb Ascii.eqb Bool.eqb] in *.
  destruct Hw' as (m0 & m' & wb & Hload & Hrecord & Hsave & ->).
  apply write_file_inv in Hwa as [Hput Hwa]. cbn [fs tick] in Hput.
  apply write_file_inv in Hsave as [Hput2 Hwb].
  rewrite Hap in *.
  destruct (last (images (chunks (generate_content_stream E (api_calls w))))) as [d|] eqn:Hlast.
  2:{ apply last_None in Hlast. unfold has_image in Hsaved. by rewrite Hlast in Hsaved. }
  pose proof (for_each_mkdir_spec _ _ _ Hens) as (_ & Hensframe & _ & _).
  (* what lies outside the directory of the asset is as it was *)
  assert (Hfr : ∀ q, head q ≠ Some "used" → q ≠ [] → FS.get (fs wa) q = FS.get (fs w1) q).
  { intros q H1 H2. destruct (dest_dir_unrelated c s q H1 H2) as [Ha Hb].
    destruct (unrelated_child _ (n +:+ ".meta.json") q Ha Hb) as [Ha1 Hb1].
    destruct (unrelated_child _ (n +:+ ".png") q Ha Hb) as [Ha2 Hb2].
    rewrite (get_put_frame _ _ _ _ q Hput Ha1 Hb1), (Hframe2 q Ha2 Hb2).
    pose proof (mkdirs_get _ _ _ q Hm) as Hg. by rewrite decide_False in Hg. }
  assert (Hman : FS.get (fs wa) MANIFEST_PATH = FS.get (fs w) MANIFEST_PATH).
  { rewrite Hfr by done. apply Hensframe. not_standard. }
  apply load_manifest_doc in Hload. unfold manifest_doc in Hload. rewrite Hman in Hload.
  fold (manifest_doc (fs w)) in Hload.
  unfold record_asset in Hrecord. destruct m0 as [| | | | |m]; try done.
  destruct (m !! "assets") as [[| | | | |a]|] eqn:Ha; try done. injection Hrecord as <-.
  assert (Hk : generate_key repr_container args = derive c s n).
  { unfold generate_key. rewrite Hcat, Hsub, Hname. by apply asset_key_strings. }
  rewrite Hk in *.
  assert (Hmp : ∀ x, ¬ MANIFEST_PATH `prefix_of` (dest_dir c s ++ [x])
                     ∧ ¬ (dest_dir c s ++ [x]) `prefix_of` MANIFEST_PATH).
  { intros x. unfold dest_dir, MANIFEST_PATH. split; not_prefix. }
  exists w1, sg, fp, d, m, a. rewrite <- Hcat at 1. do 4 (split; [done|]).
  cbn [fs add_out]. split; [|split; [|split; [|split; [|split]]]].
  - rewrite (get_put_frame _ _ _ _ sprite Hput2) by apply Hmp.
    rewrite (get_put_frame _ _ _ _ sprite Hput); [exact Hfs| |];
      apply not_prefix_sibling; [apply not_eq_sym|]; apply png_ne_meta.
  - rewrite (get_put_frame _ _ _ _ record Hput2) by apply Hmp.
    rewrite Hc2, Hcl in Hput. exact (get_put_eq _ _ _ _ Hput).
  - done.
  - done.
  - unfold manifest_doc. by rewrite (get_put_eq _ _ _ _ Hput2).
  - intros x r. rewrite (get_put_frame _ _ _ _ _ Hput2) by (unfold MANIFEST_PATH; not_prefix).
    rewrite Hfr by done. apply Hensframe. not_standard.
Qed.

(** X18. A generation that returns a non-zero code returns 1, and has
    written no metadata record and no manifest entry: the only path it can
    have changed since the output directory was made is the output file.
    That file holds the last image received, if one was received before
    the failure. *)
Theorem generate_failure_leaves args w tg wt c w' :
  generate_target repr_container E args w = Done tg wt →
  cmd_generate repr_container E args w = Done c w' → c ≠ 0 →
  let r := generate_content_stream E (api_calls w) in
  c = 1
  ∧ (∀ q, ¬ Target.output_path tg `prefix_of` q → ¬ q `prefix_of` Target.output_path tg →
          FS.get (fs w') q = FS.get (fs wt) q)
  ∧ FS.get (fs w') (Target.metadata_path tg) = FS.get (fs wt) (Target.metadata_path tg)
  ∧ FS.get (fs w') MANIFEST_PATH = FS.get (fs wt) MANIFEST_PATH
  ∧ clock w' = clock w
  ∧ (∀ d, Forall well_formed (chunks r) → FS.is_dir (fs wt) (Target.output_path tg) = false →
          last (images (chunks r)) = Some d →
          FS.get (fs w') (Target.output_path tg) = Some (File (Bytes d))).
Proof.
  intros Htg H Hc0 r.
  destruct (generate_target_inv _ _ _ _ _ _ Htg)
    as (dir & x & y & hd & rest & Hop & Hmp & Hxy & Hdir & Hhd & Hisdir & Hapi).
  pose proof (generate_target_Done_inv _ _ _ _ Htg)
    as (w1 & sg & fp & _ & _ & _ & _ & _ & _ & _ & Hclock & _ & _).
  unfold cmd_generate in H. rewrite (bind_Done _ _ _ _ _ Htg) in H.
  apply bind_inv_Done in H as (res & w2 & Hcall & H).
  apply call_api_inv in Hcall as [(-> & _ & _)|(-> & w3 & line & -> & Hw3)].
  { apply generate_record_Done_inv in H as [-> _]. done. }
  injection H as <- <-. rewrite Hapi in Hw3. fold r in Hw3. cbn [fs clock add_out].
  pose proof (consume_any (Target.output_path tg) (chunks r) false (count_request wt))
    as (Hframe & Hcnt & _).
  rewrite <- Hw3 in Hframe, Hcnt. cbn [fs count_request] in Hframe.
  assert (Hfr : ∀ q, ¬ Target.output_path tg `prefix_of` q → ¬ q `prefix_of` Target.output_path tg →
                     FS.get (fs w3) q = FS.get (fs wt) q) by exact Hframe.
  split; [done|]. split; [exact Hfr|]. split; [|split; [|split]].
  - apply Hfr; rewrite Hop, Hmp.
    + by apply not_prefix_sibling.
    + by apply not_prefix_sibling, not_eq_sym.
  - apply Hfr; rewrite Hop, Hdir; destruct Hhd as [-> | ->]; unfold MANIFEST_PATH; not_prefix.
  - destruct Hcnt as (_ & Hcl & _). cbn [clock count_request] in Hcl. by rewrite Hcl.
  - intros d Hwf Hnd Hlast.
    destruct (consume_Done E (Target.output_path tg) (chunks r) false (count_request wt) Hwf)
      as (b' & w4 & Hw4).
    { split; [done|]. exists dir, x. done. }
    rewrite Hw4 in Hw3. cbn [world_of] in Hw3. subst w4.
    apply consume_inv in Hw4 as (_ & _ & _ & Hfs & _). by rewrite Hlast in Hfs.
Qed.

End GenerateAgain.

(** ** batch, again *)

Section BatchAgain.

Variable repr_container : json → string.
Variable E : Env.

(** A run of [cmd_generate] that returns has drawn one id and made one
    request. *)
Lemma cmd_generate_counts args w c w' :
  cmd_generate repr_container E args w = Done c w' →
  api_calls w' = S (api_calls w) ∧ uuid_calls w' = S (uuid_calls w).
Proof.
  intros H. unfold cmd_generate in H.
  apply bind_inv_Done in H as (tg & wt & Htg & H).
  apply generate_target_Done_inv in Htg
    as (w1 & sg & fp & _ & _ & _ & _ & _ & _ & Hu & _ & Hap & _).
  apply bind_inv_Done in H as (res & w2 & Hcall & H).
  pose proof (consume_any E (Target.output_path tg)
                (chunks (generate_content_stream E (api_calls wt))) false (count_request wt))
    as (_ & Hcnt & _).
  apply call_api_inv in Hcall as [(-> & _ & Hc)|(-> & w3 & line & -> & Hw3)].
  - rewrite Hc in Hcnt. cbn [world_of] in Hcnt. destruct Hcnt as (H1 & _ & H3).
    cbn [uuid_calls api_calls count_request] in H1, H3.
    apply generate_record_Done_inv in H as (_ & wa & Hwa & Hw').
    apply write_file_inv in Hwa as [_ Hwa].
    assert (Ha : api_calls wa = api_calls w2 ∧ uuid_calls wa = uuid_calls w2) by (by rewrite Hwa).
    destruct Ha as [Ha1 Ha2].
    destruct (String.eqb (Target.status tg) "used").
    + destruct Hw' as (m & m' & wb & _ & _ & Hsave & ->).
      apply write_file_inv in Hsave as [_ Hwb]. rewrite Hwb.
      cbn [uuid_calls api_calls add_out set_fs]. by rewrite Ha1, Ha2, H1, H3, Hu, Hap.
    + subst w'. cbn [uuid_calls api_calls add_lines]. by rewrite Ha1, Ha2, H1, H3, Hu, Hap.
  - injection H as <- <-. rewrite <- Hw3 in Hcnt. destruct Hcnt as (H1 & _ & H3).
    cbn [uuid_calls api_calls count_request add_out] in *. by rewrite H1, H3, Hu, Hap.
Qed.

Lemma items_return_counts auto total i l w w' :
  items_return repr_container E auto total i l w w' →
  api_calls w' = (api_calls w + length l)%nat ∧ uuid_calls w' = (uuid_calls w + length l)%nat.
Proof.
  induction 1 as [|i item rest w code w1 w' Hgen _ IH]; [simpl; lia|].
  apply cmd_generate_counts in Hgen as [H1 H2]. cbn [api_calls uuid_calls add_out] in H1, H2.
  destruct IH as [IH1 IH2]. simpl length.
  destruct (code =? 0); cbn [api_calls uuid_calls add_out] in IH1, IH2; lia.
Qed.

(** X19. A batch whose manifest file is missing returns 1 with the not-found
    line and does nothing else.  A batch that returns for a manifest that
    exists has made exactly one request and drawn exactly one id per item,
    whether the items succeeded or not. *)
Theorem batch_requests (args : BatchArgs.t) w :
  (batch_files E (BatchArgs.manifest args) = None →
     cmd_batch repr_container E args w
     = Done 1 (add_out ("Error: Manifest file not found: " +:+ BatchArgs.manifest args) w))
  ∧ (∀ bm c w',
       batch_files E (BatchArgs.manifest args) = Some bm →
       cmd_batch repr_container E args w = Done c w' →
       api_calls w' = (api_calls w + length (default [] (items bm)))%nat
       ∧ uuid_calls w' = (uuid_calls w + length (default [] (items bm)))%nat).
Proof.
  split.
  - intros Hnone. unfold cmd_batch. rewrite Hnone. by rewrite bind_print.
  - intros bm c w' Hbm H. unfold cmd_batch in H. rewrite Hbm in H.
    rewrite bind_print in H. apply bind_inv_Done in H as ([] & w1 & Hloop & H).
    rewrite bind_print in H. injection H as <- <-.
    apply batch_loop_inv in Hloop. apply items_return_counts in Hloop.
    cbn [api_calls uuid_calls add_out] in *. exact Hloop.
Qed.

End BatchAgain.

(** ** approve and reject, again *)

Lemma remove_is_dir t p t' q :
  FS.remove t p = Some t' → ¬ p `prefix_of` q → FS.is_dir t q = true → FS.is_dir t' q = true.
Proof.
  intros Hr Hpq Hq. destruct (decide (q `prefix_of` p)) as [Hqp|Hqp].
  - apply (get_remove_above _ _ _ q Hr Hqp). intros ->. by apply Hpq.
  - unfold FS.is_dir. by rewrite (get_remove_frame _ _ _ q Hr).
Qed.

Lemma put_is_dir t p x t' q :
  FS.put t p x = Some t' → ¬ p `prefix_of` q → FS.is_dir t q = true → FS.is_dir t' q = true.
Proof.
  intros Hp Hpq Hq. destruct (decide (q `prefix_of` p)) as [Hqp|Hqp].
  - apply (get_put_above _ _ _ _ q Hp Hqp). intros ->. by apply Hpq.
  - unfold FS.is_dir. by rewrite (get_put_frame _ _ _ _ q Hp).
Qed.

Lemma rmtree_inv p w w' :
  rmtree p w = Done tt w' → FS.remove (fs w) p = Some (fs w') ∧ w' = set_fs (fs w') w.
Proof.
  unfold rmtree, bind, read_fs.
  destruct (FS.get (fs w) p) as [[c|ch]|]; try done.
  destruct (FS.remove (fs w) p) as [t'|]; try done. by intros [= <-].
Qed.

Lemma copy2_inv src dst w w' :
  copy2 src dst w = Done tt w' → ∃ dst' c, write_file dst' c w = Done tt w'.
Proof.
  unfold copy2. unfold bind at 1. unfold read_fs at 1.
  destruct (bool_decide _ && _); [done|].
  intros H. apply bind_inv_Done in H as (c & w0 & Hr & H).
  apply read_file_inv in Hr as ->. eauto.
Qed.

Lemma move_inv src dst w w' :
  move src dst w = Done tt w' → src ≠ dst →
  ∃ x t1 real,
    FS.get (fs w) src = Some x
    ∧ (real = dst ∨ real = dst ++ [basename src])
    ∧ FS.remove (fs w) src = Some t1
    ∧ FS.put t1 real x = Some (fs w')
    ∧ w' = set_fs (fs w') w.
Proof.
  intros H Hne. unfold move, bind, read_fs in H.
  destruct (FS.get (fs w) src) as [x|] eqn:Hx; [|done].
  rewrite (bool_decide_eq_false_2 _ Hne), andb_false_r in H.
  set (real := if FS.is_dir (fs w) dst then dst ++ [basename src] else dst) in *.
  destruct (FS.is_dir (fs w) dst && FS.exists_ (fs w) real); [done|].
  assert (Hreal : real = dst ∨ real = dst ++ [basename src]).
  { unfold real. destruct (FS.is_dir (fs w) dst); auto. }
  assert (Hgo : match FS.remove (fs w) src with
                | Some t1 => match FS.put t1 real x with
                             | Some t2 => write_fs t2
                             | None => raise (unreachable t1 real)
                             end
                | None => raise (FileNotFoundError src)
                end w = Done tt w').
  { destruct x as [c|ch]; [exact H|]. by destruct (FS.get (fs w) real). }
  clear H. destruct (FS.remove (fs w) src) as [t1|]; [|done].
  destruct (FS.put t1 real x) as [t2|] eqn:Hp; [|done].
  injection Hgo as <-. by exists x, t1, real.
Qed.

Lemma resolve_inv {A} (b : bool) (x : A) (r : Result A) w v w' :
  (if b then ret x else lift r) w = Done v w' → w' = w.
Proof. destruct b; [by intros [= _ <-]|]. intros H. by apply lift_inv in H as [_ ->]. Qed.

Lemma staging_not_in_standard uuid r :
  Forall (λ d, ¬ ("staging" :: uuid :: r) `prefix_of` d) standard_dirs.
Proof. not_standard. Qed.

Lemma sibling_not_blocked t dir x y n :
  FS.get t (dir ++ [x]) = Some n → FS.blocked t (dir ++ [y]) = false.
Proof.
  revert t. induction dir as [|a dir IH]; intros t H; simpl in *.
  - destruct t as [|ch]; [done|]. by destruct (ch !! y).
  - destruct t as [|ch]; [done|]. destruct (ch !! a) as [m|]; [|done]. by apply IH.
Qed.

Section Review.

Variable repr_container : json → string.
Variable E : Env.

(** Once the entry is gone, neither command finds it. *)
Lemma entry_not_found w uuid :
  Forall (λ d, FS.is_dir (fs w) d = true) standard_dirs →
  FS.exists_ (fs w) ["staging"; uuid] = false →
  (∀ args, ApproveArgs.uuid args = uuid →
     cmd_approve repr_container E args w
     = Done 1 (add_out ("Error: Staging asset not found: " +:+ uuid) w))
  ∧ (∀ args, RejectArgs.uuid args = uuid →
     cmd_reject repr_container E args w
     = Done 1 (add_out ("Error: Staging asset not found: " +:+ uuid) w)).
Proof.
  intros Hall Hgone. pose proof (ensure_directories_initialised _ Hall) as Hens. split.
  - intros args <-. unfold cmd_approve. rewrite (bind_Done _ _ _ _ _ Hens).
    rewrite bind_path_exists, Hgone. cbn [negb]. by rewrite bind_print.
  - intros args <-. unfold cmd_reject. rewrite (bind_Done _ _ _ _ _ Hens).
    rewrite bind_path_exists, Hgone. cbn [negb]. by rewrite bind_print.
Qed.

Lemma cmd_reject_gone (args : RejectArgs.t) w w' :
  cmd_reject repr_container E args w = Done 0 w' →
  Forall (λ d, FS.is_dir (fs w') d = true) standard_dirs
  ∧ FS.exists_ (fs w') ["staging"; RejectArgs.uuid args] = false.
Proof.
  intros H. unfold cmd_reject in H. set (uuid := RejectArgs.uuid args) in *.
  apply bind_inv_Done in H as ([] & w1 & Hens & H).
  rewrite bind_path_exists in H.
  destruct (FS.exists_ (fs w1) ["staging"; uuid]); cbn [negb] in H.
  2:{ rewrite bind_print in H. by injection H. }
  apply bind_inv_Done in H as ([] & w2 & Hmove & H).
  rewrite bind_path_exists in H.
  apply bind_inv_Done in H as ([] & w3 & Hupd & H).
  rewrite bind_print in H.
  apply bind_inv_Done in H as ([] & w4 & Hpr & H). apply when_print_inv in Hpr.
  injection H as <-.
  assert (Hfs : fs w4 = fs w3) by (subst w4; by destruct (truthy _)).
  rewrite Hfs. clear Hfs Hpr.
  apply move_inv in Hmove as (x & t1 & real & Hx & Hreal & Hrm & Hput & Hw2); [|by intros [=]].
  pose proof (for_each_mkdir_spec _ _ _ Hens) as (_ & _ & Hstd & _).
  assert (Hall2 : Forall (λ d, FS.is_dir (fs w2) d = true) standard_dirs).
  { pose proof (staging_not_in_standard uuid []) as Hns.
    assert (Hnr : Forall (λ d, ¬ real `prefix_of` d) standard_dirs).
    { destruct Hreal as [-> | ->]; not_standard. }
    rewrite Forall_forall in Hns, Hnr |- *. intros d Hd.
    apply (put_is_dir _ _ _ _ d Hput (Hnr d Hd)).
    apply (remove_is_dir _ _ _ d Hrm (Hns d Hd)).
    apply (Hstd d). apply Exists_exists. eauto. }
  assert (Hgone2 : FS.get (fs w2) ["staging"; uuid] = None).
  { rewrite (get_put_frame _ _ _ _ _ Hput) by (destruct Hreal as [-> | ->]; not_prefix).
    pose proof (get_remove_below _ _ _ [] Hrm) as Hg. by rewrite app_nil_r in Hg. }
  destruct (FS.exists_ (fs w2) (["alternatives"; uuid] ++ ["metadata.json"])); cbn [when] in Hupd.
  2:{ injection Hupd as <-. split; [done|]. by rewrite exists_get, Hgone2. }
  apply bind_inv_Done in Hupd as (meta & wa & Hl & Hupd). apply load_json_inv in Hl as [-> _].
  apply bind_inv_Done in Hupd as (m1 & wa & Hl & Hupd). apply lift_inv in Hl as [_ ->].
  apply bind_inv_Done in Hupd as (m2 & wa & Hl & Hupd). apply lift_inv in Hl as [_ ->].
  apply bind_inv_Done in Hupd as (now & wa & Hl & Hupd). injection Hl as <- <-.
  apply bind_inv_Done in Hupd as (m3 & wa & Hl & Hupd). apply lift_inv in Hl as [_ ->].
  pose proof (λ q, write_file_is_dir _ _ _ _ q Hupd) as Hdir.
  apply write_file_inv in Hupd as [Hput3 _]. cbn [fs tick] in *. split.
  - rewrite Forall_forall in Hall2 |- *. intros d Hd. by apply Hdir, Hall2.
  - rewrite exists_get, (get_put_frame _ _ _ _ _ Hput3) by not_prefix. by rewrite Hgone2.
Qed.

Lemma dest_dir_inv (subj : json) (c : string) w dd w' :
  (if truthy subj then (x <- lift (segment subj);; ret ["used"; c; x]) else ret ["used"; c]) w
  = Done dd w' → w' = w.
Proof.
  destruct (truthy subj); [|by intros [= _ <-]].
  intros H. apply bind_inv_Done in H as (x & w0 & Hl & H). apply lift_inv in Hl as [_ ->].
  by injection H.
Qed.

Lemma cmd_approve_gone (args : ApproveArgs.t) w w' :
  cmd_approve repr_container E args w = Done 0 w' →
  Forall (λ d, FS.is_dir (fs w') d = true) standard_dirs
  ∧ FS.exists_ (fs w') ["staging"; ApproveArgs.uuid args] = false.
Proof.
  intros H. unfold cmd_approve in H. set (uuid := ApproveArgs.uuid args) in *.
  apply bind_inv_Done in H as ([] & w1 & Hens & H).
  rewrite bind_path_exists in H.
  destruct (FS.exists_ (fs w1) ["staging"; uuid]); cbn [negb] in H.
  2:{ rewrite bind_print in H. by injection H. }
  rewrite bind_path_exists in H.
  destruct (FS.exists_ (fs w1) (["staging"; uuid] ++ ["metadata.json"])); cbn [negb] in H.
  2:{ rewrite bind_print in H. by injection H. }
  apply bind_inv_Done in H as (meta & wa & Hl & H). apply load_json_inv in Hl as [-> _].
  apply bind_inv_Done in H as (category & wa & Hl & H). apply resolve_inv in Hl as ->.
  apply bind_inv_Done in H as (subcategory & wa & Hl & H). apply resolve_inv in Hl as ->.
  apply bind_inv_Done in H as (name & wa & Hl & H). apply resolve_inv in Hl as ->.
  destruct (negb (truthy category) || negb (truthy name)).
  { rewrite bind_print in H. by injection H. }
  apply bind_inv_Done in H as (c & wa & Hl & H). apply lift_inv in Hl as [_ ->].
  apply bind_inv_Done in H as (dd & wa & Hl & H). apply dest_dir_inv in Hl as ->.
  apply bind_inv_Done in H as ([] & w2 & Hmk & H). apply mkdir_parents_inv in Hmk as [Hmk _].
  apply bind_inv_Done in H as ([] & w3 & Hcp & H). apply copy2_inv in Hcp as (dst' & img & Hcp).
  apply bind_inv_Done in H as (m1 & wa & Hl & H). apply lift_inv in Hl as [_ ->].
  apply bind_inv_Done in H as (now & wa & Hl & H). injection Hl as <- <-.
  apply bind_inv_Done in H as (m2 & wa & Hl & H). apply lift_inv in Hl as [_ ->].
  apply bind_inv_Done in H as ([] & w4 & Hdump & H).
  apply bind_inv_Done in H as (man & wa & Hl & H). apply load_manifest_inv in Hl as ->.
  apply bind_inv_Done in H as (frames & wa & Hl & H). apply lift_inv in Hl as [_ ->].
  apply bind_inv_Done in H as (size & wa & Hl & H). apply lift_inv in Hl as [_ ->].
  apply bind_inv_Done in H as (man' & wa & Hl & H). apply lift_inv in Hl as [_ ->].
  apply bind_inv_Done in H as ([] & w5 & Hsave & H).
  apply bind_inv_Done in H as ([] & w6 & Hrm & H).
  rewrite !bind_print in H. injection H as <-. cbn [fs add_out].
  apply rmtree_inv in Hrm as [Hrm _].
  pose proof (for_each_mkdir_spec _ _ _ Hens) as (_ & _ & Hstd & _).
  split.
  - pose proof (staging_not_in_standard uuid []) as Hns.
    rewrite Forall_forall in Hns |- *. intros d Hd.
    apply (remove_is_dir _ _ _ d Hrm (Hns d Hd)).
    apply (write_file_is_dir _ _ _ _ d Hsave).
    apply (write_file_is_dir _ _ _ _ d Hdump). cbn [fs tick].
    apply (write_file_is_dir _ _ _ _ d Hcp).
    apply (mkdirs_is_dir _ _ _ d Hmk).
    apply (Hstd d). apply Exists_exists. eauto.
  - rewrite exists_get. pose proof (get_remove_below _ _ _ [] Hrm) as Hg.
    rewrite app_nil_r in Hg. by rewrite Hg.
Qed.

(** X20. A rejection is final: once [cmd_reject] has returned 0 for a
    staging id, rejecting or approving that id again returns 1 with the
    not-found line and changes nothing. *)
Theorem reject_is_final (args : RejectArgs.t) w w' :
  let uuid := RejectArgs.uuid args in
  let gone := add_out ("Error: Staging asset not found: " +:+ uuid) w' in
  is_file_name uuid = true →
  cmd_reject repr_container E args w = Done 0 w' →
  (∀ again, RejectArgs.uuid again = uuid → cmd_reject repr_container E again w' = Done 1 gone)
  ∧ (∀ after, ApproveArgs.uuid after = uuid → cmd_approve repr_container E after w' = Done 1 gone).
Proof.
  intros uuid gone _ H. apply cmd_reject_gone in H as [Hall Hgone].
  destruct (entry_not_found w' uuid Hall Hgone) as [Ha Hr]. by split.
Qed.

(** X21. An approval is final: once [cmd_approve] has returned 0 for a
    staging id, approving or rejecting that id again returns 1 with the
    not-found line and changes nothing. *)
Theorem approve_is_final (args : ApproveArgs.t) w w' :
  let uuid := ApproveArgs.uuid args in
  let gone := add_out ("Error: Staging asset not found: " +:+ uuid) w' in
  is_file_name uuid = true →
  cmd_approve repr_container E args w = Done 0 w' →
  (∀ again, ApproveArgs.uuid again = uuid → cmd_approve repr_container E again w' = Done 1 gone)
  ∧ (∀ after, RejectArgs.uuid after = uuid → cmd_reject repr_container E after w' = Done 1 gone).
Proof.
  intros uuid gone _ H. apply cmd_approve_gone in H as [Hall Hgone].
  destruct (entry_not_found w' uuid Hall Hgone) as [Ha Hr]. by split.
Qed.

(** X22. A staging entry with no metadata record is rejected all the
    same: it is moved to the alternatives as it is, the command returns 0,
    and the reason is printed but stored nowhere; the clock is not read. *)
Theorem reject_without_record (args : RejectArgs.t) w w1 x :
  let uuid := RejectArgs.uuid args in
  let reason_line :=
    match RejectArgs.reason args with
    | Some r => if truthy (JStr r) then ["Reason: " +:+ r] else []
    | None => []
    end in
  is_file_name uuid = true →
  ensure_directories w = Done tt w1 →
  FS.get (fs w) ["staging"; uuid] = Some x → FS.get x ["metadata.json"] = None →
  FS.exists_ (fs w) ["alternatives"; uuid] = false →
  ∃ w',
    cmd_reject repr_container E args w = Done 0 w'
    ∧ FS.exists_ (fs w') ["staging"; uuid] = false
    ∧ FS.get (fs w') ["alternatives"; uuid] = Some x
    ∧ out w' = out w ++ ("Rejected " +:+ uuid) :: reason_line
    ∧ clock w' = clock w.
Proof.
  intros uuid reason_line _ Hens Hx Hnometa Halt.
  pose proof (for_each_mkdir_spec _ _ _ Hens) as (Hw1 & Hframe & Hstd & _).
  set (SD := ["staging"; uuid]) in *. set (AD := ["alternatives"; uuid]) in *.
  assert (Hx1 : FS.get (fs w1) SD = Some x) by (rewrite Hframe; [done|apply staging_not_in_standard]).
  assert (Halt1 : FS.exists_ (fs w1) AD = false).
  { rewrite exists_get, Hframe by not_standard. by rewrite <- exists_get. }
  destruct (remove_Some (fs w1) SD) as [t1 Ht1]; [done|by rewrite Hx1|].
  assert (Haltdir : FS.is_dir t1 ["alternatives"] = true).
  { apply (remove_is_dir _ _ _ _ Ht1); [not_prefix|].
    apply (Hstd ["alternatives"]). unfold standard_dirs.
    repeat first [by apply Exists_cons_hd | apply Exists_cons_tl]. }
  destruct (put_Some t1 ["alternatives"] uuid x Haltdir) as [t2 Ht2].
  change (["alternatives"] ++ [uuid]) with AD in Ht2.
  assert (Hmove : move SD AD w1 = Done tt (set_fs t2 w1)) by (by apply (move_Done _ _ x _ t1)).
  assert (H2meta : FS.exists_ t2 (AD ++ ["metadata.json"]) = false).
  { by rewrite exists_get, (get_put_below _ _ _ _ _ Ht2), Hnometa. }
  exists (add_lines (("Rejected " +:+ uuid) :: reason_line) (set_fs t2 w1)).
  split; [|split; [|split; [|split]]].
  - unfold cmd_reject. fold uuid SD AD. rewrite (bind_Done _ _ _ _ _ Hens).
    rewrite bind_path_exists, exists_get, Hx1. cbn [negb].
    rewrite (bind_Done _ _ _ _ _ Hmove), bind_path_exists. cbn [fs set_fs].
    rewrite H2meta. cbn [when]. rewrite bind_ret, bind_print.
    unfold reason_line. destruct (RejectArgs.reason args) as [r|]; cbn [of_opt truthy py_str when].
    + destruct (negb (String.eqb r "")); cbn [when]; [rewrite bind_print|rewrite bind_ret];
        by rewrite !add_out_as_lines, ?add_lines_app.
    + by rewrite bind_ret, add_out_as_lines.
  - cbn [fs add_lines set_fs]. rewrite exists_get.
    rewrite (get_put_frame _ _ _ _ SD Ht2) by not_prefix.
    pose proof (get_remove_below _ _ _ [] Ht1) as Hg. rewrite app_nil_r in Hg. by rewrite Hg.
  - cbn [fs add_lines set_fs]. by apply get_put_eq in Ht2.
  - cbn [out add_lines set_fs]. by rewrite Hw1.
  - cbn [clock add_lines set_fs]. by rewrite Hw1.
Qed.

(** X23. Approving an entry that has its metadata record but no
    [sprite.png] raises [FileNotFoundError] for the image, after the
    destination directory was made: no regular file is created, changed or
    removed, so the manifest and the staging entry are as before, and
    nothing is printed. *)
Theorem approve_without_image (args : ApproveArgs.t) w w1 d c s n :
  let uuid := ApproveArgs.uuid args in
  is_file_name uuid = true →
  ensure_directories w = Done tt w1 →
  FS.get (fs w) ["staging"; uuid; "metadata.json"] = Some (File (Json (JDict d))) →
  FS.get (fs w) ["staging"; uuid; "sprite.png"] = None →
  resolved (ApproveArgs.category args) d "category" = JStr c → is_file_name c = true →
  resolved (ApproveArgs.name args) d "name" = JStr n → is_file_name n = true →
  match s with
  | Some s' =>
      resolved (ApproveArgs.subcategory args) d "subcategory" = JStr s'
      ∧ is_file_name s' = true
  | None => truthy (resolved (ApproveArgs.subcategory args) d "subcategory") = false
  end →
  FS.blocked (fs w) (dest_dir c s ++ [n +:+ ".png"]) = false →
  ∃ w2,
    cmd_approve repr_container E args w
      = Raised (FileNotFoundError ["staging"; uuid; "sprite.png"]) w2
    ∧ files_kept (fs w) (fs w2)
    ∧ FS.is_dir (fs w2) (dest_dir c s) = true
    ∧ out w2 = out w ∧ clock w2 = clock w.
Proof.
  intros uuid _ Hens Hmeta Hnoimg Hcat Hc Hname Hn Hsub Hfree.
  pose proof (ensure_directories_files _ _ Hens) as Hkept.
  pose proof (for_each_mkdir_spec _ _ _ Hens) as (Hw1 & Hframe & _ & _).
  assert (Hst : ∀ r, FS.get (fs w1) ("staging" :: uuid :: r) = FS.get (fs w) ("staging" :: uuid :: r)).
  { intros r. apply Hframe. apply staging_not_in_standard. }
  assert (Hs' : match s with
                | Some s' => resolved (ApproveArgs.subcategory args) d "subcategory" = JStr s' ∧ s' ≠ ""
                | None => truthy (resolved (ApproveArgs.subcategory args) d "subcategory") = false
                end).
  { destruct s as [s'|]; [|done]. destruct Hsub as [H1 H2]. split; [done|].
    by apply file_name_nonempty. }
  destruct (mkdirs_Some (fs w1) (dest_dir c s)) as [t2 Ht2].
  { intros q Hq. destruct Hkept as [Hk _].
    pose proof (blocked_snoc _ _ _ Hfree q Hq) as Hf. unfold FS.is_file in *.
    destruct (FS.get (fs w1) q) as [[c0|]|] eqn:Hg; try done.
    apply Hk in Hg. by rewrite Hg in Hf. }
  pose proof (mkdirs_files_kept _ _ _ Ht2) as Hkept2.
  set (src := ["staging"; uuid; "sprite.png"]).
  assert (H2src : FS.get t2 src = None).
  { pose proof (mkdirs_get _ _ _ src Ht2) as Hg.
    rewrite decide_False in Hg by (unfold dest_dir, src; not_prefix).
    rewrite Hg. unfold src. by rewrite Hst. }
  assert (H2meta : FS.get t2 ["staging"; uuid; "metadata.json"] = Some (File (Json (JDict d)))).
  { pose proof (mkdirs_get _ _ _ ["staging"; uuid; "metadata.json"] Ht2) as Hg.
    rewrite decide_False in Hg by (unfold dest_dir; not_prefix).
    rewrite Hg. by rewrite Hst. }
  exists (set_fs t2 w1). split; [|split; [|split; [|split]]].
  - unfold cmd_approve. fold uuid. rewrite (bind_Done _ _ _ _ _ Hens).
    rewrite bind_path_exists.
    assert (Hex1 : FS.exists_ (fs w1) ["staging"; uuid] = true).
    { rewrite exists_get, (Hst []).
      change ["staging"; uuid; "metadata.json"] with (["staging"; uuid] ++ ["metadata.json"]) in Hmeta.
      rewrite get_app in Hmeta. by destruct (FS.get (fs w) ["staging"; uuid]). }
    rewrite Hex1. cbn [negb]. rewrite bind_path_exists.
    change (["staging"; uuid] ++ ["metadata.json"]) with ["staging"; uuid; "metadata.json"].
    rewrite exists_get, Hst, Hmeta. cbn [negb].
    assert (Hload : load_json ["staging"; uuid; "metadata.json"] w1 = Done (JDict d) w1).
    { apply load_json_Done. by rewrite Hst. }
    rewrite (bind_Done _ _ _ _ _ Hload). rewrite !resolve_step. rewrite Hcat, Hname.
    rewrite !truthy_JStr by (by apply file_name_nonempty). cbn [negb orb segment].
    rewrite bind_lift_Ok. rewrite (dest_dir_step _ c s) by (by rewrite Hcat in * || exact Hs').
    rewrite (bind_Done _ _ _ _ _ (mkdir_parents_Done _ _ _ Ht2)).
    apply bind_Raised. unfold copy2. unfold bind at 1. unfold read_fs at 1. cbn [fs set_fs].
    change (Datatypes.app ["staging"; uuid] ["sprite.png"]) with src.
    rewrite (exists_get t2 src), H2src, andb_false_r.
    apply bind_Raised. unfold read_file, bind, read_fs. cbn [fs set_fs]. rewrite H2src.
    unfold unreachable. cbn [fs set_fs].
    assert (Hnb : FS.blocked t2 src = false)
      by exact (sibling_not_blocked t2 ["staging"; uuid] "metadata.json" "sprite.png" _ H2meta).
    by rewrite Hnb.
  - cbn [fs set_fs]. by apply (files_kept_trans _ (fs w1)).
  - cbn [fs set_fs]. pose proof (mkdirs_get _ _ _ (dest_dir c s) Ht2) as Hg.
    rewrite decide_True in Hg by done. destruct Hg as [ch Hg]. unfold FS.is_dir. by rewrite Hg.
  - cbn [out set_fs]. by rewrite Hw1.
  - cbn [clock set_fs]. by rewrite Hw1.
Qed.

End Review.

(** ** list *)

Lemma only_prints_refl w : only_prints w w.
Proof. split; [done|]. split; [done|]. exists []. by rewrite app_nil_r. Qed.

Lemma only_prints_trans w1 w2 w3 : only_prints w1 w2 → only_prints w2 w3 → only_prints w1 w3.
Proof.
  intros (H1 & (Ha & Hb & Hc) & [l1 Hl1]) (H2 & (Ha' & Hb' & Hc') & [l2 Hl2]).
  split; [congruence|]. split; [unfold same_counters; repeat split; congruence|].
  exists (l1 ++ l2). by rewrite Hl2, Hl1, app_assoc.
Qed.

Lemma quiet_ret {A} (a : A) : quiet (ret a).
Proof. intros w. split; [apply only_prints_refl|done]. Qed.

Lemma quiet_raise {A} e : quiet (@raise A e).
Proof. intros w. split; [apply only_prints_refl|done]. Qed.

Lemma quiet_bind {A B} (m : M A) (k : A → M B) :
  quiet m → (∀ a, quiet (k a)) → quiet (bind m k).
Proof.
  intros Hm Hk w. destruct (Hm w) as [H1 H2]. unfold bind.
  destruct (m w) as [a w1|e w1|c w1] eqn:Hmw; cbn [world_of] in *.
  - destruct (Hk a w1) as [H3 H4]. split; [by eapply only_prints_trans|done].
  - done.
  - by destruct (H2 c w1).
Qed.

Lemma quiet_print l : quiet (print l).
Proof.
  intros w. split; [|done]. cbn. split; [done|]. split; [done|]. by exists [l].
Qed.

Lemma quiet_lift {A} (r : Result A) : quiet (lift r).
Proof. destruct r; [apply quiet_ret|apply quiet_raise]. Qed.

Lemma quiet_read_fs : quiet read_fs.
Proof. intros w. split; [apply only_prints_refl|done]. Qed.

Lemma quiet_path_exists p : quiet (path_exists p).
Proof. apply quiet_bind; [apply quiet_read_fs|]. intros t. apply quiet_ret. Qed.

Lemma quiet_load_json p : quiet (load_json p).
Proof.
  intros w. destruct (load_json_any p w) as [[j ->]|[e ->]];
    (split; [apply only_prints_refl|done]).
Qed.

Lemma quiet_load_manifest : quiet load_manifest.
Proof.
  apply quiet_bind; [apply quiet_path_exists|]. intros [|]; [apply quiet_load_json|apply quiet_ret].
Qed.

Lemma quiet_iterdir p : quiet (iterdir p).
Proof.
  apply quiet_bind; [apply quiet_read_fs|]. intros t.
  destruct (FS.get t p) as [[c|ch]|]; first [apply quiet_ret | apply quiet_raise].
Qed.

Lemma quiet_when b m : quiet m → quiet (when b m).
Proof. destruct b; [done|]. intros _. apply quiet_ret. Qed.

Lemma quiet_for_each {A} (l : list A) f : (∀ x, quiet (f x)) → quiet (for_each l f).
Proof.
  intros Hf. induction l as [|x l IH]; [apply quiet_ret|].
  simpl. apply quiet_bind; [apply Hf|]. intros _. exact IH.
Qed.

Lemma returns_zero_ret : returns_zero (ret 0).
Proof. by intros w c w' [= <- _]. Qed.

Lemma returns_zero_bind {A} (m : M A) k : (∀ a, returns_zero (k a)) → returns_zero (bind m k).
Proof.
  intros Hk w c w' H. apply bind_inv_Done in H as (a & w1 & _ & H). by apply (Hk a w1 c w').
Qed.

Ltac quiet_steps :=
  repeat first
    [ apply quiet_ret | apply quiet_print | apply quiet_lift | apply quiet_path_exists
    | apply quiet_load_json | apply quiet_load_manifest | apply quiet_iterdir
    | apply quiet_read_fs
    | apply quiet_when
    | apply quiet_for_each; intros ?
    | apply quiet_bind; [|intros ?]
    | match goal with |- quiet (if ?b then _ else _) => destruct b end
    | match goal with |- quiet (let '(_, _) := ?p in _) => destruct p end ].

Ltac zero_steps :=
  repeat first
    [ apply returns_zero_ret
    | apply returns_zero_bind; intros ?
    | match goal with |- returns_zero (if ?b then _ else _) => destruct b end ].

Section ListReadsOnly.

Variable repr_container : json → string.
Variable dict_slice_error : exn.

Lemma quiet_list_staging_item name :
  quiet (list_staging_item repr_container dict_slice_error name).
Proof. unfold list_staging_item. quiet_steps. Qed.

Lemma quiet_list_alternatives_item name :
  quiet (list_alternatives_item repr_container name).
Proof. unfold list_alternatives_item. quiet_steps. Qed.

Lemma quiet_list_used_item entry : quiet (list_used_item repr_container entry).
Proof. unfold list_used_item. destruct entry. quiet_steps. Qed.

(** X24. [cmd_list] reads and prints: whatever the status asked for and
    however the run ends, the tree is the one [ensure_directories] leaves,
    so no regular file is created, changed or removed; no request is made,
    no id drawn, the clock not read; the command never exits, and returns
    0 whenever it returns. *)
Theorem list_reads_only (args : ListArgs.t) w :
  let r := cmd_list repr_container dict_slice_error args w in
  files_kept (fs w) (fs (world_of r))
  ∧ same_counters w (world_of r)
  ∧ (∀ w1, ensure_directories w = Done tt w1 → fs (world_of r) = fs w1)
  ∧ (∀ c w', r = Done c w' → c = 0)
  ∧ (∀ c w', r ≠ Exited c w').
Proof.
  intros r. subst r. unfold cmd_list.
  match goal with
  | |- context [bind ensure_directories ?k] => set (rest := k)
  end.
  assert (Hq : quiet (rest tt)).
  { unfold rest. quiet_steps; first [apply quiet_list_staging_item
      | apply quiet_list_used_item | apply quiet_list_alternatives_item]. }
  assert (Hz : returns_zero (rest tt)).
  { unfold rest. zero_steps. }
  destruct (for_each_mkdir_any standard_dirs w) as (Hk & Hw & Hex).
  fold ensure_directories in Hk, Hw, Hex. unfold bind.
  destruct (ensure_directories w) as [[] w1|e w1|c w1] eqn:Hens; cbn [world_of] in *.
  - destruct (Hq w1) as ((Hfs & Hcnt & _) & Hne).
    split; [by rewrite Hfs|]. split.
    { assert (H0 : same_counters w w1) by (rewrite Hw; done).
      unfold same_counters in *. destruct H0 as (? & ? & ?), Hcnt as (? & ? & ?).
      split; [|split]; congruence. }
    split; [by intros w2 [= <-]|]. split; [apply Hz|done].
  - split; [done|]. split; [by rewrite Hw|]. done.
  - by destruct (Hex c w1).
Qed.

End ListReadsOnly.

Lemma for_each_lines {A} (l : list A) (f : A → M unit) (g : A → list string)
    (P : World → Prop) w :
  (∀ x w, x ∈ l → P w → f x w = Done tt (add_lines (g x) w)) →
  (∀ ls w, P w → P (add_lines ls w)) → P w →
  for_each l f w = Done tt (add_lines (flat_map g l) w).
Proof.
  revert w. induction l as [|x l IH]; intros w Hf HP Hw; simpl.
  - by rewrite add_lines_nil.
  - rewrite (bind_Done _ _ _ _ _ (Hf x w ltac:(apply elem_of_cons; by left) Hw)).
    rewrite IH.
    + by rewrite add_lines_app.
    + intros y w0 Hy. apply Hf. apply elem_of_cons. by right.
    + done.
    + by apply HP.
Qed.

#[local] Instance name_le_total : Total name_le.
Proof.
  intros a b. unfold name_le. destruct (String.leb_total a b) as [-> | ->]; [by left|by right].
Qed.

#[local] Instance key_le_total : Total key_le.
Proof.
  intros a b. unfold key_le. destruct (String.leb_total a.1 b.1) as [-> | ->]; [by left|by right].
Qed.

Lemma sorted_names_spec l : sorted_names l ≡ₚ l ∧ Sorted name_le (sorted_names l).
Proof.
  split; [apply merge_sort_Permutation|]. apply (Sorted_merge_sort name_le).
Qed.

Lemma sorted_items_spec l : sorted_items l ≡ₚ l ∧ Sorted key_le (sorted_items l).
Proof.
  split; [apply merge_sort_Permutation|]. apply (Sorted_merge_sort key_le).
Qed.

Lemma truthy_dict (d : gmap string json) : truthy (JDict d) = bool_decide (d ≠ ∅).
Proof.
  simpl. destruct (map_to_list d) eqn:Hl.
  - apply map_to_list_empty_iff in Hl as ->. by rewrite bool_decide_eq_false_2 by (by intros H).
  - rewrite bool_decide_eq_true_2; [done|]. intros ->. by rewrite map_to_list_empty in Hl.
Qed.

Section ListUsed.

Variable repr_container : json → string.
Variable dict_slice_error : exn.

Lemma list_used_item_lines k (info : gmap string json) w :
  list_used_item repr_container (k, JDict info) w
  = Done tt (add_lines (used_block repr_container (k, JDict info)) w).
Proof.
  unfold list_used_item, used_block. cbn [fst snd dict_get].
  rewrite !bind_print, !bind_lift_Ok, !bind_print, !bind_lift_Ok, !bind_print.
  rewrite !bind_lift_Ok, !bind_print. unfold print.
  by rewrite !add_out_as_lines, !add_lines_app.
Qed.

(** X25. The listing of used assets shows the entries of the manifest whose
    key starts with the category given (all of them when none is given),
    each once, in ascending order of their keys, with their path, size and
    frame count, under a header that counts them; when there is none to
    show it prints the no-assets line.  The category filter is a prefix
    test on the key. *)
Theorem listing_of_used (args : ListArgs.t) w w1 (m a : gmap string json) :
  let shown := shown_assets (ListArgs.category args) a in
  ListArgs.status args = "used" →
  ensure_directories w = Done tt w1 →
  manifest_doc (fs w) = Some (JDict m) →
  default (JDict ∅) (m !! "assets") = JDict a →
  map_Forall (λ _ info, is_dict info = true) shown →
  ∃ w' items,
    cmd_list repr_container dict_slice_error args w = Done 0 w'
    ∧ fs w' = fs w1
    ∧ items ≡ₚ map_to_list shown
    ∧ Sorted key_le items
    ∧ out w' = out w ++
        (if decide (shown = ∅) then [no_used_line (ListArgs.category args)]
         else ("Used assets (" +:+ str_of_Z (Z.of_nat (size shown)) +:+ "):" +:+ nl)
                :: flat_map (used_block repr_container) items).
Proof.
  intros shown Hstatus Hens Hdoc Ha Hdicts.
  pose proof (for_each_mkdir_spec _ _ _ Hens) as (Hw1 & Hframe & _ & _).
  assert (Hdoc1 : manifest_doc (fs w1) = Some (JDict m)).
  { unfold manifest_doc in *. rewrite Hframe by not_standard. done. }
  assert (Hout : out w1 = out w) by (by rewrite Hw1).
  destruct (sorted_items_spec (map_to_list shown)) as [Hperm Hsorted].
  set (items := sorted_items (map_to_list shown)) in *.
  assert (Hfilter :
    (assets <- (if truthy (of_opt (ListArgs.category args)) then
                  items0 <- lift (dict_items (JDict a));;
                  ret (JDict (filter (λ kv, Is_true (String.prefix
                         (py_str repr_container (of_opt (ListArgs.category args))) kv.1)) items0))
                else ret (JDict a));;
     ret assets) w1 = Done (JDict shown) w1).
  { unfold shown, shown_assets. destruct (ListArgs.category args) as [c|]; cbn [of_opt]; [|done].
    destruct (truthy (JStr c)); [|done]. reflexivity. }
  assert (Hrun : ∀ w',
    w' = (if decide (shown = ∅) then add_out (no_used_line (ListArgs.category args)) w1
          else add_lines (flat_map (used_block repr_container) items)
                 (add_out ("Used assets (" +:+ str_of_Z (Z.of_nat (size shown)) +:+ "):" +:+ nl) w1)) →
    cmd_list repr_container dict_slice_error args w = Done 0 w').
  { intros w' ->. unfold cmd_list. rewrite (bind_Done _ _ _ _ _ Hens), Hstatus.
    cbn [String.eqb Ascii.eqb Bool.eqb andb].
    rewrite (bind_Done _ _ _ _ _ (load_manifest_Done _ _ Hdoc1)).
    cbn [dict_get_default]. rewrite Ha, bind_lift_Ok.
    apply bind_inv_Done in Hfilter as (assets & wf & Hf & Hr). injection Hr as -> ->.
    rewrite (bind_Done _ _ _ _ _ Hf). rewrite truthy_dict.
    destruct (decide (shown = ∅)) as [Hempty|Hne].
    - rewrite bool_decide_eq_false_2 by (by intros H). cbn [negb]. rewrite bind_print.
      unfold no_used_line. destruct (ListArgs.category args) as [c|]; cbn [of_opt py_str truthy]; done.
    - rewrite bool_decide_eq_true_2 by done. cbn [negb py_len dict_items].
      rewrite bind_lift_Ok, bind_print, bind_lift_Ok. fold items.
      assert (Hloop : ∀ w0, for_each items (list_used_item repr_container) w0
                            = Done tt (add_lines (flat_map (used_block repr_container) items) w0)).
      { intros w0. apply (for_each_lines items _ _ (λ _, True)); try done.
        intros [k info] w2 Hin _.
        assert (Hd : is_dict info = true).
        { apply (Hdicts k). apply elem_of_map_to_list. by rewrite <- Hperm. }
        destruct info; try done. apply list_used_item_lines. }
      by rewrite (bind_Done _ _ _ _ _ (Hloop _)). }
  eexists _, items. split; [by apply Hrun|].
  split; [by destruct (decide (shown = ∅))|]. split; [done|]. split; [done|].
  destruct (decide (shown = ∅)); cbn [out add_out add_lines]; rewrite Hout.
  - done.
  - by rewrite <- app_assoc.
Qed.

End ListUsed.

(** A directory that is there stays as it is when directories beside it
    are made. *)
Lemma for_each_mkdir_keeps dirs w w1 q ch :
  for_each dirs mkdir_parents w = Done tt w1 →
  FS.get (fs w) q = Some (Dir ch) →
  Forall (λ d, d = q ∨ ¬ q `prefix_of` d) dirs →
  FS.get (fs w1) q = Some (Dir ch).
Proof.
  revert w. induction dirs as [|d dirs IH]; intros w H Hq Hall; simpl in H.
  - by injection H as <-.
  - apply Forall_cons in Hall as [Hd Hall].
    apply bind_inv_Done in H as ([] & w2 & Hm & H). apply mkdir_parents_inv in Hm as [Hm _].
    apply (IH w2 H); [|done]. destruct Hd as [-> | Hd].
    + rewrite (mkdirs_id (fs w) q) in Hm by (unfold FS.is_dir; by rewrite Hq).
      injection Hm as <-. done.
    + pose proof (mkdirs_get _ _ _ q Hm) as Hg. rewrite decide_False in Hg by done. by rewrite Hg.
Qed.

Lemma entries_empty {A} (ch : gmap string A) : (map_to_list ch).*1 = [] ↔ ch = ∅.
Proof.
  rewrite <- map_to_list_empty_iff. destruct (map_to_list ch); [done|]. by split.
Qed.

Lemma entry_lookup {A} (ch : gmap string A) name :
  name ∈ (map_to_list ch).*1 → ∃ n, ch !! name = Some n.
Proof.
  intros H. apply list_elem_of_fmap in H as ([k n] & -> & H).
  exists n. by apply elem_of_map_to_list.
Qed.

Section ListEntries.

Variable repr_container : json → string.
Variable dict_slice_error : exn.

Lemma entry_record (t : node) (dir : path) name (e : gmap string node) :
  FS.get t (dir ++ [name]) = Some (Dir e) →
  FS.get t ((dir ++ [name]) ++ ["metadata.json"]) = e !! "metadata.json".
Proof. intros H. rewrite get_app, H. simpl. by destruct (e !! "metadata.json"). Qed.

Lemma list_staging_item_lines ch name n w :
  FS.get (fs w) ["staging"] = Some (Dir ch) → ch !! name = Some n → listable n = true →
  list_staging_item repr_container dict_slice_error name w
  = Done tt (add_lines (staging_block repr_container ch name) w).
Proof.
  intros Hst Hn Hl. unfold list_staging_item, staging_block. rewrite Hn.
  unfold bind at 1. unfold read_fs at 1.
  assert (Hitem : FS.get (fs w) (["staging"] ++ [name]) = Some n).
  { rewrite get_app, Hst. simpl. by rewrite Hn. }
  change ["staging"; name] with (["staging"] ++ [name]).
  unfold FS.is_dir. rewrite Hitem.
  destruct n as [c|e]; cbn [when]; [by rewrite add_lines_nil|].
  pose proof (entry_record _ _ _ _ Hitem) as Hmeta.
  rewrite bind_path_exists, exists_get, Hmeta. unfold listable in Hl.
  destruct (e !! "metadata.json") as [m|] eqn:He; cbn [when]; [|by rewrite add_lines_nil].
  destruct m as [[b|j]|e']; try done. destruct j as [| | | | |d]; try done.
  rewrite (bind_Done _ _ _ _ _ (load_json_Done _ _ _ Hmeta)).
  cbn [dict_get dict_get_default]. rewrite !bind_print, !bind_lift_Ok, !bind_print.
  rewrite !bind_lift_Ok, !bind_print, !bind_lift_Ok. unfold prompt_shown.
  destruct (default (JStr "") (d !! "prompt")) as [| | |s|l|]; try done;
    cbn [py_slice py_str]; rewrite bind_lift_Ok, bind_print; unfold print;
    by rewrite !add_out_as_lines, !add_lines_app.
Qed.

Lemma list_alternatives_item_lines ch name n w :
  FS.get (fs w) ["alternatives"] = Some (Dir ch) → ch !! name = Some n → recorded n = true →
  list_alternatives_item repr_container name w
  = Done tt (add_lines (alternatives_block repr_container ch name) w).
Proof.
  intros Hst Hn Hl. unfold list_alternatives_item, alternatives_block. rewrite Hn.
  unfold bind at 1. unfold read_fs at 1.
  assert (Hitem : FS.get (fs w) (["alternatives"] ++ [name]) = Some n).
  { rewrite get_app, Hst. simpl. by rewrite Hn. }
  change ["alternatives"; name] with (["alternatives"] ++ [name]).
  unfold FS.is_dir. rewrite Hitem.
  destruct n as [c|e]; cbn [when]; [by rewrite add_lines_nil|].
  pose proof (entry_record _ _ _ _ Hitem) as Hmeta.
  rewrite bind_path_exists, exists_get, Hmeta. unfold recorded in Hl.
  destruct (e !! "metadata.json") as [m|] eqn:He; cbn [when]; [|by rewrite add_lines_nil].
  destruct m as [[b|j]|e']; try done. destruct j as [| | | | |d]; try done.
  rewrite (bind_Done _ _ _ _ _ (load_json_Done _ _ _ Hmeta)).
  cbn [dict_get dict_get_default]. rewrite !bind_print, !bind_lift_Ok, !bind_print.
  rewrite !bind_lift_Ok, !bind_print. unfold print.
  by rewrite !add_out_as_lines, !add_lines_app.
Qed.

Lemma standard_keeps (q : path) :
  q ∈ standard_dirs → Forall (λ d, d = q ∨ ¬ q `prefix_of` d) standard_dirs.
Proof.
  unfold standard_dirs. intros H.
  repeat (apply elem_of_cons in H as [->|H];
          [repeat first [apply Forall_nil_2 | apply Forall_cons_2];
             first [by left | right; not_prefix]|]).
  by apply elem_of_nil in H.
Qed.

(** X26. The listing of the staging directory counts every entry of the
    directory in its header, and shows, in ascending order of their names,
    those entries that are directories with a metadata record: name,
    category, name of the asset and the first 50 characters of the prompt.
    Files and directories without a record are counted and not shown.  An
    empty directory gives the no-assets line. *)
Theorem listing_of_staging (args : ListArgs.t) w w1 ch :
  ListArgs.status args = "staging" →
  ensure_directories w = Done tt w1 →
  FS.get (fs w) ["staging"] = Some (Dir ch) →
  map_Forall (λ _ n, listable n = true) ch →
  ∃ w' names,
    cmd_list repr_container dict_slice_error args w = Done 0 w'
    ∧ fs w' = fs w1
    ∧ names ≡ₚ (map_to_list ch).*1
    ∧ Sorted name_le names
    ∧ out w' = out w ++
        (if decide (ch = ∅) then ["No staging assets."]
         else ("Staging assets (" +:+ str_of_Z (Z.of_nat (size ch)) +:+ "):" +:+ nl)
                :: flat_map (staging_block repr_container ch) names).
Proof.
  intros Hstatus Hens Hst Hok.
  pose proof (for_each_mkdir_spec _ _ _ Hens) as (Hw1 & _).
  assert (Hst1 : FS.get (fs w1) ["staging"] = Some (Dir ch)).
  { apply (for_each_mkdir_keeps _ _ _ _ _ Hens Hst). apply standard_keeps.
    unfold standard_dirs. apply elem_of_cons. by left. }
  assert (Hout : out w1 = out w) by (by rewrite Hw1).
  destruct (sorted_names_spec (map_to_list ch).*1) as [Hperm Hsorted].
  set (names := sorted_names (map_to_list ch).*1) in *.
  assert (Hiter : iterdir ["staging"] w1 = Done (map_to_list ch).*1 w1).
  { unfold iterdir, bind, read_fs. by rewrite Hst1. }
  assert (Hloop : ∀ w0, fs w0 = fs w1 →
            for_each names (list_staging_item repr_container dict_slice_error) w0
            = Done tt (add_lines (flat_map (staging_block repr_container ch) names) w0)).
  { intros w0 Hw0. apply (for_each_lines names _ _ (λ w, fs w = fs w1)); try done.
    intros name w2 Hin Hw2. rewrite Hperm in Hin. apply entry_lookup in Hin as [n Hn].
    apply (list_staging_item_lines ch name n); [by rewrite Hw2|done|by apply (Hok name)]. }
  assert (Hrun : ∀ w',
    w' = (if decide (ch = ∅) then add_out "No staging assets." w1
          else add_lines (flat_map (staging_block repr_container ch) names)
                 (add_out ("Staging assets (" +:+ str_of_Z (Z.of_nat (size ch)) +:+ "):" +:+ nl) w1)) →
    cmd_list repr_container dict_slice_error args w = Done 0 w').
  { intros w' ->. unfold cmd_list. rewrite (bind_Done _ _ _ _ _ Hens), Hstatus.
    cbn [String.eqb Ascii.eqb Bool.eqb andb].
    rewrite bind_path_exists, exists_get, Hst1. cbn [negb].
    rewrite (bind_Done _ _ _ _ _ Hiter).
    destruct (decide (ch = ∅)) as [Hempty|Hne].
    - rewrite bool_decide_eq_true_2 by (by apply entries_empty). by rewrite bind_print.
    - rewrite bool_decide_eq_false_2 by (by rewrite entries_empty).
      rewrite bind_print, length_fmap, length_map_to_list. fold names.
      by rewrite (bind_Done _ _ _ _ _ (Hloop (add_out _ w1) eq_refl)). }
  eexists _, names. split; [by apply Hrun|].
  split; [by destruct (decide (ch = ∅))|]. split; [done|]. split; [done|].
  destruct (decide (ch = ∅)); cbn [out add_out add_lines]; rewrite Hout.
  - done.
  - by rewrite <- app_assoc.
Qed.

(** X27. The listing of the alternatives does the same for the
    alternatives directory, showing for each entry with a metadata record
    its name, the category and name it had, and the rejection reason, or
    ["N/A"] when the record holds none. *)
Theorem listing_of_alternatives (args : ListArgs.t) w w1 ch :
  ListArgs.status args = "alternatives" →
  ensure_directories w = Done tt w1 →
  FS.get (fs w) ["alternatives"] = Some (Dir ch) →
  map_Forall (λ _ n, recorded n = true) ch →
  ∃ w' names,
    cmd_list repr_container dict_slice_error args w = Done 0 w'
    ∧ fs w' = fs w1
    ∧ names ≡ₚ (map_to_list ch).*1
    ∧ Sorted name_le names
    ∧ out w' = out w ++
        (if decide (ch = ∅) then ["No alternative assets."]
         else ("Alternative assets (" +:+ str_of_Z (Z.of_nat (size ch)) +:+ "):" +:+ nl)
                :: flat_map (alternatives_block repr_container ch) names).
Proof.
  intros Hstatus Hens Hst Hok.
  pose proof (for_each_mkdir_spec _ _ _ Hens) as (Hw1 & _).
  assert (Hst1 : FS.get (fs w1) ["alternatives"] = Some (Dir ch)).
  { apply (for_each_mkdir_keeps _ _ _ _ _ Hens Hst). apply standard_keeps.
    unfold standard_dirs. repeat (apply elem_of_cons; first [by left | right]). }
  assert (Hout : out w1 = out w) by (by rewrite Hw1).
  destruct (sorted_names_spec (map_to_list ch).*1) as [Hperm Hsorted].
  set (names := sorted_names (map_to_list ch).*1) in *.
  assert (Hiter : iterdir ["alternatives"] w1 = Done (map_to_list ch).*1 w1).
  { unfold iterdir, bind, read_fs. by rewrite Hst1. }
  assert (Hloop : ∀ w0, fs w0 = fs w1 →
            for_each names (list_alternatives_item repr_container) w0
            = Done tt (add_lines (flat_map (alternatives_block repr_container ch) names) w0)).
  { intros w0 Hw0. apply (for_each_lines names _ _ (λ w, fs w = fs w1)); try done.
    intros name w2 Hin Hw2. rewrite Hperm in Hin. apply entry_lookup in Hin as [n Hn].
    apply (list_alternatives_item_lines ch name n); [by rewrite Hw2|done|by apply (Hok name)]. }
  assert (Hrun : ∀ w',
    w' = (if decide (ch = ∅) then add_out "No alternative assets." w1
          else add_lines (flat_map (alternatives_block repr_container ch) names)
                 (add_out ("Alternative assets (" +:+ str_of_Z (Z.of_nat (size ch)) +:+ "):" +:+ nl) w1)) →
    cmd_list repr_container dict_slice_error args w = Done 0 w').
  { intros w' ->. unfold cmd_list. rewrite (bind_Done _ _ _ _ _ Hens), Hstatus.
    cbn [String.eqb Ascii.eqb Bool.eqb andb].
    rewrite bind_path_exists, exists_get, Hst1. cbn [negb].
    rewrite (bind_Done _ _ _ _ _ Hiter).
    destruct (decide (ch = ∅)) as [Hempty|Hne].
    - rewrite bool_decide_eq_true_2 by (by apply entries_empty). by rewrite bind_print.
    - rewrite bool_decide_eq_false_2 by (by rewrite entries_empty).
      rewrite bind_print, length_fmap, length_map_to_list. fold names.
      by rewrite (bind_Done _ _ _ _ _ (Hloop (add_out _ w1) eq_refl)). }
  eexists _, names. split; [by apply Hrun|].
  split; [by destruct (decide (ch = ∅))|]. split; [done|]. split; [done|].
  destruct (decide (ch = ∅)); cbn [out add_out add_lines]; rewrite Hout.
  - done.
  - by rewrite <- app_assoc.
Qed.

End ListEntries.

(** ** The [.env] file *)

Lemma append_nil_l (b : string) : "" +:+ b = b.
Proof. done. Qed.

Lemma append_nil_r (a : string) : a +:+ "" = a.
Proof. induction a as [|c a IH]; [done|]. by rewrite append_cons, IH. Qed.

Lemma lstrip_append f a b :
  lstrip f (a +:+ b) = match lstrip f a with EmptyString => lstrip f b | r => r +:+ b end.
Proof.
  induction a as [|c a IH]; [done|]. rewrite append_cons. cbn [lstrip].
  destruct (f c); [exact IH|]. by rewrite append_cons.
Qed.

Lemma rstrip_append f a b :
  rstrip f (a +:+ b) = match rstrip f b with EmptyString => rstrip f a | r => a +:+ r end.
Proof.
  induction a as [|c a IH].
  - rewrite append_nil_l. by destruct (rstrip f b).
  - rewrite append_cons. cbn [rstrip]. rewrite IH.
    destruct (rstrip f b) as [|c' r] eqn:Hb; [done|].
    rewrite append_cons. destruct a; done.
Qed.

Lemma prefix_append a b : String.prefix a (a +:+ b) = true.
Proof.
  induction a as [|c a IH]; [by destruct b|]. rewrite append_cons. simpl.
  by destruct (ascii_dec c c).
Qed.

Lemma prefix_inv a s : String.prefix a s = true → ∃ b, s = a +:+ b.
Proof.
  revert s. induction a as [|c a IH]; intros s H; [by exists s|].
  destruct s as [|c' s]; [done|]. simpl in H.
  destruct (ascii_dec c c') as [->|]; [|done].
  destruct (IH s H) as [b ->]. exists b. by rewrite append_cons.
Qed.

Lemma after_eq_gemini v : after_eq ("GEMINI_API_KEY=" +:+ v) = Ok v.
Proof. by rewrite !append_cons, append_nil_l. Qed.

Lemma after_eq_spritegen v : after_eq ("SPRITEGEN_API_KEY=" +:+ v) = Ok v.
Proof. by rewrite !append_cons, append_nil_l. Qed.

(** The value of a line that names a key. *)
Lemma names_key_value line :
  names_key line = true →
  ∃ v, (strip is_space line = "GEMINI_API_KEY=" +:+ v
        ∨ strip is_space line = "SPRITEGEN_API_KEY=" +:+ v)
       ∧ after_eq (strip is_space line) = Ok v.
Proof.
  unfold names_key. intros H. apply orb_true_iff in H as [H|H];
    apply prefix_inv in H as [v Hv]; exists v; rewrite Hv.
  - split; [by left|apply after_eq_gemini].
  - split; [by right|apply after_eq_spritegen].
Qed.

(** X28. The scan of the [.env] file never fails, and takes the key from
    the first line that names one, whatever follows: a line that, stripped
    of white space, is [GEMINI_API_KEY=v] or [SPRITEGEN_API_KEY=v] gives
    [v] stripped of quotes at both ends, even when that is empty and a
    later line holds a key; with no such line there is no key. *)
Theorem dotenv_first_match (lines : list string) :
  (∃ r, scan_env lines = Ok r)
  ∧ (Forall (λ l, names_key l = false) lines → scan_env lines = Ok None)
  ∧ (∀ pre l post v,
       lines = pre ++ l :: post →
       Forall (λ l, names_key l = false) pre →
       strip is_space l = "GEMINI_API_KEY=" +:+ v
         ∨ strip is_space l = "SPRITEGEN_API_KEY=" +:+ v →
       scan_env lines = Ok (Some (strip is_quote v))).
Proof.
  assert (Hskip : ∀ pre rest, Forall (λ l, names_key l = false) pre →
                              scan_env (pre ++ rest) = scan_env rest).
  { intros pre rest Hpre. induction Hpre as [|l pre Hl _ IH]; [done|].
    cbn [app scan_env]. unfold names_key in Hl. by rewrite Hl. }
  split; [|split].
  - induction lines as [|l lines IH]; [by eexists|]. cbn [scan_env].
    destruct (String.prefix _ _ || String.prefix _ _) eqn:Hk; [|exact IH].
    destruct (names_key_value l Hk) as (v & _ & ->). by eexists.
  - intros Hall. rewrite <- (app_nil_r lines). by rewrite Hskip.
  - intros pre l post v -> Hpre Hl. rewrite Hskip by done. cbn [scan_env].
    destruct Hl as [Hl|Hl]; rewrite Hl.
    + by rewrite prefix_append, after_eq_gemini.
    + by rewrite prefix_append, orb_true_r, after_eq_spritegen.
Qed.

Lemma rstrip_append_id f a b : rstrip f a = a → rstrip f b = b → rstrip f (a +:+ b) = a +:+ b.
Proof.
  intros Ha Hb. rewrite rstrip_append, Hb. destruct b; [|done]. by rewrite append_nil_r.
Qed.

Lemma lstrip_first f a b : a ≠ "" → lstrip f a = a → lstrip f (a +:+ b) = a +:+ b.
Proof. intros Hne Ha. rewrite lstrip_append, Ha. by destruct a. Qed.

Section EnvFile.

Variable E : Env.

(** X29. A line [KEY=value], with the value bare or between quotes of
    either kind, gives the value back, provided the value itself neither
    begins nor ends with white space or a quote; with no key in the
    environment, [get_api_client] then finds the key exactly when the
    value is not empty. *)
Theorem dotenv_round_trip key q k rest w :
  key = "GEMINI_API_KEY" ∨ key = "SPRITEGEN_API_KEY" →
  q = "" ∨ q = double_quote ∨ q = single_quote →
  unstripped is_space k → unstripped is_quote k →
  scan_env (env_line key q k :: rest) = Ok (Some k)
  ∧ (environ E !! "GEMINI_API_KEY" = None → environ E !! "SPRITEGEN_API_KEY" = None →
     dotenv_key E = Some k →
     get_api_client E w = if String.eqb k "" then Exited 1 (add_out key_error w) else Done tt w).
Proof.
  intros Hkey Hq [Hsl Hsr] [Hql Hqr].
  set (body := q +:+ (k +:+ q)).
  assert (Hq_space : rstrip is_space q = q) by (by destruct Hq as [->|[->| ->]]).
  assert (Hq_quote : lstrip is_quote q = "" ∧ rstrip is_quote q = "")
    by (by destruct Hq as [->|[->| ->]]).
  assert (Hbody : rstrip is_space body = body).
  { unfold body. apply rstrip_append_id; [done|]. by apply rstrip_append_id. }
  assert (Hkeyeq : rstrip is_space (key +:+ "=") = key +:+ "=") by (by destruct Hkey as [-> | ->]).
  assert (Hline : strip is_space (env_line key q k) = (key +:+ "=") +:+ body).
  { unfold strip, env_line. fold body. rewrite <- append_assoc.
    rewrite (lstrip_first _ ((key +:+ "=") +:+ body)).
    - rewrite rstrip_append. change (rstrip is_space nl) with "".
      by apply rstrip_append_id.
    - by destruct Hkey as [-> | ->].
    - rewrite lstrip_first; [done| |]; by destruct Hkey as [-> | ->]. }
  assert (Hvalue : strip is_quote body = k).
  { unfold strip, body. destruct Hq_quote as [H1 H2].
    rewrite lstrip_append, H1, lstrip_append, Hql.
    destruct k as [|c k']; [by rewrite H1|].
    by rewrite rstrip_append, H2. }
  split.
  - cbn [scan_env]. rewrite Hline.
    destruct Hkey as [-> | ->]; change ("GEMINI_API_KEY" +:+ "=") with "GEMINI_API_KEY=";
      change ("SPRITEGEN_API_KEY" +:+ "=") with "SPRITEGEN_API_KEY=".
    + by rewrite prefix_append, after_eq_gemini, Hvalue.
    + by rewrite prefix_append, orb_true_r, after_eq_spritegen, Hvalue.
  - intros Hg Hs Hdot. rewrite get_api_client_spec. unfold api_key_found.
    rewrite Hg, Hs, Hdot. cbn [of_opt truthy orb]. by destruct (String.eqb k "").
Qed.

End EnvFile.

(** ** The names of unnamed batch items *)




(** * The statements on the sample inputs *)

(** C3 on [("enemy", "minor", "slime")]. *)
Lemma key_derivation_witness :
  Some "minor" ≠ Some ""
  ∧ generate_key no_containers
      (GenArgs.mk "enemy" (Some "minor") "slime" "" None 1 None "direct" false)
    = "enemy.minor.slime"
  ∧ asset_key no_containers (JStr "enemy") (JStr "minor") (JStr "slime") = "enemy.minor.slime".
Proof.
  assert (H : Some "minor" ≠ Some "") by discriminate.
  split; [exact H|].
  destruct (key_derivation no_containers "enemy" (Some "minor") "slime" H) as (H1 & H2 & _).
  split; [exact H1|exact H2].
Defined.

(** C4 on four frames of size 64, and on a single frame. *)
Lemma prompt_composition_witness :
  (∃ p, build_prompt "standing hero" "player" 64 4 (Some "zeus") JNull = Ok p
        ∧ contains "total image size 256x64 pixels" p = true
        ∧ contains "each frame 64x64 pixels" p = true)
  ∧ size_clause 64 1 = "single sprite, 64x64 pixels".
Proof.
  destruct (prompt_composition "standing hero" "player" 64 4 (Some "zeus") JNull
              DEFAULT_STYLE_PROMPT DEFAULT_AESTHETIC) as (H1 & _ & _);
    [lia|lia|reflexivity|reflexivity|].
  destruct (prompt_composition "standing hero" "player" 64 1 None JNull
              DEFAULT_STYLE_PROMPT DEFAULT_AESTHETIC) as (_ & _ & H2);
    [lia|lia|reflexivity|reflexivity|].
  split; [|exact (H2 eq_refl)].
  eexists. split; [exact H1|]. split; vm_compute; reflexivity.
Defined.

(** C9 on a guide with palettes of its own and one with the built-in ones. *)
Lemma palettes_of_guide_unused_witness :
  build_prompt "standing hero" "player" 64 1 (Some "zeus")
    (JDict (<["palettes" := JDict ∅]> (<["base_style" := JStr "flat"]> ∅)))
  = build_prompt "standing hero" "player" 64 1 (Some "zeus")
      (JDict (<["palettes" := GOD_PALETTES_json]> (<["base_style" := JStr "flat"]> ∅))).
Proof.
  apply palettes_of_guide_unused.
  intros k Hk.
  assert (Hne : "palettes" ≠ k) by (intros Heq; apply Hk; symmetry; exact Heq).
  rewrite (lookup_insert_ne _ "palettes" k _ Hne).
  rewrite (lookup_insert_ne _ "palettes" k _ Hne). reflexivity.
Defined.

(** C8 on a sprite directory that does not exist yet. *)
Lemma init_style_guide_fields_witness :
  ∃ w' g,
    cmd_init sample_env empty_world = Done 0 w'
    ∧ FS.get (fs w') STYLE_GUIDE_PATH = Some (File (Json (JDict g)))
    ∧ g !! "base_style" = Some (JStr DEFAULT_STYLE_PROMPT)
    ∧ g !! "palettes" = Some GOD_PALETTES_json
    ∧ g !! "aesthetic" = None.
Proof.
  apply (init_style_guide_fields sample_env empty_world
           (world_of (ensure_directories empty_world))).
  - vm_compute. reflexivity.
  - vm_compute. reflexivity.
Defined.

(** C1 on a response with two images: the run returns 0 and keeps the
    second. *)
Lemma generate_keeps_last_image_witness :
  ∃ tg w1 d,
    generate_target no_containers sample_env sample_gen_args empty_world = Done tg w1
    ∧ last (images (chunks (generate_content_stream sample_env (api_calls empty_world)))) = Some d
    ∧ FS.get (fs staged_world) (Target.output_path tg) = Some (File (Bytes d))
    ∧ (∀ c s, c ∈ chunks (generate_content_stream sample_env (api_calls empty_world)) →
              chunk_note c = Some s → ("API note: " +:+ s) ∈ out staged_world).
Proof.
  apply (generate_keeps_last_image no_containers sample_env sample_gen_args
           empty_world staged_world).
  vm_compute. reflexivity.
Defined.

(** C1 as stated fails: of two image chunks the first carries [image_A],
    and the file written holds [image_B]. *)
Lemma first_image_overwritten :
  cmd_generate no_containers sample_env sample_gen_args empty_world = Done 0 staged_world
  ∧ head (images (chunks (generate_content_stream sample_env 0))) = Some image_A
  ∧ FS.get (fs staged_world) ["staging"; "3f2a9c1e"; "sprite.png"] = Some (File (Bytes image_B))
  ∧ image_A ≠ image_B.
Proof.
  split; [vm_compute; reflexivity|].
  split; [vm_compute; reflexivity|].
  split; [vm_compute; reflexivity|].
  discriminate.
Qed.

(** C5 on a service that fails after two notes: the message is reported,
    the code is 1, and one request was made. *)
Lemma generate_failure_modes_witness :
  generation_failed "503 Service Unavailable"
    (cmd_generate no_containers failing_env sample_gen_args empty_world)
  ∧ api_calls (world_of (cmd_generate no_containers failing_env sample_gen_args empty_world))
    = 1%nat.
Proof.
  destruct (generate_target no_containers failing_env sample_gen_args empty_world)
    as [tg w1| |] eqn:Htg; [|vm_compute in Htg; discriminate Htg..].
  destruct (generate_failure_modes no_containers failing_env sample_gen_args empty_world
              tg w1 Htg) as (_ & Hfail & Hcalls).
  vm_compute in Htg. injection Htg as <- <-.
  assert (H : generation_failed "503 Service Unavailable"
                (cmd_generate no_containers failing_env sample_gen_args empty_world)).
  { apply Hfail.
    - reflexivity.
    - repeat (apply Forall_cons_2; [eexists; reflexivity|]). apply Forall_nil_2.
    - vm_compute. reflexivity. }
  split; [exact H|].
  destruct H as (w' & Hrun & _). rewrite Hrun. cbn [world_of].
  apply (Hcalls 1 w' Hrun). discriminate.
Defined.

(** C5 as stated fails: the one chunk of this response carries inline
    image data, in its second part, and [cmd_generate] reports that no
    image was generated. *)
Lemma no_image_despite_payload :
  chunks (generate_content_stream mixed_env 0) = [note_then_image]
  ∧ failure (generate_content_stream mixed_env 0) = None
  ∧ carries_image note_then_image = true
  ∧ no_image_failure (cmd_generate no_containers mixed_env sample_gen_args empty_world).
Proof.
  split; [reflexivity|]. split; [reflexivity|]. split; [reflexivity|].
  eexists. split; [vm_compute; reflexivity|]. vm_compute. reflexivity.
Qed.

(** C10 on a batch of two items and a service that fails: both items
    fail, each leaves its warning, and the batch returns 0. *)
Lemma batch_returns_zero_witness :
  ∃ w',
    cmd_batch no_containers failing_env sample_batch_args empty_world = Done 0 w'
    ∧ filter (String.prefix "Warning: Failed to generate") (out w')
      = ["Warning: Failed to generate idle"; "Warning: Failed to generate idle"].
Proof.
  destruct (batch_returns_zero no_containers failing_env sample_batch_args sample_batch
              empty_world) as [H _]; [reflexivity|].
  eexists. split.
  - apply H. cbn [default items sample_batch length].
    eapply items_return_cons; [vm_compute; reflexivity|].
    eapply items_return_cons; [vm_compute; reflexivity|].
    apply items_return_nil.
  - vm_compute. reflexivity.
Defined.

(** C10 as stated fails: this batch manifest exists and parses, and with no
    API key the first item ends the process with exit code 1. *)
Lemma batch_exits_without_key :
  batch_files no_key_env (BatchArgs.manifest sample_batch_args) = Some sample_batch
  ∧ ∃ w', cmd_batch no_containers no_key_env sample_batch_args empty_world = Exited 1 w'.
Proof.
  split; [reflexivity|]. eexists. vm_compute. reflexivity.
Qed.

(** C7 on a sprite directory that does not exist yet. *)
Lemma approve_failures_witness :
  cmd_approve no_containers sample_env sample_approve_args empty_world
  = Done 1 (add_out "Error: Staging asset not found: 3f2a9c1e"
              (world_of (ensure_directories empty_world))).
Proof.
  destruct (approve_failures no_containers sample_env sample_approve_args empty_world
              (world_of (ensure_directories empty_world))) as (H & _).
  - vm_compute. reflexivity.
  - vm_compute. reflexivity.
  - apply H. vm_compute. reflexivity.
Defined.

(** C7 as stated fails: the failed approve has changed the used tree,
    which did not exist before and now holds directories. *)
Lemma approve_failure_creates_directories :
  ∃ w',
    cmd_approve no_containers sample_env sample_approve_args empty_world = Done 1 w'
    ∧ FS.exists_ (fs empty_world) ["used"] = false
    ∧ FS.is_dir (fs w') ["used"; "player"; "base"] = true.
Proof.
  eexists. split; [vm_compute; reflexivity|].
  split; vm_compute; reflexivity.
Qed.

(** C2 on the staged sprite, approved as [player] / [idle]. *)
Lemma approve_moves_to_used_witness :
  ∃ w',
    cmd_approve no_containers sample_env sample_approve_args staged_world = Done 0 w'
    ∧ FS.exists_ (fs w') ["staging"; "3f2a9c1e"] = false
    ∧ FS.get (fs w') ["used"; "player"; "idle.png"] = Some (File (Bytes image_B))
    ∧ FS.get (fs w') ["used"; "player"; "idle.meta.json"]
        = Some (File (Json (JDict (<["approved_at" := JStr "2025-01-01T12:00:00"]>
                                     (<["status" := JStr "used"]> staged_meta)))))
    ∧ manifest_doc (fs w')
        = Some (JDict (<["assets" :=
                          JDict (<["player.idle" :=
                                     manifest_entry ["used"; "player"; "idle.png"]
                                       (JInt 4) (JInt 64)]> ∅)]>
                          (list_to_map [("version", JInt 1); ("assets", JDict ∅)]))).
Proof.
  apply (approve_moves_to_used no_containers sample_env sample_approve_args staged_world
           (world_of (ensure_directories staged_world)) staged_meta (Bytes image_B)
           "player" None "idle"
           (list_to_map [("version", JInt 1); ("assets", JDict ∅)]) ∅);
    vm_compute; reflexivity.
Defined.

(** C6 on the staged sprite, rejected for its proportions. *)
Lemma reject_moves_to_alternatives_witness :
  ∃ w',
    cmd_reject no_containers sample_env sample_reject_args staged_world = Done 0 w'
    ∧ FS.exists_ (fs w') ["staging"; "3f2a9c1e"] = false
    ∧ FS.is_dir (fs w') ["alternatives"; "3f2a9c1e"] = true
    ∧ FS.get (fs w') ["alternatives"; "3f2a9c1e"; "metadata.json"]
        = Some (File (Json (JDict
            (<["rejected_at" := JStr "2025-01-01T12:00:00"]>
               (<["rejection_reason" := JStr "bad proportions"]>
                  (<["status" := JStr "rejected"]> staged_meta))))))
    ∧ FS.get (fs w') ["alternatives"; "3f2a9c1e"; "sprite.png"] = Some (File (Bytes image_B)).
Proof.
  destruct (reject_moves_to_alternatives no_containers sample_env sample_reject_args
              staged_world (world_of (ensure_directories staged_world))) as (H & _).
  - vm_compute. reflexivity.
  - vm_compute. reflexivity.
  - destruct (H staged_meta "bad proportions") as (w' & H1 & H2 & H3 & H4 & H5).
    + reflexivity.
    + vm_compute. reflexivity.
    + vm_compute. reflexivity.
    + exists w'. split; [exact H1|]. split; [exact H2|]. split; [exact H3|]. split; [exact H4|].
      assert (H6 : ["sprite.png"] ≠ []) by discriminate.
      assert (H7 : ¬ ["metadata.json"] `prefix_of` ["sprite.png"])
        by (intros [k Hk]; discriminate Hk).
      etransitivity; [exact (H5 ["sprite.png"] H6 H7)|].
      vm_compute. reflexivity.
Defined.

(** * The further statements on the sample inputs *)

(** The icons directory of the user interface. *)
Lemma standard_directory_size_witness :
  get_size_for_category no_containers "ui" (Some "icons") = 64.
Proof.
  apply (standard_directory_size no_containers "ui" "icons").
  apply (bool_decide_unpack _). vm_compute. exact I.
Defined.

(** A guide that is a list, and a guide whose style text is a number. *)
Lemma prompt_guide_errors_witness :
  build_prompt "standing hero" "player" 64 1 None (JList [JInt 1]) = Error AttributeError
  ∧ build_prompt "standing hero" "player" 64 1 None bad_guide = Error TypeError.
Proof.
  split.
  - apply (prompt_guide_errors "standing hero" "player" 64 1 None (JList [JInt 1])); reflexivity.
  - refine (proj2 (prompt_guide_errors "standing hero" "player" 64 1 None bad_guide _)
              {[ "base_style" := JInt 7 ]} (JInt 7) _ _ _).
    + vm_compute. reflexivity.
    + reflexivity.
    + left. vm_compute. reflexivity.
    + reflexivity.
Defined.

(** The directories on a sprite directory that does not exist yet. *)
Lemma ensure_directories_idempotent_witness :
  ensure_directories (world_of (ensure_directories empty_world))
  = Done tt (world_of (ensure_directories empty_world)).
Proof.
  apply (ensure_directories_idempotent empty_world (world_of (ensure_directories empty_world))).
  vm_compute. reflexivity.
Defined.

(** A generation with no API key anywhere. *)
Lemma generate_needs_key_witness :
  api_key_found no_key_env = false
  ∧ files_kept (fs empty_world)
      (fs (world_of (cmd_generate no_containers no_key_env sample_gen_args empty_world)))
  ∧ same_counters empty_world
      (world_of (cmd_generate no_containers no_key_env sample_gen_args empty_world)).
Proof.
  assert (H : api_key_found no_key_env = false) by (vm_compute; reflexivity).
  split; [exact H|].
  destruct (generate_needs_key no_containers no_key_env sample_gen_args empty_world H)
    as (_ & _ & H1 & H2 & _).
  split; [exact H1|exact H2].
Defined.

(** A generation with a style guide whose style text is a number. *)
Lemma generate_rejects_guide_witness :
  cmd_generate no_containers sample_env sample_gen_args bad_guide_world
  = Raised TypeError (world_of (ensure_directories bad_guide_world)).
Proof.
  refine (proj1 (generate_rejects_guide no_containers sample_env sample_gen_args bad_guide_world
                   (world_of (ensure_directories bad_guide_world)) _) bad_guide TypeError _ _).
  - vm_compute. reflexivity.
  - vm_compute. reflexivity.
  - vm_compute. reflexivity.
Defined.

(** [init] on a sprite directory that does not exist yet, and again. *)
Lemma init_outcome_witness :
  FS.get (fs (world_of (cmd_init sample_env empty_world))) MANIFEST_PATH
  = Some (File (Json empty_manifest))
  ∧ same_counters empty_world (world_of (cmd_init sample_env empty_world)).
Proof.
  destruct (init_outcome sample_env empty_world 0 (world_of (cmd_init sample_env empty_world)))
    as (_ & _ & _ & H1 & _ & H2); [vm_compute; reflexivity|].
  split; [exact H1|exact H2].
Defined.

Lemma init_idempotent_witness :
  cmd_init sample_env (world_of (cmd_init sample_env empty_world))
  = Done 0 (add_out "Sprite directories initialized."
              (world_of (cmd_init sample_env empty_world))).
Proof.
  apply (init_idempotent sample_env empty_world 0). vm_compute. reflexivity.
Defined.




Lemma apply_idempotent_witness :
  ∃ key,
    cmd_apply no_containers sample_env (ApplyArgs.mk ["used"; "player"; "idle.png"])
      (world_of (cmd_apply no_containers sample_env
                   (ApplyArgs.mk ["used"; "player"; "idle.png"]) bare_world))
    = Done 0 (add_out ("Applied " +:+ key +:+ " to manifest")
                (world_of (cmd_apply no_containers sample_env
                             (ApplyArgs.mk ["used"; "player"; "idle.png"]) bare_world))).
Proof.
  apply (apply_idempotent no_containers sample_env
           (ApplyArgs.mk ["used"; "player"; "idle.png"]) bare_world).
  - discriminate.
  - vm_compute. reflexivity.
Defined.

(** The staged sample generation. *)
Lemma generate_stages_witness :
  ∃ d,
    FS.get (fs staged_world) ["staging"; str_take 8 (uuid4 sample_env (uuid_calls empty_world));
                              "sprite.png"] = Some (File (Bytes d))
    ∧ FS.get (fs staged_world) MANIFEST_PATH = FS.get (fs empty_world) MANIFEST_PATH
    ∧ uuid_calls staged_world = S (uuid_calls empty_world)
    ∧ clock staged_world = S (clock empty_world)
    ∧ api_calls staged_world = S (api_calls empty_world).
Proof.
  destruct (generate_stages no_containers sample_env sample_gen_args empty_world staged_world)
    as (w1 & sg & fp & d & _ & _ & _ & _ & Hsprite & _ & _ & Hman & Hu & Hcl & Hap).
  - vm_compute. reflexivity.
  - vm_compute. reflexivity.
  - vm_compute. reflexivity.
  - exists d. split; [exact Hsprite|]. split; [exact Hman|].
    split; [exact Hu|]. split; [exact Hcl|exact Hap].
Defined.

(** The direct sample generation. *)
Lemma generate_direct_witness :
  ∃ d (m a : gmap string json),
    FS.get (fs direct_world) ["used"; "player"; "idle.png"] = Some (File (Bytes d))
    ∧ manifest_doc (fs empty_world) = Some (JDict m) ∧ m !! "assets" = Some (JDict a)
    ∧ manifest_doc (fs direct_world)
      = Some (JDict (<["assets" :=
                        JDict (<["player.idle" :=
                                   manifest_entry ["used"; "player"; "idle.png"] (JInt 4)
                                     (JInt (chosen_size no_containers direct_gen_args))]> a)]> m)).
Proof.
  destruct (generate_direct no_containers sample_env direct_gen_args empty_world direct_world
              "player" None "idle")
    as (w1 & sg & fp & d & m & a & _ & _ & _ & _ & Hsprite & _ & Hm & Ha & Hdoc & _).
  - vm_compute. reflexivity.
  - reflexivity.
  - reflexivity.
  - reflexivity.
  - vm_compute. reflexivity.
  - vm_compute. reflexivity.
  - exact I.
  - vm_compute. reflexivity.
  - exists d, m, a. split; [exact Hsprite|]. split; [exact Hm|]. split; [exact Ha|exact Hdoc].
Defined.

(** A generation with a service that fails after two notes. *)
Lemma generate_failure_leaves_witness :
  FS.get (fs failed_world) (Target.metadata_path failed_target)
  = FS.get (fs requesting_world) (Target.metadata_path failed_target)
  ∧ clock failed_world = clock empty_world.
Proof.
  destruct (generate_failure_leaves no_containers failing_env sample_gen_args empty_world
              failed_target requesting_world 1 failed_world)
    as (_ & _ & Hmeta & _ & Hclock & _).
  - vm_compute. reflexivity.
  - vm_compute. reflexivity.
  - discriminate.
  - split; [exact Hmeta|exact Hclock].
Defined.

(** The staged sprite, rejected, then rejected and approved again. *)
Lemma reject_is_final_witness :
  cmd_reject no_containers sample_env sample_reject_args rejected_world
  = Done 1 (add_out "Error: Staging asset not found: 3f2a9c1e" rejected_world)
  ∧ cmd_approve no_containers sample_env sample_approve_args rejected_world
    = Done 1 (add_out "Error: Staging asset not found: 3f2a9c1e" rejected_world).
Proof.
  destruct (reject_is_final no_containers sample_env sample_reject_args staged_world
              rejected_world) as [H1 H2].
  - vm_compute. reflexivity.
  - vm_compute. reflexivity.
  - split; [exact (H1 sample_reject_args eq_refl)|exact (H2 sample_approve_args eq_refl)].
Defined.

(** The staged sprite, approved, then approved and rejected again. *)
Lemma approve_is_final_witness :
  cmd_approve no_containers sample_env sample_approve_args approved_world
  = Done 1 (add_out "Error: Staging asset not found: 3f2a9c1e" approved_world)
  ∧ cmd_reject no_containers sample_env sample_reject_args approved_world
    = Done 1 (add_out "Error: Staging asset not found: 3f2a9c1e" approved_world).
Proof.
  destruct (approve_is_final no_containers sample_env sample_approve_args staged_world
              approved_world) as [H1 H2].
  - vm_compute. reflexivity.
  - vm_compute. reflexivity.
  - split; [exact (H1 sample_approve_args eq_refl)|exact (H2 sample_reject_args eq_refl)].
Defined.

(** A staging entry that holds an image and no record. *)
Lemma reject_without_record_witness :
  ∃ w',
    cmd_reject no_containers sample_env sample_reject_args recordless_world = Done 0 w'
    ∧ FS.get (fs w') ["alternatives"; "3f2a9c1e"] = Some recordless_entry
    ∧ out w' = ["Rejected 3f2a9c1e"; "Reason: bad proportions"].
Proof.
  destruct (reject_without_record no_containers sample_env sample_reject_args recordless_world
              (world_of (ensure_directories recordless_world)) recordless_entry)
    as (w' & H1 & _ & H2 & H3 & _).
  - vm_compute. reflexivity.
  - vm_compute. reflexivity.
  - vm_compute. reflexivity.
  - vm_compute. reflexivity.
  - vm_compute. reflexivity.
  - exists w'. split; [exact H1|]. split; [exact H2|]. rewrite H3. vm_compute. reflexivity.
Defined.

(** A staging entry that holds its record and no image. *)
Lemma approve_without_image_witness :
  ∃ w2,
    cmd_approve no_containers sample_env sample_approve_args imageless_world
    = Raised (FileNotFoundError ["staging"; "3f2a9c1e"; "sprite.png"]) w2
    ∧ files_kept (fs imageless_world) (fs w2).
Proof.
  destruct (approve_without_image no_containers sample_env sample_approve_args imageless_world
              (world_of (ensure_directories imageless_world)) staged_meta "player" None "idle")
    as (w2 & H1 & H2 & _).
  - vm_compute. reflexivity.
  - vm_compute. reflexivity.
  - vm_compute. reflexivity.
  - vm_compute. reflexivity.
  - vm_compute. reflexivity.
  - vm_compute. reflexivity.
  - vm_compute. reflexivity.
  - vm_compute. reflexivity.
  - vm_compute. reflexivity.
  - vm_compute. reflexivity.
  - exists w2. split; [exact H1|exact H2].
Defined.

(** The listings after the sample runs. *)
Lemma listing_of_used_witness :
  ∃ w' items,
    cmd_list no_containers TypeError (ListArgs.mk "used" (Some "play")) direct_world = Done 0 w'
    ∧ items ≡ₚ map_to_list (shown_assets (Some "play") (assets_of direct_world))
    ∧ Sorted key_le items.
Proof.
  destruct (listing_of_used no_containers TypeError (ListArgs.mk "used" (Some "play")) direct_world
              (world_of (ensure_directories direct_world))
              (manifest_of direct_world) (assets_of direct_world))
    as (w' & items & H1 & _ & H2 & H3 & _).
  - reflexivity.
  - vm_compute. reflexivity.
  - vm_compute. reflexivity.
  - vm_compute. reflexivity.
  - apply (bool_decide_unpack _). vm_compute. exact I.
  - exists w', items. split; [exact H1|]. split; [exact H2|exact H3].
Defined.

Lemma listing_of_staging_witness :
  ∃ w' names,
    cmd_list no_containers TypeError (ListArgs.mk "staging" None) staged_world = Done 0 w'
    ∧ names ≡ₚ (map_to_list (entries staged_world "staging")).*1
    ∧ Sorted name_le names.
Proof.
  destruct (listing_of_staging no_containers TypeError (ListArgs.mk "staging" None) staged_world
              (world_of (ensure_directories staged_world)) (entries staged_world "staging"))
    as (w' & names & H1 & _ & H2 & H3 & _).
  - reflexivity.
  - vm_compute. reflexivity.
  - vm_compute. reflexivity.
  - apply (bool_decide_unpack _). vm_compute. exact I.
  - exists w', names. split; [exact H1|]. split; [exact H2|exact H3].
Defined.

Lemma listing_of_alternatives_witness :
  ∃ w' names,
    cmd_list no_containers TypeError (ListArgs.mk "alternatives" None) rejected_world = Done 0 w'
    ∧ names ≡ₚ (map_to_list (entries rejected_world "alternatives")).*1
    ∧ Sorted name_le names.
Proof.
  destruct (listing_of_alternatives no_containers TypeError (ListArgs.mk "alternatives" None)
              rejected_world (world_of (ensure_directories rejected_world))
              (entries rejected_world "alternatives"))
    as (w' & names & H1 & _ & H2 & H3 & _).
  - reflexivity.
  - vm_compute. reflexivity.
  - vm_compute. reflexivity.
  - apply (bool_decide_unpack _). vm_compute. exact I.
  - exists w', names. split; [exact H1|]. split; [exact H2|exact H3].
Defined.

(** A key between double quotes. *)
Lemma dotenv_round_trip_witness :
  scan_env [env_line "GEMINI_API_KEY" double_quote "secret"; env_line "SPRITEGEN_API_KEY" "" "other"]
  = Ok (Some "secret").
Proof.
  refine (proj1 (dotenv_round_trip sample_env "GEMINI_API_KEY" double_quote "secret"
                   [env_line "SPRITEGEN_API_KEY" "" "other"] empty_world _ _ _ _)).
  - left. reflexivity.
  - right. left. reflexivity.
  - split; vm_compute; reflexivity.
  - split; vm_compute; reflexivity.
Defined.

